(** * python-plexapi, [plexapi/base.py]: a shallow embedding

    The development follows the layout of [plexapi/base.py]:

    - Python values, strings and exceptions as far as [base.py] uses them;
    - the query evaluator ([OPERATORS], [_getAttrOperator], [_getAttrValue],
      [_castAttrValue], [_checkAttrs]);
    - the object model ([PlexObject], [PlexPartialObject]): [__setattr__],
      attribute lookup, [isFullObject], [_reload], [__getattribute__],
      cache invalidation, batch edits;
    - [MediaContainer.extend], [findItems] and the [fetchItems] loop;
    - further methods: [_clean], [firstAttr], [listAttrs],
      [_findAndLoadElem], the [_reload] of sessions and history entries
      and [reload], [fetchItem], [findItem].

    Mutable Python objects are modelled by explicit state passing: an object
    is its [__dict__] (a [gmap] from attribute names to values), the
    transport and the edit sink are logs inside a [world]. *)

From Stdlib Require Import ZArith String Ascii List Bool Lia DecimalString.
From stdpp Require Import base option gmap strings list fin_maps.

Set Warnings "-register-all".
Local Open Scope string_scope.
Local Open Scope Z_scope.

(** ** Exceptions and results *)

Inductive exn :=
| TypeError
| ValueError
| AttributeError
| IndexError
| NotImplementedError
| BadRequest
| NotFound
| UnknownType
| Unsupported
| TransportError
| FloatValue.     (* a [float] would be produced; floats are outside the model *)

Inductive result (A : Type) :=
| Ok (a : A)
| Raise (e : exn).
Arguments Ok {A} a.
Arguments Raise {A} e.

Definition rbind {A B} (r : result A) (k : A -> result B) : result B :=
  match r with
  | Ok a => k a
  | Raise e => Raise e
  end.

Notation "x <-? r ;; k" := (rbind r (fun x => k))
  (at level 100, r at next level, right associativity).

(** ** Python strings (ASCII fragment) *)

Module PyStr.

Definition lower_ascii (c : ascii) : ascii :=
  let n := nat_of_ascii c in
  if (Nat.leb 65 n && Nat.leb n 90)%bool then ascii_of_nat (n + 32) else c.

(** [str.lower] *)
Fixpoint lower (s : string) : string :=
  match s with
  | EmptyString => EmptyString
  | String c s' => String (lower_ascii c) (lower s')
  end.

(** [s.startswith(p)] *)
Definition startswith (s p : string) : bool := String.prefix p s.

(** [s.endswith(p)] *)
Definition endswith (s p : string) : bool :=
  String.prefix (String.rev p) (String.rev s).

Fixpoint drop (n : nat) (s : string) : string :=
  match n, s with
  | O, _ => s
  | S n', String _ s' => drop n' s'
  | S _, EmptyString => EmptyString
  end.

(** [sub in s] on strings *)
Fixpoint contains (s sub : string) : bool :=
  String.prefix sub s ||
  match s with
  | EmptyString => false
  | String _ s' => contains s' sub
  end.

(** [s.split(sep, 1)] for a non-empty [sep]: the text before the leftmost
    occurrence of [sep] and, when there is one, the text after it. *)
Fixpoint split1 (sep s : string) : string * option string :=
  if String.prefix sep s then (EmptyString, Some (drop (String.length sep) s))
  else match s with
       | EmptyString => (EmptyString, None)
       | String c s' =>
           let '(a, b) := split1 sep s' in (String c a, b)
       end.

(** [s.rsplit(sep, 1)[0]]: the text before the rightmost occurrence of
    [sep], the whole string when there is none. *)
Definition rsplit1_head (sep s : string) : string :=
  match split1 (String.rev sep) (String.rev s) with
  | (_, Some b) => String.rev b
  | (a, None) => String.rev a
  end.

Definition is_digit (c : ascii) : bool :=
  let n := nat_of_ascii c in (Nat.leb 48 n && Nat.leb n 57)%bool.

Fixpoint digits_value (acc : Z) (s : string) : option Z :=
  match s with
  | EmptyString => Some acc
  | String c s' =>
      if is_digit c
      then digits_value (10 * acc + Z.of_nat (nat_of_ascii c - 48)) s'
      else None
  end.

(** [int(s)] on an optional sign followed by at least one decimal digit;
    anything else is a [ValueError]. *)
Definition parse_int (s : string) : result Z :=
  let unsigned (t : string) : result Z :=
    match t with
    | EmptyString => Raise ValueError
    | _ => match digits_value 0 t with
           | Some z => Ok z
           | None => Raise ValueError
           end
    end in
  match s with
  | String c t =>
      if Ascii.eqb c "-" then z <-? unsigned t ;; Ok (- z)
      else if Ascii.eqb c "+" then unsigned t
      else unsigned s
  | EmptyString => unsigned s
  end.

End PyStr.

(** ** The attribute tree ([xml.etree.ElementTree.Element])

    [eid] is the identity of the Python object ([id(elem)]); everything
    else is the element's content. *)

Inductive Element :=
| Elem (eid : N) (tag : string) (attrib : list (string * string))
       (children : list Element).

Definition eid (e : Element) : N := let 'Elem i _ _ _ := e in i.
Definition tag (e : Element) : string := let 'Elem _ t _ _ := e in t.
Definition attrib (e : Element) : list (string * string) :=
  let 'Elem _ _ a _ := e in a.
Definition children (e : Element) : list Element :=
  let 'Elem _ _ _ c := e in c.

(** [elem.attrib.get(name)] *)
Fixpoint attrib_get (a : list (string * string)) (name : string)
  : option string :=
  match a with
  | [] => None
  | (k, v) :: a' => if String.eqb k name then Some v else attrib_get a' name
  end.

(** ** Python values *)

Inductive pyval :=
| VNone
| VBool (b : bool)
| VInt (z : Z)
| VStr (s : string)
| VList (l : list pyval)
| VDict (d : gmap string pyval)
| VElem (e : Element).

Definition of_opt_str (o : option string) : pyval :=
  match o with
  | Some s => VStr s
  | None => VNone
  end.

Definition is_none (v : pyval) : bool :=
  match v with
  | VNone => true
  | _ => false
  end.

(** [bool(v)] *)
Definition truthy (v : pyval) : bool :=
  match v with
  | VNone => false
  | VBool b => b
  | VInt z => negb (z =? 0)
  | VStr s => negb (String.eqb s "")
  | VList l => match l with [] => false | _ => true end
  | VDict d => negb (bool_decide (d = ∅))
  | VElem e => match children e with [] => false | _ => true end
  end.

(** [a or b] *)
Definition py_or (a b : pyval) : pyval := if truthy a then a else b.

(** The numeric reading of [bool] and [int] ([bool] is a subclass of [int]). *)
Definition as_number (v : pyval) : option Z :=
  match v with
  | VBool b => Some (if b then 1 else 0)
  | VInt z => Some z
  | _ => None
  end.

(** [a == b].  Lists compare element by element, [Element]s by identity
    (they define no [__eq__]).  No comparison in [base.py] has a dictionary
    on both sides (the left operand is an attribute value read from the
    tree, or is compared with [None] and [[]]); that case is left [false]. *)
Fixpoint py_eq (a b : pyval) {struct a} : bool :=
  match a, b with
  | VNone, VNone => true
  | VStr s, VStr t => String.eqb s t
  | VList l, VList m =>
      (fix go (l : list pyval) (m : list pyval) {struct l} : bool :=
         match l, m with
         | [], [] => true
         | x :: l', y :: m' => py_eq x y && go l' m'
         | _, _ => false
         end) l m
  | VDict _, VDict _ => false
  | VElem e, VElem f => N.eqb (eid e) (eid f)
  | _, _ =>
      match as_number a, as_number b with
      | Some x, Some y => x =? y
      | _, _ => false
      end
  end.

(** [v in seq] for a tuple or list [seq] *)
Definition py_in_list (v : pyval) (l : list pyval) : bool :=
  existsb (fun x => py_eq v x) l.

(** [x in container] *)
Definition py_in (x container : pyval) : result bool :=
  match container with
  | VStr s =>
      match x with
      | VStr t => Ok (PyStr.contains s t)
      | _ => Raise TypeError
      end
  | VList l => Ok (py_in_list x l)
  | VDict d =>
      match x with
      | VStr k => Ok (bool_decide (is_Some (d !! k)))
      | VList _ | VDict _ => Raise TypeError
      | _ => Ok false
      end
  | _ => Raise TypeError
  end.

(** The ordering of two numbers or of two strings; any other pair of the
    values an attribute can be cast to is a [TypeError]. *)
Definition py_compare (a b : pyval) : result comparison :=
  match as_number a, as_number b with
  | Some x, Some y => Ok (x ?= y)
  | _, _ =>
      match a, b with
      | VStr s, VStr t => Ok (String.compare s t)
      | _, _ => Raise TypeError
      end
  end.

(** [int(v)] *)
Definition py_int (v : pyval) : result Z :=
  match v with
  | VStr s => PyStr.parse_int s
  | VInt z => Ok z
  | VBool b => Ok (if b then 1 else 0)
  | _ => Raise TypeError
  end.

(** [v.lower()] *)
Definition py_lower (v : pyval) : result string :=
  match v with
  | VStr s => Ok (PyStr.lower s)
  | _ => Raise AttributeError
  end.

(** ** What [base.py] imports

    The standard library ([re], [urllib.parse]) and the rest of the
    [plexapi] package ([utils], [CONFIG], the type registry) are not part of
    [base.py]; the code is modelled over an arbitrary implementation of
    them. *)

Class Imports := {
  (** [bool(re.search(pattern, text, flags))], the flag being [re.IGNORECASE] *)
  re_search : bool -> string -> string -> bool;
  (** [urlparse(s).path] *)
  url_path : string -> string;
  (** [parse_qsl(urlparse(s).query)] *)
  url_query : string -> list (string * string);
  (** [urlencode(items)] *)
  urlencode : list (string * pyval) -> string;
  (** [utils.cast(int, value)] *)
  utils_cast_int : pyval -> pyval;
  (** [utils.searchType(libtype)] *)
  utils_searchType : pyval -> result pyval;
  (** [CONFIG.get('plexapi.autoreload', True, bool)] *)
  config_autoreload : pyval;
  (** [X_PLEX_CONTAINER_SIZE] *)
  X_PLEX_CONTAINER_SIZE : Z;
}.

(** ** The query evaluator *)

Section QueryEvaluator.
Context `{Imports}.

Definition operator := pyval -> pyval -> result bool.

Definition op_exact : operator := fun v q => Ok (py_eq v q).

Definition op_iexact : operator := fun v q =>
  a <-? py_lower v ;; b <-? py_lower q ;; Ok (String.eqb a b).

Definition op_contains : operator := fun v q => py_in q v.

Definition op_icontains : operator := fun v q =>
  b <-? py_lower q ;; a <-? py_lower v ;; Ok (PyStr.contains a b).

Definition op_ne : operator := fun v q => Ok (negb (py_eq v q)).

Definition op_in : operator := fun v q => py_in v q.

Definition op_gt : operator := fun v q =>
  c <-? py_compare v q ;;
  Ok match c with Gt => true | _ => false end.

Definition op_gte : operator := fun v q =>
  c <-? py_compare v q ;;
  Ok match c with Lt => false | _ => true end.

Definition op_lt : operator := fun v q =>
  c <-? py_compare v q ;;
  Ok match c with Lt => true | _ => false end.

Definition op_lte : operator := fun v q =>
  c <-? py_compare v q ;;
  Ok match c with Gt => false | _ => true end.

Definition op_startswith : operator := fun v q =>
  match v, q with
  | VStr a, VStr b => Ok (PyStr.startswith a b)
  | VStr _, _ => Raise TypeError
  | _, _ => Raise AttributeError
  end.

Definition op_istartswith : operator := fun v q =>
  a <-? py_lower v ;; b <-? py_lower q ;; Ok (PyStr.startswith a b).

Definition op_endswith : operator := fun v q =>
  match v, q with
  | VStr a, VStr b => Ok (PyStr.endswith a b)
  | VStr _, _ => Raise TypeError
  | _, _ => Raise AttributeError
  end.

Definition op_iendswith : operator := fun v q =>
  a <-? py_lower v ;; b <-? py_lower q ;; Ok (PyStr.endswith a b).

Definition op_exists : operator := fun v q =>
  Ok (if truthy q then negb (is_none v) else is_none v).

Definition op_regex (ignorecase : bool) : operator := fun v q =>
  match q, v with
  | VStr pattern, VStr text => Ok (re_search ignorecase pattern text)
  | _, _ => Raise TypeError
  end.

(** [OPERATORS], in the order of the dictionary literal *)
Definition OPERATORS : list (string * operator) :=
  [ ("exact", op_exact); ("iexact", op_iexact);
    ("contains", op_contains); ("icontains", op_icontains);
    ("ne", op_ne); ("in", op_in);
    ("gt", op_gt); ("gte", op_gte); ("lt", op_lt); ("lte", op_lte);
    ("startswith", op_startswith); ("istartswith", op_istartswith);
    ("endswith", op_endswith); ("iendswith", op_iendswith);
    ("exists", op_exists);
    ("regex", op_regex false); ("iregex", op_regex true) ].

Fixpoint find_operator (ops : list (string * operator)) (attr : string)
  : option (string * string * operator) :=
  match ops with
  | [] => None
  | (op, f) :: ops' =>
      if PyStr.endswith attr ("__" +:+ op)
      then Some (PyStr.rsplit1_head "__" attr, op, f)
      else find_operator ops' attr
  end.

Definition _getAttrOperator (attr : string) : string * string * operator :=
  match find_operator OPERATORS attr with
  | Some r => r
  | None => (attr, "exact", op_exact)
  end.

(** The last step of [_getAttrValue]: the element's own tag or attribute. *)
Fixpoint first_attrib_ci (attr : string) (a : list (string * string))
  : list pyval :=
  match a with
  | [] => []
  | (_attr, value) :: a' =>
      if String.eqb (PyStr.lower attr) (PyStr.lower _attr)
      then [VStr value]
      else first_attrib_ci attr a'
  end.

Definition own_value (tg : string) (att : list (string * string))
  (attr : string) : list pyval :=
  if String.eqb (PyStr.lower attr) "etag" then [VStr tg]
  else first_attrib_ci attr att.

Definition not_none (l : list pyval) : list pyval :=
  List.filter (fun r => negb (is_none r)) l.

(** [_getAttrValue(elem, attrstr, results)].  The list [results] is one
    Python object shared by the caller and every recursive call: each call
    appends to it in place ([results += ...]) and the caller appends the
    returned copy once more.  The function takes the content of that
    list and returns the returned list together with the content of the
    shared list afterwards. *)
Fixpoint getAttrValue_shared (elem : Element) (attrstr : string)
  (results : list pyval) {struct elem} : list pyval * list pyval :=
  let 'Elem _ tg att kids := elem in
  let '(attr, rest) := PyStr.split1 "__" attrstr in
  match rest with
  | Some (String c r) =>
      let attrstr' := String c r in
      let results' :=
        (fix each_child (cs : list Element) (results : list pyval)
           {struct cs} : list pyval :=
           match cs with
           | [] => results
           | child :: cs' =>
               if String.eqb (PyStr.lower (tag child)) (PyStr.lower attr)
               then
                 let '(returned, results) :=
                   getAttrValue_shared child attrstr' results in
                 each_child cs' (results ++ returned)%list
               else each_child cs' results
           end) kids results in
      (not_none results', results')
  | _ => (own_value tg att attr, results)
  end.

(** [_getAttrValue(elem, attrstr)], with [results=None] *)
Definition _getAttrValue (elem : Element) (attrstr : string) : list pyval :=
  fst (getAttrValue_shared elem attrstr []).

Definition _castAttrValue (op : string) (query value : pyval)
  : result pyval :=
  if String.eqb op "exists" then Ok value
  else match query with
       | VBool _ => z <-? py_int value ;; Ok (VBool (negb (z =? 0)))
       | VInt _ =>
           dot <-? py_in (VStr ".") value ;;
           if (dot : bool) then Raise FloatValue
           else z <-? py_int value ;; Ok (VInt z)
       | _ => Ok value
       end.

(** The inner loop of [_checkAttrs]: the first value that satisfies the
    operator ends the loop. *)
Fixpoint any_value_matches (op : string) (oper : operator) (query : pyval)
  (values : list pyval) : result bool :=
  match values with
  | [] => Ok false
  | value :: values' =>
      value' <-? _castAttrValue op query value ;;
      b <-? oper value' query ;;
      if (b : bool) then Ok true
      else any_value_matches op oper query values'
  end.

(** [query in (None, 0, '')] *)
Definition is_missing_query (query : pyval) : bool :=
  py_in_list query [VNone; VInt 0; VStr ""].

(** The outer loop of [_checkAttrs]: either the early [return True] or
    the dictionary [attrsFound] at the end of the loop. *)
Fixpoint checkAttrs_loop (elem : Element) (kwargs : list (string * pyval))
  (attrsFound : gmap string bool) : result (option (gmap string bool)) :=
  match kwargs with
  | [] => Ok (Some attrsFound)
  | (key, query) :: kwargs' =>
      let '(attr, op, oper) := _getAttrOperator key in
      let values := _getAttrValue elem attr in
      if String.eqb op "exact"
         && match values with [] => true | _ => false end
         && is_missing_query query
      then Ok None
      else
        found <-? any_value_matches op oper query values ;;
        checkAttrs_loop elem kwargs' (<[attr := found]> attrsFound)
  end.

Definition all_values (m : gmap string bool) : bool :=
  bool_decide (map_Forall (fun _ b => b = true) m).

Definition _checkAttrs (elem : Element) (kwargs : list (string * pyval))
  : result bool :=
  r <-? checkAttrs_loop elem kwargs ∅ ;;
  match r with
  | None => Ok true
  | Some attrsFound => Ok (all_values attrsFound)
  end.

End QueryEvaluator.

(** ** Classes

    A class is known to [base.py] by its bases, the data attributes and
    properties of its body, and its [_loadData].  [Mixin] is a plain class
    without bases ([PlexSession], [PlexHistory], [Playable]); [PlexClass]
    is a class created by the metaclass [PlexObjectMeta].  A property
    receives [self] as a reader of attributes. *)

Definition reader := string -> option pyval.

Inductive member :=
| ClassAttr (v : pyval)                       (* [key = None], [TYPE = 'movie'] *)
| Property (f : reader -> pyval)              (* [@property] *)
| CachedDataProperty (f : reader -> pyval).   (* [@cached_data_property] *)

(** [_loadData(self, data)] as the assignments [self.attr = value] it
    performs, in order. *)
Definition loader := Element -> list (string * pyval).

Inductive pyclass :=
| Mixin (name : string) (body : list (string * member))
        (loadData : option loader)
| PlexClass (name : string) (bases : list pyclass)
            (body : list (string * member)) (loadData : option loader).

Fixpoint assoc {A} (l : list (string * A)) (name : string) : option A :=
  match l with
  | [] => None
  | (k, v) :: l' => if String.eqb k name then Some v else assoc l' name
  end.

Definition class_name (c : pyclass) : string :=
  match c with
  | Mixin n _ _ => n
  | PlexClass n _ _ _ => n
  end.

(** Attribute lookup on the class: its own body, then its bases from left
    to right. *)
Fixpoint class_lookup (c : pyclass) (name : string) : option member :=
  match c with
  | Mixin _ body _ => assoc body name
  | PlexClass _ bases body _ =>
      match assoc body name with
      | Some m => Some m
      | None =>
          (fix in_bases (bs : list pyclass) : option member :=
             match bs with
             | [] => None
             | b :: bs' =>
                 match class_lookup b name with
                 | Some m => Some m
                 | None => in_bases bs'
                 end
             end) bases
      end
  end.

(** The [_loadData] an instance of the class runs. *)
Fixpoint class_loadData (c : pyclass) : option loader :=
  match c with
  | Mixin _ _ ld => ld
  | PlexClass _ bases _ ld =>
      match ld with
      | Some f => Some f
      | None =>
          (fix in_bases (bs : list pyclass) : option loader :=
             match bs with
             | [] => None
             | b :: bs' =>
                 match class_loadData b with
                 | Some f => Some f
                 | None => in_bases bs'
                 end
             end) bases
      end
  end.

(** [isinstance(self, cls)] for the class named [name] *)
Fixpoint inherits (name : string) (c : pyclass) : bool :=
  String.eqb (class_name c) name ||
  match c with
  | Mixin _ _ _ => false
  | PlexClass _ bases _ _ =>
      (fix in_bases (bs : list pyclass) : bool :=
         match bs with
         | [] => false
         | b :: bs' => inherits name b || in_bases bs'
         end) bases
  end.

(** The names a class body binds to a [cached_data_property]. *)
Fixpoint own_cached (body : list (string * member)) : gset string :=
  match body with
  | [] => ∅
  | (name, CachedDataProperty _) :: body' => {[ name ]} ∪ own_cached body'
  | _ :: body' => own_cached body'
  end.

(** The class attribute [_cached_data_properties]: for a plain class the
    names [cached_data_property.__set_name__] registers, for a class made by
    [PlexObjectMeta.__new__] the union of the sets of its bases and of the
    names of its own body. *)
Fixpoint _cached_data_properties (c : pyclass) : gset string :=
  match c with
  | Mixin _ body _ => own_cached body
  | PlexClass _ bases body _ =>
      (fix of_bases (bs : list pyclass) : gset string :=
         match bs with
         | [] => ∅
         | b :: bs' => _cached_data_properties b ∪ of_bases bs'
         end) bases ∪ own_cached body
  end.

(** ** Objects *)

Record pyobj := PyObj {
  ob_class : pyclass;
  ob_dict : gmap string pyval;       (* [self.__dict__] *)
}.

Definition with_dict (self : pyobj) (d : gmap string pyval) : pyobj :=
  {| ob_class := ob_class self; ob_dict := d |}.

(** [PlexObject.__setattr__] *)
Definition __setattr__ (self : pyobj) (attr : string) (value : pyval)
  : pyobj :=
  let overwriteNone := default VNone (ob_dict self !! "_overwriteNone") in
  if negb (is_none value)
     || PyStr.startswith attr "_"
     || negb (bool_decide (is_Some (ob_dict self !! attr)))
     || truthy overwriteNone
  then with_dict self (<[attr := value]> (ob_dict self))
  else self.

(** [self] as its properties read it: the instance dictionary, then the
    data attributes of the class. *)
Definition self_reader (self : pyobj) : reader := fun name =>
  match ob_dict self !! name with
  | Some v => Some v
  | None =>
      match class_lookup (ob_class self) name with
      | Some (ClassAttr v) => Some v
      | _ => None
      end
  end.

(** [object.__getattribute__(self, attr)]: a property of the class first,
    then the instance dictionary, then the class.  A [cached_data_property]
    that is not yet in the dictionary is computed and stored there. *)
Definition object_getattribute (self : pyobj) (attr : string)
  : result pyval * pyobj :=
  let m := class_lookup (ob_class self) attr in
  match m with
  | Some (Property f) => (Ok (f (self_reader self)), self)
  | _ =>
      match ob_dict self !! attr with
      | Some v => (Ok v, self)
      | None =>
          match m with
          | Some (ClassAttr v) => (Ok v, self)
          | Some (CachedDataProperty f) =>
              let v := f (self_reader self) in
              (Ok v, with_dict self (<[attr := v]> (ob_dict self)))
          | _ => (Raise AttributeError, self)
          end
      end
  end.

(** Reading an attribute that is no [cached_data_property] leaves the
    object as it is; the methods of [base.py] read their private
    attributes and [key] this way. *)
Definition attr_read (self : pyobj) (attr : string) : result pyval :=
  fst (object_getattribute self attr).

(** [getattr(self, attr, None)] *)
Definition attr_read_or_none (self : pyobj) (attr : string) : pyval :=
  match attr_read self attr with
  | Ok v => v
  | Raise _ => VNone
  end.

(** [hasattr(self, attr)] *)
Definition hasattr (self : pyobj) (attr : string) : bool :=
  match attr_read self attr with
  | Ok _ => true
  | Raise _ => false
  end.

(** [_invalidateCachedProperties] *)
Definition _invalidateCachedProperties (self : pyobj) : pyobj :=
  let cached_props := _cached_data_properties (ob_class self) in
  with_dict self
    (set_fold (fun prop_name d => delete prop_name d) (ob_dict self)
       cached_props).

(** [_loadData(data)]: each assignment goes through [__setattr__]. *)
Definition assign_all (self : pyobj) (l : list (string * pyval)) : pyobj :=
  fold_left (fun o kv => __setattr__ o kv.1 kv.2) l self.

Definition _loadData (self : pyobj) (data : Element) : result pyobj :=
  match class_loadData (ob_class self) with
  | Some f => Ok (assign_all self (f data))
  | None => Raise NotImplementedError
  end.

(** [id(data) != id(getattr(self, '_data', None))] *)
Definition is_other_object (old : pyval) (data : Element) : bool :=
  match old with
  | VElem e => negb (N.eqb (eid e) (eid data))
  | _ => true
  end.

(** [_invalidateCacheAndLoadData(data)]; when [_loadData] raises, the
    object keeps what was done before. *)
Definition _invalidateCacheAndLoadData (self : pyobj) (data : Element)
  : result unit * pyobj :=
  let old_data := attr_read_or_none self "_data" in
  let self := __setattr__ self "_data" (VElem data) in
  let self :=
    if is_other_object old_data data
    then _invalidateCachedProperties self
    else self in
  match _loadData self data with
  | Ok self' => (Ok tt, self')
  | Raise e => (Raise e, self)
  end.

(** ** The world outside the object

    The transport ([self._server.query]) answers a request knowing the
    requests made before it; the world records every request and every call
    of the edit sink ([LibrarySection._edit]). *)

Record request := Request {
  rq_key : pyval;
  rq_headers : list (string * string);
  rq_params : pyval;
}.

Record edit_call := EditCall {
  ec_section : N;                       (* the section [section()] found *)
  ec_items : pyobj;                     (* [items=self] *)
  ec_kwargs : gmap string pyval;
}.

Record world := World {
  w_queries : list request;
  w_edits : list edit_call;
  USER_DONT_RELOAD_FOR_KEYS : gset string;
}.

Definition record_query (w : world) (rq : request) : world :=
  {| w_queries := w_queries w ++ [rq];
     w_edits := w_edits w;
     USER_DONT_RELOAD_FOR_KEYS := USER_DONT_RELOAD_FOR_KEYS w |}.

Definition record_edit (w : world) (call : edit_call) : world :=
  {| w_queries := w_queries w;
     w_edits := w_edits w ++ [call];
     USER_DONT_RELOAD_FOR_KEYS := USER_DONT_RELOAD_FOR_KEYS w |}.

Class PlexServer := {
  (** [self._server.query(key, headers=..., params=...)] after the requests
      of the first argument *)
  server_query : list request -> request -> result Element;
  (** [self._server.library.sectionByID(id)] *)
  library_sectionByID : pyval -> result N;
}.

Definition _DONT_RELOAD_FOR_KEYS : gset string := {[ "key"; "sourceURI" ]}.

(** A method of an object: it may change the object and the world, and
    returns or raises. *)
Definition M (A : Type) : Type :=
  pyobj -> world -> result A * pyobj * world.

Definition ret {A} (a : A) : M A := fun self w => (Ok a, self, w).
Definition raise {A} (e : exn) : M A := fun self w => (Raise e, self, w).
Definition lift {A} (r : result A) : M A := fun self w => (r, self, w).

Definition bind {A B} (m : M A) (k : A -> M B) : M B := fun self w =>
  match m self w with
  | (Ok a, self', w') => k a self' w'
  | (Raise e, self', w') => (Raise e, self', w')
  end.

Notation "'let*' x ':=' m 'in' k" := (bind m (fun x => k))
  (at level 10, x name, m at level 100, k at level 200).
Notation "m '>>' k" := (bind m (fun _ => k))
  (at level 100, k at level 200, right associativity).

(** [self.attr], for a private attribute or [key] *)
Definition read (attr : string) : M pyval := fun self w =>
  (attr_read self attr, self, w).

(** [self.attr = value] *)
Definition setattr (attr : string) (value : pyval) : M unit := fun self w =>
  (Ok tt, __setattr__ self attr value, w).

Definition the_class : M pyclass := fun self w => (Ok (ob_class self), self, w).

Definition the_world : M world := fun self w => (Ok w, self, w).

Definition result_of {A} (x : result A * pyobj * world) : result A := x.1.1.
Definition self_of {A} (x : result A * pyobj * world) : pyobj := x.1.2.
Definition world_of {A} (x : result A * pyobj * world) : world := x.2.

Inductive urlpath :=
| StrPath (s : string)
| EmptyBytesPath.       (* [b''], the path of [urlparse(None)] *)

Definition urlpath_eqb (a b : urlpath) : bool :=
  match a, b with
  | StrPath s, StrPath t => String.eqb s t
  | EmptyBytesPath, EmptyBytesPath => true
  | _, _ => false
  end.

Section PlexObject.
Context `{Imports} `{PlexServer}.

(** [self._server.query(key, headers=headers, params=params)] *)
Definition query (rq : request) : M Element := fun self w =>
  (server_query (w_queries w) rq, self, record_query w rq).

(** [(urlparse(v).path, set(parse_qsl(urlparse(v).query)))].  A false
    value that is no string is decoded as the empty byte string, another
    value that is no string has no [decode]. *)
Definition urlparse (v : pyval)
  : result (urlpath * gset (string * string)) :=
  match v with
  | VStr s => Ok (StrPath (url_path s), list_to_set (url_query s))
  | _ => if truthy v then Raise AttributeError
         else Ok (EmptyBytesPath, ∅)
  end.

(** [1 if value is True else value] *)
Definition param_value (value : pyval) : pyval :=
  match value with
  | VBool true => VInt 1
  | _ => value
  end.

Definition dict_items (v : pyval) : result (gmap string pyval) :=
  match v with
  | VDict d => Ok d
  | _ => Raise AttributeError
  end.

(** [sorted(params.items())]: the keys of a dictionary differ, so the
    items are ordered by key. *)
Fixpoint insert_item (kv : string * pyval) (l : list (string * pyval))
  : list (string * pyval) :=
  match l with
  | [] => [kv]
  | kv' :: l' =>
      if String.leb kv.1 kv'.1 then kv :: l
      else kv' :: insert_item kv l'
  end.

Definition sorted_items (params : gmap string pyval)
  : list (string * pyval) :=
  foldr insert_item [] (map_to_list params).

(** [_buildDetailsKey] with the keyword arguments [kwargs]; [urlencode]
    receives the sorted items of [params]. *)
Definition _buildDetailsKey (kwargs : gmap string pyval) : M pyval :=
  let* details_key := read "key" in
  let* self := (fun self w => (Ok self, self, w)) in
  let* included :=
    if truthy details_key && hasattr self "_INCLUDES" then
      let* d := read "_INCLUDES" in
      let* includes := lift (dict_items d) in
      ret (map_imap (fun k v =>
             let value := default v (kwargs !! k) in
             if py_in_list value [VBool false; VInt 0; VStr "0"]
             then None else Some (param_value value)) includes)
    else ret ∅ in
  let* excluded :=
    if truthy details_key && hasattr self "_EXCLUDES" then
      let* d := read "_EXCLUDES" in
      let* excludes := lift (dict_items d) in
      ret (map_imap (fun k (_ : pyval) =>
             match kwargs !! k with
             | Some value =>
                 if is_none value then None else Some (param_value value)
             | None => None
             end) excludes)
    else ret ∅ in
  let params : gmap string pyval := excluded ∪ included in
  if bool_decide (params = ∅) then ret details_key
  else match details_key with
       | VStr s => ret (VStr (s +:+ "?" +:+ urlencode (sorted_items params)))
       | _ => raise TypeError
       end.

(** [isFullObject()] *)
Definition isFullObject : M bool :=
  let* details_key := read "_details_key" in
  let* k := if truthy details_key then ret details_key else read "key" in
  let* parsed_key := lift (urlparse k) in
  let* initpath := read "_initpath" in
  let* parsed_initpath := lift (urlparse initpath) in
  let* key := read "key" in
  ret (negb (truthy key)
       || (urlpath_eqb parsed_key.1 parsed_initpath.1
           && bool_decide (parsed_key.2 ⊆ parsed_initpath.2))).

(** [data[0]] *)
Definition first_child (data : Element) : result Element :=
  match children data with
  | [] => Raise IndexError
  | c :: _ => Ok c
  end.

(** [PlexObject._reload(key, _overwriteNone, **kwargs)] *)
Definition _reload (key : pyval) (_overwriteNone : bool)
  (kwargs : gmap string pyval) : M unit :=
  let* details_key :=
    if bool_decide (kwargs = ∅) then read "_details_key"
    else _buildDetailsKey kwargs in
  let* key :=
    if truthy key then ret key
    else if truthy details_key then ret details_key
    else read "key" in
  if negb (truthy key) then raise Unsupported
  else
    setattr "_initpath" key >>
    let* data := query {| rq_key := key; rq_headers := [];
                          rq_params := VNone |} in
    setattr "_overwriteNone" (VBool _overwriteNone) >>
    let* data0 := lift (first_child data) in
    (fun self w =>
       let '(r, self') := _invalidateCacheAndLoadData self data0 in
       (r, self', w)) >>
    setattr "_overwriteNone" (VBool true).

(** [super(PlexPartialObject, self).__getattribute__(attr)] *)
Definition super_getattribute (attr : string) : M pyval := fun self w =>
  let '(r, self') := object_getattribute self attr in (r, self', w).

Definition is_False (v : pyval) : bool :=
  match v with
  | VBool false => true
  | _ => false
  end.

(** [PlexPartialObject.__getattribute__(attr)] *)
Definition __getattribute__ (attr : string) : M pyval :=
  let* value := super_getattribute attr in
  if bool_decide (attr ∈ _DONT_RELOAD_FOR_KEYS) then ret value else
  let* w := the_world in
  if bool_decide (attr ∈ USER_DONT_RELOAD_FOR_KEYS w) then ret value else
  if PyStr.startswith attr "_" then ret value else
  if negb (py_in_list value [VNone; VList []]) then ret value else
  let* full := isFullObject in
  if (full : bool) then ret value else
  let* cls := the_class in
  if inherits "PlexSession" cls || inherits "PlexHistory" cls
  then ret value else
  let* autoReload := read "_autoReload" in
  if is_False autoReload then ret value else
  _reload VNone false ∅ >>
  super_getattribute attr.

(** [PlexObject.__init__(server, data, initpath)] on the new instance *)
Definition __init__ (data : option Element) (initpath : pyval) : M unit :=
  setattr "_data" match data with Some d => VElem d | None => VNone end >>
  let* initpath :=
    if truthy initpath then ret initpath else read "key" in
  setattr "_initpath" initpath >>
  setattr "_details_key" VNone >>
  setattr "_overwriteNone" (VBool true) >>
  setattr "_autoReload" config_autoreload >>
  setattr "_edits" VNone >>
  match data with
  | Some d => fun self w =>
      match _loadData self d with
      | Ok self' => (Ok tt, self', w)
      | Raise e => (Raise e, self, w)
      end
  | None => ret tt
  end >>
  let* details_key := _buildDetailsKey ∅ in
  setattr "_details_key" details_key.

(** [cls(server, data, initpath)] *)
Definition new (cls : pyclass) (data : option Element) (initpath : pyval)
  (w : world) : result unit * pyobj * world :=
  __init__ data initpath {| ob_class := cls; ob_dict := ∅ |} w.

End PlexObject.

(** The property [_searchType] of [PlexObject]: [self.TYPE] *)
Definition _searchType (self : reader) : pyval := default VNone (self "TYPE").

(** ** Batch edits ([PlexPartialObject]) *)

Section Edits.
Context `{Imports} `{PlexServer}.

(** [self.section()._edit(items=self, **kwargs)]: the call of the edit
    sink is recorded in the world. *)
Definition section_edit (sec : N) (kwargs : gmap string pyval) : M unit :=
  fun self w =>
    (Ok tt, self,
     record_edit w {| ec_section := sec; ec_items := self;
                      ec_kwargs := kwargs |}).

(** [section()] *)
Definition section : M N :=
  let* librarySectionID := __getattribute__ "librarySectionID" in
  lift (library_sectionByID librarySectionID).

(** [_edit] with the keyword arguments [kwargs];
    [self._edits.update(kwargs)] changes the dictionary stored in
    [_edits] in place. *)
Definition _edit (kwargs : gmap string pyval) : M unit :=
  let* edits := __getattribute__ "_edits" in
  match edits with
  | VDict d => fun self w =>
      (Ok tt,
       with_dict self (<["_edits" := VDict (kwargs ∪ d)]> (ob_dict self)),
       w)
  | _ =>
      let* kwargs :=
        if bool_decide (is_Some (kwargs !! "type")) then ret kwargs
        else
          let* searchType := __getattribute__ "_searchType" in
          let* t := lift (utils_searchType searchType) in
          ret (<["type" := t]> kwargs) in
      let* sec := section in
      section_edit sec kwargs
  end.

(** [edit] with the keyword arguments [kwargs] *)
Definition edit (kwargs : gmap string pyval) : M unit := _edit kwargs.

(** [batchEdits()] *)
Definition batchEdits : M unit := setattr "_edits" (VDict ∅).

(** [saveEdits()] *)
Definition saveEdits : M unit :=
  let* edits := __getattribute__ "_edits" in
  match edits with
  | VDict d => setattr "_edits" VNone >> _edit d
  | _ => raise BadRequest
  end.

End Edits.

(** ** [MediaContainer] *)

(** [a + b] *)
Definition py_add (a b : pyval) : result pyval :=
  match as_number a, as_number b with
  | Some x, Some y => Ok (VInt (x + y))
  | _, _ =>
      match a, b with
      | VStr s, VStr t => Ok (VStr (s +:+ t))
      | VList l, VList m => Ok (VList (l ++ m)%list)
      | _, _ => Raise TypeError
      end
  end.

(** [min(a, b)]: [b] when [b < a], else [a] *)
Definition py_min (a b : pyval) : result pyval :=
  c <-? py_compare b a ;;
  Ok match c with Lt => b | _ => a end.

(** A [MediaContainer] is a list and a [PlexObject]. *)
Record MediaContainer := MkContainer {
  mc_list : list pyobj;
  mc_self : pyobj;
}.

(** The argument of [extend] and the result of [findItems]: a plain list or
    a [MediaContainer]. *)
Inductive iterable :=
| PlainList (l : list pyobj)
| Container (c : MediaContainer).

Definition items_of (it : iterable) : list pyobj :=
  match it with
  | PlainList l => l
  | Container c => mc_list c
  end.

Definition provenance_keys : list string :=
  [ "allowSync"; "augmentationKey"; "identifier"; "librarySectionID";
    "librarySectionTitle"; "librarySectionUUID"; "mediaTagPrefix";
    "mediaTagVersion" ].

Definition len (l : list pyobj) : pyval := VInt (Z.of_nat (List.length l)).

(** A method of a container. *)
Definition MC (A : Type) : Type := MediaContainer -> result A * MediaContainer.

Definition mc_bind {A B} (m : MC A) (k : A -> MC B) : MC B := fun c =>
  match m c with
  | (Ok a, c') => k a c'
  | (Raise e, c') => (Raise e, c')
  end.

Notation "'let+' x ':=' m 'in' k" := (mc_bind m (fun x => k))
  (at level 10, x name, m at level 100, k at level 200).

Definition mc_lift {A} (r : result A) : MC A := fun c => (r, c).

Definition mc_read (attr : string) : MC pyval := fun c =>
  (attr_read (mc_self c) attr, c).

Definition mc_setattr (attr : string) (value : pyval) : MC unit := fun c =>
  (Ok tt, {| mc_list := mc_list c;
             mc_self := __setattr__ (mc_self c) attr value |}).

(** The loop of [extend] over the provenance fields. *)
Fixpoint fill_unset (other : pyobj) (keys : list string) : MC unit :=
  match keys with
  | [] => mc_lift (Ok tt)
  | key :: keys' => fun c =>
      let unset :=
        match attr_read (mc_self c) key with
        | Ok v => is_none v
        | Raise _ => true
        end in
      if unset then
        match attr_read other key with
        | Ok v => mc_bind (mc_setattr key v) (fun _ => fill_unset other keys') c
        | Raise _ => fill_unset other keys' c
        end
      else fill_unset other keys' c
  end.

(** [MediaContainer.extend(__iterable)] *)
Definition extend (it : iterable) : MC unit :=
  let+ size := mc_read "size" in
  fun c =>
    let curr_size := if negb (is_none size) then size else len (mc_list c) in
    let c := {| mc_list := mc_list c ++ items_of it; mc_self := mc_self c |} in
    match it with
    | PlainList _ => (Ok tt, c)
    | Container other =>
        (let+ new_total := mc_lift (attr_read (mc_self other) "totalSize") in
         let+ total :=
           if negb (is_none new_total) then mc_lift (Ok new_total)
           else mc_read "totalSize" in
         let+ _ := mc_setattr "totalSize" total in
         let+ new_size := mc_lift (attr_read (mc_self other) "size") in
         let+ size' :=
           mc_lift (py_add curr_size
                      (if negb (is_none new_size) then new_size
                       else len (mc_list other))) in
         let+ _ := mc_setattr "size" size' in
         let+ offset := mc_read "offset" in
         let+ new_offset :=
           if negb (is_none offset)
           then mc_lift (attr_read (mc_self other) "offset")
           else mc_lift (Ok VNone) in
         let+ offset' :=
           if negb (is_none offset) && negb (is_none new_offset)
           then mc_lift (py_min offset new_offset)
           else if negb (is_none offset) then mc_lift (Ok offset)
           else mc_lift (attr_read (mc_self other) "offset") in
         let+ _ := mc_setattr "offset" offset' in
         fill_unset (mc_self other) provenance_keys) c
    end.

(** ** Building and fetching items *)

(** [utils.getPlexObject(ehash, default)], the registry of classes *)
Class PlexRegistry := {
  utils_getPlexObject : string -> string -> option pyclass;
}.

(** [kwargs[key] = value] on keyword arguments kept in their order *)
Fixpoint kw_set (kwargs : list (string * pyval)) (key : string)
  (value : pyval) : list (string * pyval) :=
  match kwargs with
  | [] => [(key, value)]
  | (k, v) :: kwargs' =>
      if String.eqb k key then (k, value) :: kwargs'
      else (k, v) :: kw_set kwargs' key value
  end.

Definition kw_has (kwargs : list (string * pyval)) (key : string) : bool :=
  match assoc kwargs key with
  | Some _ => true
  | None => false
  end.

(** [str(n)] *)
Definition str_of_Z (n : Z) : string :=
  DecimalString.NilZero.string_of_int (Z.to_int n).

Section Fetch.
Context `{Imports} `{PlexServer} `{PlexRegistry}.

Definition PlexObject_class : pyclass :=
  PlexClass "PlexObject" []
    [ ("TAG", ClassAttr VNone); ("TYPE", ClassAttr VNone);
      ("key", ClassAttr VNone);
      ("_searchType", Property _searchType) ]
    None.

(** [MediaContainer._loadData] *)
Definition MediaContainer_loadData : loader := fun data =>
  let get name := of_opt_str (attrib_get (attrib data) name) in
  [ ("allowSync", utils_cast_int (get "allowSync"));
    ("augmentationKey", get "augmentationKey");
    ("identifier", get "identifier");
    ("librarySectionID", utils_cast_int (get "librarySectionID"));
    ("librarySectionTitle", get "librarySectionTitle");
    ("librarySectionUUID", get "librarySectionUUID");
    ("mediaTagPrefix", get "mediaTagPrefix");
    ("mediaTagVersion", get "mediaTagVersion");
    ("offset", utils_cast_int (get "offset"));
    ("size", utils_cast_int (get "size"));
    ("totalSize", utils_cast_int (get "totalSize")) ].

Definition MediaContainer_class : pyclass :=
  PlexClass "MediaContainer" [PlexObject_class]
    [ ("TAG", ClassAttr (VStr "MediaContainer")) ]
    (Some MediaContainer_loadData).

(** [cls(self._server, elem, initpath, parent=self)]: the constructor
    runs on a new object; the caller is not changed. *)
Definition construct (cls : pyclass) (elem : Element) (initpath : pyval)
  : M pyobj := fun self w =>
  let '(r, item, w') := new cls (Some elem) initpath w in
  match r with
  | Ok _ => (Ok item, self, w')
  | Raise e => (Raise e, self, w')
  end.

(** [MediaContainer[cls](self._server, data, initpath=initpath)] *)
Definition new_container (data : Element) (initpath : pyval)
  : M MediaContainer :=
  let* c := construct MediaContainer_class data initpath in
  ret {| mc_list := []; mc_self := c |}.

(** [elem.attrib.get('streamType', elem.attrib.get('tagType',
    elem.attrib.get('type')))] *)
Definition element_type (elem : Element) : option string :=
  match attrib_get (attrib elem) "streamType" with
  | Some t => Some t
  | None =>
      match attrib_get (attrib elem) "tagType" with
      | Some t => Some t
      | None => attrib_get (attrib elem) "type"
      end
  end.

(** [_buildItem(elem, cls, initpath)] *)
Definition _buildItem (elem : Element) (cls : option pyclass)
  (initpath : pyval) : M pyobj :=
  let* initpath :=
    if truthy initpath then ret initpath else read "_initpath" in
  match cls with
  | Some c => construct c elem initpath
  | None =>
      let etype := element_type elem in
      let ehash :=
        match etype with
        | Some (String c t) => tag elem +:+ "." +:+ String c t
        | _ => tag elem
        end in
      let* ehash :=
        if py_eq initpath (VStr "/status/sessions")
        then ret (ehash +:+ ".session")
        else match initpath with
             | VStr p =>
                 if PyStr.startswith p "/status/sessions/history"
                 then ret (ehash +:+ ".history") else ret ehash
             | _ => raise AttributeError
             end in
      match utils_getPlexObject ehash (tag elem) with
      | Some ecls => construct ecls elem initpath
      | None => raise UnknownType
      end
  end.

(** [_buildItemOrNone(elem, cls, initpath)] *)
Definition _buildItemOrNone (elem : Element) (cls : option pyclass)
  (initpath : pyval) : M (option pyobj) := fun self w =>
  match _buildItem elem cls initpath self w with
  | (Ok item, self', w') => (Ok (Some item), self', w')
  | (Raise UnknownType, self', w') => (Ok None, self', w')
  | (Raise e, self', w') => (Raise e, self', w')
  end.

(** [cls.TAG], [cls.TYPE] *)
Definition class_attr (cls : pyclass) (name : string) : result pyval :=
  match class_lookup cls name with
  | Some (ClassAttr v) => Ok v
  | _ => Raise AttributeError
  end.

(** [kwargs[target] = cls.<name>] when [cls], [cls.<name>] are true and
    [guard] is no key of [kwargs] *)
Definition inject (cls : option pyclass) (name guard target : string)
  (kwargs : list (string * pyval)) : result (list (string * pyval)) :=
  match cls with
  | Some c =>
      v <-? class_attr c name ;;
      if truthy v && negb (kw_has kwargs guard)
      then Ok (kw_set kwargs target v) else Ok kwargs
  | None => Ok kwargs
  end.

Definition append (items : iterable) (item : pyobj) : iterable :=
  match items with
  | PlainList l => PlainList (l ++ [item])
  | Container c =>
      Container {| mc_list := mc_list c ++ [item]; mc_self := mc_self c |}
  end.

(** The loop of [findItems] over the children of [data]. *)
Fixpoint find_each (elems : list Element) (cls : option pyclass)
  (initpath : pyval) (kwargs : list (string * pyval)) (items : iterable)
  : M iterable :=
  match elems with
  | [] => ret items
  | elem :: elems' =>
      let* ok := lift (_checkAttrs elem kwargs) in
      if (ok : bool) then
        let* item := _buildItemOrNone elem cls initpath in
        match item with
        | Some item => find_each elems' cls initpath kwargs (append items item)
        | None => find_each elems' cls initpath kwargs items
        end
      else find_each elems' cls initpath kwargs items
  end.

(** [findItems(data, cls, initpath, **kwargs)], without [rtag] *)
Definition findItems (data : Element) (cls : option pyclass)
  (initpath : pyval) (kwargs : list (string * pyval)) : M iterable :=
  let* kwargs := lift (inject cls "TAG" "tag" "etag" kwargs) in
  let* kwargs := lift (inject cls "TYPE" "type" "type" kwargs) in
  let* items :=
    if String.eqb (tag data) "MediaContainer"
    then let* c := new_container data initpath in ret (Container c)
    else ret (PlainList []) in
  find_each (children data) cls initpath kwargs items.

(** [item.librarySectionID = librarySectionID] for every item *)
Definition tag_items (librarySectionID : pyval) (it : iterable) : iterable :=
  let set item := __setattr__ item "librarySectionID" librarySectionID in
  match it with
  | PlainList l => PlainList (map set l)
  | Container c =>
      Container {| mc_list := map set (mc_list c); mc_self := mc_self c |}
  end.

Definition is_gt (a b : pyval) : result bool :=
  c <-? py_compare a b ;; Ok match c with Gt => true | _ => false end.

(** The state of the [while True] loop of [fetchItems]. *)
Record fetch_state := FetchState {
  container_start : Z;
  container_size : Z;
  results : MediaContainer;
}.

(** The request of one page. *)
Definition page_request (ekey params : pyval) (start size : Z) : request :=
  {| rq_key := ekey;
     rq_headers := [ ("X-Plex-Container-Start", str_of_Z start);
                     ("X-Plex-Container-Size", str_of_Z size) ];
     rq_params := params |}.

(** [utils.cast(int, data.attrib.get('totalSize') or
    data.attrib.get('size')) or len(subresults)] *)
Definition response_total (data : Element) (subresults : iterable) : pyval :=
  let get name := of_opt_str (attrib_get (attrib data) name) in
  py_or (utils_cast_int (py_or (get "totalSize") (get "size")))
        (len (items_of subresults)).

(** The items of a response, each given the [librarySectionID] of the
    response when it has one. *)
Definition tag_section (data : Element) (subresults : iterable) : iterable :=
  let librarySectionID :=
    utils_cast_int (of_opt_str (attrib_get (attrib data) "librarySectionID")) in
  if truthy librarySectionID then tag_items librarySectionID subresults
  else subresults.

(** One turn of the loop: [inl] the state of the next turn, [inr] the
    results at a [break]. *)
Definition fetch_turn (ekey : pyval) (cls : option pyclass)
  (maxresults : option Z) (params : pyval)
  (kwargs : list (string * pyval)) (offset : Z) (st : fetch_state)
  : M (fetch_state + MediaContainer) :=
  let* data := query (page_request ekey params (container_start st)
                        (container_size st)) in
  let* subresults := findItems data cls ekey kwargs in
  let total_size := response_total data subresults in
  let* _ :=
    match items_of subresults with
    | [] => lift (is_gt (VInt offset) total_size)
    | _ => ret false
    end in
  let subresults := tag_section data subresults in
  let '(r, results) := extend subresults (results st) in
  let* _ := lift r in
  let container_start := container_start st + container_size st in
  let* stop := lift (is_gt (VInt container_start) total_size) in
  if (stop : bool) then ret (inr results)
  else
    let* wanted := lift (py_add total_size (VInt (- offset))) in
    let* wanted_size :=
      match maxresults with
      | Some m =>
          let* wanted := lift (py_min (VInt m) wanted) in
          let* rest := lift (py_add wanted
                               (VInt (- Z.of_nat (List.length (mc_list results))))) in
          let* size := lift (py_min (VInt (container_size st)) rest) in
          match size with
          | VInt z => ret (wanted, z)
          | _ => raise TypeError
          end
      | None => ret (wanted, container_size st)
      end in
    let* enough := lift (is_gt wanted_size.1 (len (mc_list results))) in
    if (enough : bool)
    then ret (inl {| container_start := container_start;
                     container_size := wanted_size.2;
                     results := results |})
    else ret (inr results).

(** The loop, for at most [fuel] turns; [None] when they do not reach a
    [break]. *)
Fixpoint fetch_loop (fuel : nat) (ekey : pyval) (cls : option pyclass)
  (maxresults : option Z) (params : pyval)
  (kwargs : list (string * pyval)) (offset : Z) (st : fetch_state)
  : pyobj -> world -> option (result MediaContainer * pyobj * world) :=
  fun self w =>
  match fuel with
  | O => None
  | S fuel' =>
      match fetch_turn ekey cls maxresults params kwargs offset st self w with
      | (Ok (inl st'), self', w') =>
          fetch_loop fuel' ekey cls maxresults params kwargs offset st'
            self' w'
      | (Ok (inr results), self', w') => Some (Ok results, self', w')
      | (Raise e, self', w') => Some (Raise e, self', w')
      end
  end.

(** [str(key)] for an [int] *)
Definition key_str (key : pyval) : option string :=
  match key with
  | VInt z => Some (str_of_Z z)
  | VBool true => Some "True"
  | VBool false => Some "False"
  | _ => None
  end.

(** [",".join(str(key) for key in ekey)] when every key is an [int] *)
Fixpoint join_keys (keys : list pyval) : option string :=
  match keys with
  | [] => Some ""
  | key :: keys' =>
      match key_str key, join_keys keys' with
      | Some k, Some s =>
          Some match keys' with
               | [] => k
               | _ => k +:+ "," +:+ s
               end
      | _, _ => None
      end
  end.

(** [fetchItems(ekey, cls, container_start, container_size, maxresults,
    params, **kwargs)] *)
Definition fetchItems (fuel : nat) (ekey : pyval) (cls : option pyclass)
  (container_start container_size maxresults : option Z) (params : pyval)
  (kwargs : list (string * pyval))
  : pyobj -> world -> option (result MediaContainer * pyobj * world) :=
  fun self w =>
  if is_none ekey then Some (Raise BadRequest, self, w)
  else
    let ekey :=
      match ekey with
      | VList keys =>
          match join_keys keys with
          | Some s => VStr ("/library/metadata/" +:+ s)
          | None => ekey
          end
      | _ => ekey
      end in
    let container_start :=
      match container_start with
      | Some z => z
      | None => 0
      end in
    let container_size :=
      match container_size with
      | Some z => if z =? 0 then X_PLEX_CONTAINER_SIZE else z
      | None => X_PLEX_CONTAINER_SIZE
      end in
    let offset := container_start in
    let container_size :=
      match maxresults with
      | Some m => Z.min container_size m
      | None => container_size
      end in
    match new_container (Elem 0 "MediaContainer" [] []) ekey self w with
    | (Ok results, self', w') =>
        fetch_loop fuel ekey cls maxresults params kwargs offset
          {| container_start := container_start;
             container_size := container_size;
             results := results |} self' w'
    | (Raise e, self', w') => Some (Raise e, self', w')
    end.

End Fetch.

(** ** Further methods of [PlexObject] and its mixins *)

(** [str(v)] and the slice and replacement of strings that [_clean]
    uses.  The text of a list, a dictionary or an element is left to the
    interpreter. *)
Class Builtins := {
  (** [repr(v)] of a value that is no string, number or [None] *)
  py_repr : pyval -> string;
}.

Definition py_str `{Builtins} (v : pyval) : string :=
  match v with
  | VNone => "None"
  | VBool true => "True"
  | VBool false => "False"
  | VInt z => str_of_Z z
  | VStr s => s
  | _ => py_repr v
  end.

(** [s.replace(old, new)] for a non-empty [old]: the occurrences of [old]
    are replaced from the left, without overlap; [skip] bytes of an
    occurrence just replaced are still to be passed over.  On UTF-8 text
    an occurrence of an ASCII [old] among the bytes is an occurrence among
    the characters, and [_clean] replaces ASCII strings only. *)
Fixpoint replace_from (old new : string) (skip : nat) (s : string) : string :=
  match s with
  | EmptyString => EmptyString
  | String c s' =>
      match skip with
      | S skip' => replace_from old new skip' s'
      | O =>
          if String.prefix old s
          then new +:+ replace_from old new (String.length old - 1) s'
          else String c (replace_from old new 0 s')
      end
  end.

Definition replace (old new s : string) : string := replace_from old new 0 s.

(** A string holds the UTF-8 bytes of a Python [str]: a character starts
    at every byte that is no continuation byte ([10xxxxxx]). *)
Definition is_continuation (c : ascii) : bool :=
  let 'Ascii _ _ _ _ _ _ b6 b7 := c in b7 && negb b6.

(** [len(s)], in characters *)
Fixpoint char_length (s : string) : nat :=
  match s with
  | EmptyString => O
  | String c s' =>
      if is_continuation c then char_length s' else S (char_length s')
  end.

(** [s[:n]]: the first [n] characters, each with its continuation
    bytes *)
Fixpoint take_chars (n : nat) (s : string) : string :=
  match s with
  | EmptyString => EmptyString
  | String c s' =>
      if is_continuation c then String c (take_chars n s')
      else
        match n with
        | O => EmptyString
        | S n' => String c (take_chars n' s')
        end
  end.

Section Display.
Context `{Imports} `{PlexServer} `{Builtins}.

(** [_clean(value)] *)
Definition _clean (value : pyval) : pyval :=
  if truthy value then
    let value := replace "/library/metadata/" "" (py_str value) in
    let value := replace "/children" "" value in
    let value := replace "/accounts/" "" value in
    let value := replace "/devices/" "" value in
    VStr (take_chars 20 (replace " " "-" value))
  else VNone.

(** [getattr(self, attr, None)] on a [PlexPartialObject] *)
Definition getattr_or_none (attr : string) : M pyval := fun self w =>
  match __getattribute__ attr self w with
  | (Raise AttributeError, self', w') => (Ok VNone, self', w')
  | out => out
  end.

(** [firstAttr] with the names [attrs] *)
Fixpoint firstAttr (attrs : list string) : M pyval :=
  match attrs with
  | [] => ret VNone
  | attr :: attrs' =>
      let* value := getattr_or_none attr in
      if negb (is_none value) then ret value else firstAttr attrs'
  end.

(** [isPartialObject()] *)
Definition isPartialObject : M bool :=
  let* full := isFullObject in ret (negb full).

End Display.

Section Loading.
Context `{Imports} `{PlexServer} `{Builtins}.

(** [listAttrs(data, attr, **kwargs)], without [rtag] *)
Fixpoint listAttrs_loop (elems : list Element) (attr : string)
  (kwargs : list (string * pyval)) (results : list pyval)
  : result (list pyval) :=
  match elems with
  | [] => Ok results
  | elem :: elems' =>
      let kwargs := kw_set kwargs (attr +:+ "__exists") (VBool true) in
      ok <-? _checkAttrs elem kwargs ;;
      listAttrs_loop elems' attr kwargs
        (if (ok : bool)
         then (results ++ [of_opt_str (attrib_get (attrib elem) attr)])%list
         else results)
  end.

Definition listAttrs (data : Element) (attr : string)
  (kwargs : list (string * pyval)) : result (list pyval) :=
  listAttrs_loop (children data) attr kwargs [].

(** The loop of [_findAndLoadElem]: every element that passes the filter
    is loaded. *)
Fixpoint findAndLoad_loop (elems : list Element)
  (kwargs : list (string * pyval)) (self : pyobj) : result unit * pyobj :=
  match elems with
  | [] => (Ok tt, self)
  | elem :: elems' =>
      match _checkAttrs elem kwargs with
      | Ok true =>
          match _invalidateCacheAndLoadData self elem with
          | (Ok _, self') => findAndLoad_loop elems' kwargs self'
          | (Raise e, self') => (Raise e, self')
          end
      | Ok false => findAndLoad_loop elems' kwargs self
      | Raise e => (Raise e, self)
      end
  end.

(** [_findAndLoadElem(data, **kwargs)] *)
Definition _findAndLoadElem (data : Element) (kwargs : list (string * pyval))
  : M unit := fun self w =>
  let '(r, self') := findAndLoad_loop (children data) kwargs self in
  (r, self', w).

(** [PlexSession._reload()] *)
Definition PlexSession_reload : M unit :=
  let* key := read "_initpath" in
  let* data := query {| rq_key := key; rq_headers := [];
                        rq_params := VNone |} in
  let* sessionKey := __getattribute__ "sessionKey" in
  _findAndLoadElem data [("sessionKey", VStr (py_str sessionKey))].

(** [PlexHistory._reload()] *)
Definition PlexHistory_reload : M unit := raise NotImplementedError.

(** The class whose [_reload] an instance runs.  [base.py] defines
    [_reload] in [PlexObject], [PlexSession] and [PlexHistory]; the method
    is looked up as [class_lookup] looks up an attribute: in the class,
    then in its bases from left to right. *)
Fixpoint reload_owner (c : pyclass) : option string :=
  let own := class_name c in
  if String.eqb own "PlexObject" || String.eqb own "PlexSession"
     || String.eqb own "PlexHistory"
  then Some own
  else
    match c with
    | Mixin _ _ _ => None
    | PlexClass _ bases _ _ =>
        (fix in_bases (bs : list pyclass) : option string :=
           match bs with
           | [] => None
           | b :: bs' =>
               match reload_owner b with
               | Some owner => Some owner
               | None => in_bases bs'
               end
           end) bases
    end.

(** [PlexObject.reload(key=None, **kwargs)]: [self._reload(key=key,
    **kwargs)] is the [_reload] of the class of [self].  The [_reload] of
    a session and of a history entry take [key] and [kwargs] and do not
    use them.  (A session has a [reload] of its own, without parameters,
    that calls [self._reload()] as well.) *)
Definition reload (key : pyval) (kwargs : gmap string pyval) : M unit :=
  let* cls := the_class in
  match reload_owner cls with
  | Some owner =>
      if String.eqb owner "PlexSession" then PlexSession_reload
      else if String.eqb owner "PlexHistory" then PlexHistory_reload
      else _reload key true kwargs
  | None => raise AttributeError
  end.

End Loading.

Section First.
Context `{Imports} `{PlexServer} `{PlexRegistry}.

(** [f'/library/metadata/{ekey}'] when [ekey] is an [int] *)
Definition item_key (ekey : pyval) : pyval :=
  match key_str ekey with
  | Some s => VStr ("/library/metadata/" +:+ s)
  | None => ekey
  end.

(** [fetchItem(ekey, cls, **kwargs)]: the first item of [fetchItems];
    an [IndexError] becomes [NotFound].  The call
    [self.fetchItems(ekey, cls, **kwargs)] binds the keyword arguments
    [container_start], [container_size], [maxresults] and [params] to the
    parameters of [fetchItems]: they are given apart, each [None] when
    the call has no such keyword, and [kwargs] holds the others. *)
Definition fetchItem (fuel : nat) (ekey : pyval) (cls : option pyclass)
  (container_start container_size maxresults : option Z) (params : pyval)
  (kwargs : list (string * pyval))
  : pyobj -> world -> option (result pyobj * pyobj * world) :=
  fun self w =>
  match fetchItems fuel (item_key ekey) cls container_start container_size
          maxresults params kwargs self w with
  | Some (Ok results, self', w') =>
      match mc_list results with
      | item :: _ => Some (Ok item, self', w')
      | [] => Some (Raise NotFound, self', w')
      end
  | Some (Raise IndexError, self', w') => Some (Raise NotFound, self', w')
  | Some (Raise e, self', w') => Some (Raise e, self', w')
  | None => None
  end.

(** [findItem(data, cls, initpath, **kwargs)], without [rtag]: the first
    item of [findItems]; an [IndexError] becomes [None]. *)
Definition findItem (data : Element) (cls : option pyclass)
  (initpath : pyval) (kwargs : list (string * pyval)) : M (option pyobj) :=
  fun self w =>
  match findItems data cls initpath kwargs self w with
  | (Ok items, self', w') => (Ok (head (items_of items)), self', w')
  | (Raise IndexError, self', w') => (Ok None, self', w')
  | (Raise e, self', w') => (Raise e, self', w')
  end.

End First.

(** ** The behaviour the specification describes

    Definitions that follow the words of the specification, to be compared
    with the code above. *)

Module Spec.
Section Spec.
Context `{Imports}.

(** Value extraction: the values of every direct child whose tag matches
    the first segment, for the remaining path, concatenated in document
    order with [None] dropped, each occurrence once; for an empty child
    path the element's own attribute or tag. *)
Fixpoint attr_values (elem : Element) (attrstr : string) {struct elem}
  : list pyval :=
  let 'Elem _ tg att kids := elem in
  let '(attr, rest) := PyStr.split1 "__" attrstr in
  match rest with
  | Some (String c r) =>
      not_none
        ((fix each_child (cs : list Element) : list pyval :=
            match cs with
            | [] => []
            | child :: cs' =>
                if String.eqb (PyStr.lower (tag child)) (PyStr.lower attr)
                then (attr_values child (String c r) ++ each_child cs')%list
                else each_child cs'
            end) kids)
  | _ => own_value tg att attr
  end.

(** One predicate: some extracted value satisfies the operator after
    coercion, or the predicate is an exact match without any value and
    its operand is [None], [0] or the empty string. *)
Definition predicate_satisfied (elem : Element) (key : string)
  (query : pyval) : result bool :=
  let '(attr, op, oper) := _getAttrOperator key in
  let values := _getAttrValue elem attr in
  if String.eqb op "exact"
     && match values with [] => true | _ => false end
     && is_missing_query query
  then Ok true
  else any_value_matches op oper query values.

(** All predicates of the mapping hold. *)
Fixpoint checkAttrs (elem : Element) (kwargs : list (string * pyval))
  : result bool :=
  match kwargs with
  | [] => Ok true
  | (key, query) :: kwargs' =>
      b <-? predicate_satisfied elem key query ;;
      rest <-? checkAttrs elem kwargs' ;;
      Ok (b && rest)
  end.

(** Full: the resource paths of the details path and of the constructing
    path agree, and the query parameters of the first are among those of
    the second. *)
Definition full_by_paths (details_path initpath : pyval) : result bool :=
  parsed_key <-? urlparse details_path ;;
  parsed_initpath <-? urlparse initpath ;;
  Ok (urlpath_eqb parsed_key.1 parsed_initpath.1
      && bool_decide (parsed_key.2 ⊆ parsed_initpath.2)).

End Spec.
End Spec.

(** ** A small installation

    Concrete imports, classes, responses and a server, on which the
    definitions above can be run. *)

Module Example.

(** [s.split(sep)] on a one-character separator *)
Fixpoint split_char (sep : ascii) (s : string) : list string :=
  match s with
  | EmptyString => [EmptyString]
  | String c s' =>
      if Ascii.eqb c sep then EmptyString :: split_char sep s'
      else match split_char sep s' with
           | [] => [String c EmptyString]
           | chunk :: chunks => String c chunk :: chunks
           end
  end.

(** [parse_qsl] on fields [name=value] without escapes; blank values are
    not kept. *)
Definition parse_qsl (query : string) : list (string * string) :=
  flat_map (fun field =>
    match PyStr.split1 "=" field with
    | (name, Some (String c v)) => [(name, String c v)]
    | _ => []
    end) (split_char "&" query).

Definition str_of (v : pyval) : string :=
  match v with
  | VStr s => s
  | VInt z => str_of_Z z
  | VBool true => "True"
  | VBool false => "False"
  | _ => "None"
  end.

(** [urlencode] on items that need no escape *)
Definition urlencode_plain (items : list (string * pyval)) : string :=
  String.concat "&" (map (fun kv => kv.1 +:+ "=" +:+ str_of kv.2) items).

(** [utils.cast(int, value)]: [None] stays [None] *)
Definition cast_int (value : pyval) : pyval :=
  match value with
  | VNone => VNone
  | _ => match py_int value with
         | Ok z => VInt z
         | Raise _ => VNone
         end
  end.

Definition imports : Imports := {|
  re_search := fun _ pattern text => PyStr.contains text pattern;
  url_path := fun s => (PyStr.split1 "?" s).1;
  url_query := fun s =>
    match (PyStr.split1 "?" s).2 with
    | Some q => parse_qsl q
    | None => []
    end;
  urlencode := urlencode_plain;
  utils_cast_int := cast_int;
  utils_searchType := fun v =>
    if py_eq v (VStr "movie") then Ok (VInt 1)
    else if py_eq v (VStr "show") then Ok (VInt 2)
    else Raise NotFound;
  config_autoreload := VBool true;
  X_PLEX_CONTAINER_SIZE := 100;
|}.

Definition PlexObject : pyclass := @PlexObject_class.

Definition PlexPartialObject : pyclass :=
  PlexClass "PlexPartialObject" [PlexObject]
    [ ("_INCLUDES",
       ClassAttr (VDict (list_to_map
         [ ("checkFiles", VInt 0); ("includeChapters", VInt 1);
           ("includeMarkers", VInt 1); ("includeOnDeck", VInt 0) ])));
      ("_EXCLUDES",
       ClassAttr (VDict (list_to_map
         [ ("excludeFields", VStr "summary,tagline");
           ("skipRefresh", VInt 1) ]))) ]
    None.

Definition PlexSession : pyclass :=
  Mixin "PlexSession"
    [ ("player", CachedDataProperty (fun self =>
         match self "_data" with
         | Some (VElem e) =>
             of_opt_str (attrib_get (attrib e) "player")
         | _ => VNone
         end)) ]
    None.

Definition attr_of (data : Element) (name : string) : pyval :=
  of_opt_str (attrib_get (attrib data) name).

(** A video: [key], [title], [summary], [librarySectionID] and the
    cached list of its media codecs. *)
Definition Movie : pyclass :=
  PlexClass "Movie" [PlexPartialObject]
    [ ("TAG", ClassAttr (VStr "Video")); ("TYPE", ClassAttr (VStr "movie"));
      ("codecs", CachedDataProperty (fun self =>
         match self "_data" with
         | Some (VElem e) => VList (_getAttrValue e "Media__videoCodec")
         | _ => VList []
         end)) ]
    (Some (fun data =>
       [ ("key", attr_of data "key");
         ("title", attr_of data "title");
         ("summary", attr_of data "summary");
         ("librarySectionID", cast_int (attr_of data "librarySectionID")) ])).

Definition MovieSession : pyclass :=
  PlexClass "MovieSession" [PlexSession; Movie] [] None.

Definition registry : PlexRegistry := {|
  utils_getPlexObject := fun ehash _ =>
    if String.eqb ehash "Video.movie" then Some Movie else None;
|}.

Definition part (i : N) (file : string) : Element :=
  Elem i "Part" [("file", file)] [].

Definition media (i : N) (codec : string) (parts : list Element) : Element :=
  Elem i "Media" [("videoCodec", codec)] parts.

(** A search result: no [summary]. *)
Definition listed_video : Element :=
  Elem 1 "Video"
    [ ("key", "/library/metadata/1"); ("type", "movie");
      ("title", "Cars"); ("year", "1990"); ("librarySectionID", "3") ]
    [ media 2 "h264" [part 3 "a.mkv"]; media 4 "hevc" [part 5 "b.mkv"] ].

(** The same item as its own path answers: [summary], no [title]. *)
Definition detailed_video : Element :=
  Elem 11 "Video"
    [ ("key", "/library/metadata/1"); ("type", "movie");
      ("summary", "A race car."); ("librarySectionID", "3") ]
    [ media 12 "h264" [part 13 "a.mkv"] ].

Definition numbered_video (n : nat) : Element :=
  Elem (100 + N.of_nat n) "Video"
    [ ("key", "/library/metadata/" +:+ str_of_Z (Z.of_nat n));
      ("type", "movie") ] [].

(** The listing [/library/sections/3/all] has 25 videos; the server
    honours the two pagination headers. *)
Definition listing (start size : Z) : Element :=
  let videos :=
    map numbered_video
      (seq (Z.to_nat start) (Z.to_nat (Z.min size (25 - start)))) in
  Elem (1000 + Z.to_N start) "MediaContainer"
    [ ("size", str_of_Z (Z.of_nat (List.length videos)));
      ("totalSize", "25"); ("offset", str_of_Z start) ]
    videos.

Definition header_int (rq : request) (name : string) : Z :=
  match assoc (rq_headers rq) name with
  | Some s => match PyStr.parse_int s with Ok z => z | Raise _ => 0 end
  | None => 0
  end.

Definition server : PlexServer := {|
  server_query := fun _ rq =>
    match rq_key rq with
    | VStr path =>
        if String.eqb path "/library/sections/3/all"
        then Ok (listing (header_int rq "X-Plex-Container-Start")
                         (header_int rq "X-Plex-Container-Size"))
        else Ok (Elem 10 "MediaContainer" [("size", "1")] [detailed_video])
    | _ => Raise TransportError
    end;
  library_sectionByID := fun id =>
    match id with
    | VInt z => Ok (Z.to_N z)
    | _ => Raise NotFound
    end;
|}.

Definition world0 : world :=
  {| w_queries := []; w_edits := []; USER_DONT_RELOAD_FOR_KEYS := ∅ |}.

(** The movie as a search of the section lists it. *)
Definition listed_movie : pyobj :=
  self_of (new (H := imports) Movie (Some listed_video)
             (VStr "/library/sections/3/all") world0).

(** The movie after its cached property [codecs] was read. *)
Definition watched_movie : pyobj :=
  (object_getattribute listed_movie "codecs").2.

(** The page of the listing that starts at [start], as [findItems]
    builds it. *)
Definition page (start : Z) : MediaContainer :=
  match findItems (H := imports) (H1 := registry) (listing start 20) None
          (VStr "/library/sections/3/all") [] listed_movie world0 with
  | (Ok (Container c), _, _) => c
  | _ => {| mc_list := []; mc_self := listed_movie |}
  end.

(** A listed node without [Media] children: the codecs are the empty
    list. *)
Definition bare_video : Element :=
  Elem 31 "Video"
    [ ("key", "/library/metadata/1"); ("type", "movie"); ("title", "Cars") ]
    [].

Definition bare_movie : pyobj :=
  self_of (new (H := imports) Movie (Some bare_video)
             (VStr "/library/sections/3/all") world0).

(** A node without [key], as a hub or a search lists it. *)
Definition keyless_video : Element :=
  Elem 21 "Video" [("type", "movie"); ("title", "Trailer")] [].

Definition keyless_movie : pyobj :=
  self_of (new (H := imports) Movie (Some keyless_video)
             (VStr "/hubs/search") world0).

End Example.

(** ** Further servers and objects *)

Module Fixtures.

Definition builtins : Builtins := {| py_repr := fun _ => "<object>" |}.

(** A server with one answer to every request. *)
Definition constant_server (answer : result Element) : PlexServer := {|
  server_query := fun _ _ => answer;
  library_sectionByID := fun _ => Raise NotFound;
|}.

Definition three_videos : Element :=
  Elem 2000 "MediaContainer" [("size", "3"); ("totalSize", "3")]
    [ Example.numbered_video 1; Example.numbered_video 2;
      Example.numbered_video 3 ].

(** An answer without any element. *)
Definition no_element : Element :=
  Elem 3000 "MediaContainer" [("size", "0")] [].

(** The listing and the details of one movie in one answer. *)
Definition two_views : Element :=
  Elem 4000 "MediaContainer" [("size", "2")]
    [Example.listed_video; Example.detailed_video].

(** A movie that is being played, in session 7. *)
Definition watching : pyobj :=
  __setattr__
    (self_of (new (H := Example.imports) Example.MovieSession
                (Some Example.listed_video) (VStr "/status/sessions")
                Example.world0))
    "sessionKey" (VInt 7).

(** A folder: no class is registered for it. *)
Definition folder : Element := Elem 60 "Directory" [("type", "folder")] [].

End Fixtures.

(** * Properties *)

(** ** Value extraction *)

Section ValueExtraction.

(** A path without a child segment is answered by the element itself;
    the shared list is not touched. *)
Lemma getAttrValue_shared_own (elem : Element) (attrstr attr : string)
  (results : list pyval) :
  PyStr.split1 "__" attrstr = (attr, None)
  \/ PyStr.split1 "__" attrstr = (attr, Some EmptyString) ->
  getAttrValue_shared elem attrstr results
  = (own_value (tag elem) (attrib elem) attr, results).
Proof.
  intros Hsplit. destruct elem as [i tg att kids]. simpl.
  destruct Hsplit as [-> | ->]; reflexivity.
Qed.

Lemma spec_attr_values_own (elem : Element) (attrstr attr : string) :
  PyStr.split1 "__" attrstr = (attr, None)
  \/ PyStr.split1 "__" attrstr = (attr, Some EmptyString) ->
  Spec.attr_values elem attrstr = own_value (tag elem) (attrib elem) attr.
Proof.
  intros Hsplit. destruct elem as [i tg att kids]. simpl.
  destruct Hsplit as [-> | ->]; reflexivity.
Qed.

Lemma not_none_app (l m : list pyval) :
  not_none (l ++ m) = (not_none l ++ not_none m)%list.
Proof. unfold not_none. apply List.filter_app. Qed.

Lemma not_none_own_value (tg : string) (att : list (string * string))
  (attr : string) :
  not_none (own_value tg att attr) = own_value tg att attr.
Proof.
  unfold own_value. destruct (String.eqb _ _); [reflexivity |].
  induction att as [| [k v] att IH]; simpl; [reflexivity |].
  destruct (String.eqb _ _); [reflexivity | exact IH].
Qed.

Lemma not_none_idem (l : list pyval) : not_none (not_none l) = not_none l.
Proof.
  unfold not_none. induction l as [| x l IH]; simpl; [reflexivity |].
  destruct (negb (is_none x)) eqn:E; simpl; rewrite ?E, IH; reflexivity.
Qed.

(** With one child segment the code returns what the specification
    describes: every matching child contributes its value once. *)
Lemma getAttrValue_one_segment (elem : Element) (attrstr attr rest attr' : string) :
  PyStr.split1 "__" attrstr = (attr, Some rest) ->
  rest <> EmptyString ->
  (PyStr.split1 "__" rest = (attr', None)
   \/ PyStr.split1 "__" rest = (attr', Some EmptyString)) ->
  _getAttrValue elem attrstr = Spec.attr_values elem attrstr.
Proof.
  intros Hsplit Hrest Hleaf. destruct elem as [i tg att kids].
  unfold _getAttrValue. simpl. rewrite Hsplit.
  destruct rest as [| c r]; [congruence |]. simpl. f_equal.
  assert (Hgen : forall acc0,
    (fix each_child (cs : list Element) (results : list pyval) {struct cs}
       : list pyval :=
       match cs with
       | [] => results
       | child :: cs' =>
           if String.eqb (PyStr.lower (tag child)) (PyStr.lower attr)
           then let '(returned, results0) :=
                  getAttrValue_shared child (String c r) results in
                each_child cs' (results0 ++ returned)%list
           else each_child cs' results
       end) kids acc0
    = (acc0 ++
       (fix each_child (cs : list Element) : list pyval :=
          match cs with
          | [] => []
          | child :: cs' =>
              if String.eqb (PyStr.lower (tag child)) (PyStr.lower attr)
              then (Spec.attr_values child (String c r) ++ each_child cs')%list
              else each_child cs'
          end) kids)%list).
  { induction kids as [| child kids IH]; intros acc0.
    - now rewrite app_nil_r.
    - destruct (String.eqb (PyStr.lower (tag child)) (PyStr.lower attr)) eqn:E.
      + rewrite (getAttrValue_shared_own child (String c r) attr' acc0 Hleaf).
        rewrite IH. rewrite <- app_assoc. do 2 f_equal.
        symmetry. now apply spec_attr_values_own.
      + apply IH. }
  rewrite Hgen. reflexivity.
Qed.

End ValueExtraction.

(** C4 (the code departs from the claim).  On a path of two child segments
    the list shared by the recursive calls is appended to by both the
    callee and the caller: for a video with two [Media] children of one
    [Part] each, [_getAttrValue] returns each file twice and the values of
    the first child twice more, where the specification lists each
    occurrence once. *)
Theorem getAttrValue_nested_path_repeats :
  _getAttrValue Example.listed_video "Media__Part__file"
  = [ VStr "a.mkv"; VStr "a.mkv"; VStr "b.mkv";
      VStr "a.mkv"; VStr "a.mkv"; VStr "b.mkv" ]
  /\ Spec.attr_values Example.listed_video "Media__Part__file"
     = [ VStr "a.mkv"; VStr "b.mkv" ].
Proof. split; vm_compute; reflexivity. Qed.

(** ** Filtering *)

Section Filtering.
Context `{Imports}.

Lemma all_values_insert (m : gmap string bool) (a : string) (b : bool) :
  m !! a = None ->
  all_values (<[a := b]> m) = b && all_values m.
Proof.
  intros Hfresh. unfold all_values.
  destruct b; simpl.
  - apply bool_decide_ext. rewrite map_Forall_insert by exact Hfresh.
    tauto.
  - apply bool_decide_eq_false. rewrite map_Forall_insert by exact Hfresh.
    intros [Hb _]. discriminate.
Qed.

(** The attribute path of a filter key, its operator stripped. *)
Definition key_attr (key : string) : string := (_getAttrOperator key).1.1.

(** The filter key takes the early [return True]. *)
Definition takes_shortcut (elem : Element) (key : string) (query : pyval)
  : bool :=
  String.eqb (_getAttrOperator key).1.2 "exact"
  && match _getAttrValue elem (key_attr key) with [] => true | _ => false end
  && is_missing_query query.

Lemma checkAttrs_loop_and (elem : Element) (kwargs : list (string * pyval)) :
  forall attrsFound : gmap string bool,
  NoDup (map (fun kv => key_attr kv.1) kwargs) ->
  (forall kv, In kv kwargs -> attrsFound !! key_attr kv.1 = None) ->
  (forall kv, In kv kwargs -> takes_shortcut elem kv.1 kv.2 = false) ->
  rbind (checkAttrs_loop elem kwargs attrsFound)
    (fun r => Ok match r with
                 | None => true
                 | Some found => all_values found
                 end)
  = rbind (Spec.checkAttrs elem kwargs)
      (fun b => Ok (all_values attrsFound && b)).
Proof.
  induction kwargs as [| [key query] kwargs IH];
    intros attrsFound Hdup Hfresh Hshort.
  - simpl. now rewrite andb_true_r.
  - simpl. unfold Spec.predicate_satisfied.
    pose proof (Hshort (key, query) (or_introl eq_refl)) as Hs.
    pose proof (Hfresh (key, query) (or_introl eq_refl)) as Hf.
    unfold takes_shortcut, key_attr in Hs, Hf. simpl in Hs, Hf.
    inversion Hdup as [| ? ? Hnotin Hdup']; subst.
    unfold key_attr in Hnotin. simpl in Hnotin.
    destruct (_getAttrOperator key) as [[attr op] oper] eqn:Eop.
    simpl in Hs, Hf, Hnotin. rewrite Hs.
    destruct (any_value_matches op oper query (_getAttrValue elem attr))
      as [found | e]; simpl; [| reflexivity].
    rewrite IH.
    + rewrite all_values_insert by exact Hf.
      destruct (Spec.checkAttrs elem kwargs) as [rest | e]; simpl;
        [| reflexivity].
      f_equal. destruct found, (all_values attrsFound), rest; reflexivity.
    + exact Hdup'.
    + intros kv Hin. rewrite lookup_insert_ne.
      * apply Hfresh. now right.
      * intros ->. apply Hnotin.
        apply list_elem_of_In, in_map_iff. exists kv.
        split; [reflexivity | exact Hin].
    + intros kv Hin. apply Hshort. now right.
Qed.

(** When no filter key takes the early return and the keys name
    different attribute paths, [_checkAttrs] is the conjunction of the
    predicates. *)
Lemma checkAttrs_is_conjunction (elem : Element)
  (kwargs : list (string * pyval)) :
  NoDup (map (fun kv => key_attr kv.1) kwargs) ->
  (forall kv, In kv kwargs -> takes_shortcut elem kv.1 kv.2 = false) ->
  _checkAttrs elem kwargs = Spec.checkAttrs elem kwargs.
Proof.
  intros Hdup Hshort. unfold _checkAttrs.
  pose proof (checkAttrs_loop_and elem kwargs ∅ Hdup
                (fun kv _ => lookup_empty _) Hshort) as Hloop.
  destruct (checkAttrs_loop elem kwargs ∅) as [[found |] | e];
    simpl in *; rewrite Hloop;
    destruct (Spec.checkAttrs elem kwargs); reflexivity.
Qed.

End Filtering.

(** C3 (the code departs from the claim).  A filter key that meets the
    special case for a missing attribute ends [_checkAttrs] with [True]
    whatever the other keys say: [title='Up', genre=None] accepts a video
    titled [Cars].  Two keys on the same attribute path share one entry of
    [attrsFound], so the last one decides: [year__gte=2000, year__lte=2010]
    accepts the year 1990.  The conjunction of the predicates is false in
    both cases. *)
Theorem checkAttrs_not_conjunction :
  forall `{Imports},
  let by_title := [("title", VStr "Up"); ("genre", VNone)] in
  let by_years := [("year__gte", VInt 2000); ("year__lte", VInt 2010)] in
  _checkAttrs Example.listed_video by_title = Ok true
  /\ Spec.checkAttrs Example.listed_video by_title = Ok false
  /\ _checkAttrs Example.listed_video by_years = Ok true
  /\ Spec.checkAttrs Example.listed_video by_years = Ok false.
Proof. intros I. repeat split; vm_compute; reflexivity. Qed.

(** ** Attribute assignment *)

Definition names (l : list (string * pyval)) : list string := map fst l.

(** The value of [_overwriteNone] as [__setattr__] reads it. *)
Definition overwrite_flag (self : pyobj) : pyval :=
  default VNone (ob_dict self !! "_overwriteNone").

Section Assignment.

Lemma setattr_class (self : pyobj) (attr : string) (value : pyval) :
  ob_class (__setattr__ self attr value) = ob_class self.
Proof. unfold __setattr__. now destruct (_ || _). Qed.

Lemma setattr_lookup_ne (self : pyobj) (attr other : string) (value : pyval) :
  attr <> other ->
  ob_dict (__setattr__ self attr value) !! other = ob_dict self !! other.
Proof.
  intros Hne. unfold __setattr__. destruct (_ || _); [| reflexivity].
  simpl. now rewrite lookup_insert_ne.
Qed.

Lemma setattr_private (self : pyobj) (attr : string) (value : pyval) :
  PyStr.startswith attr "_" = true ->
  __setattr__ self attr value
  = with_dict self (<[attr := value]> (ob_dict self)).
Proof.
  intros Hp. unfold __setattr__. rewrite Hp.
  now rewrite orb_true_r.
Qed.

Lemma setattr_stores (self : pyobj) (attr : string) (value : pyval) :
  value <> VNone \/ PyStr.startswith attr "_" = true
  \/ ob_dict self !! attr = None \/ truthy (overwrite_flag self) = true ->
  __setattr__ self attr value
  = with_dict self (<[attr := value]> (ob_dict self)).
Proof.
  unfold __setattr__, overwrite_flag.
  intros [Hv | [Hp | [Hnew | Hflag]]].
  - destruct value; [congruence | reflexivity ..].
  - now rewrite Hp, orb_true_r.
  - rewrite Hnew. rewrite bool_decide_eq_false_2 by (intros [? ?]; discriminate).
    simpl. now rewrite orb_true_r.
  - rewrite Hflag. now rewrite !orb_true_r.
Qed.

Lemma setattr_keeps (self : pyobj) (attr : string) :
  PyStr.startswith attr "_" = false ->
  is_Some (ob_dict self !! attr) ->
  truthy (overwrite_flag self) = false ->
  __setattr__ self attr VNone = self.
Proof.
  unfold __setattr__, overwrite_flag. intros Hp Hset Hflag.
  rewrite Hp, Hflag. rewrite bool_decide_eq_true_2 by exact Hset.
  reflexivity.
Qed.

Lemma setattr_is_Some (self : pyobj) (attr other : string) (value : pyval) :
  is_Some (ob_dict self !! other) ->
  is_Some (ob_dict (__setattr__ self attr value) !! other).
Proof.
  intros Hs. unfold __setattr__. destruct (_ || _); [| exact Hs].
  simpl. destruct (decide (attr = other)) as [-> | Hne].
  - rewrite lookup_insert_eq. eauto.
  - now rewrite lookup_insert_ne.
Qed.

Lemma assign_all_class (l : list (string * pyval)) :
  forall self, ob_class (assign_all self l) = ob_class self.
Proof.
  unfold assign_all. induction l as [| [a v] l IH]; intros self; simpl.
  - reflexivity.
  - rewrite IH. apply setattr_class.
Qed.

Lemma assign_all_lookup_notin (l : list (string * pyval)) (other : string) :
  ~ In other (names l) ->
  forall self, ob_dict (assign_all self l) !! other = ob_dict self !! other.
Proof.
  unfold assign_all, names.
  induction l as [| [a v] l IH]; intros Hnot self; simpl.
  - reflexivity.
  - rewrite IH.
    + apply setattr_lookup_ne. intros ->. apply Hnot. now left.
    + intros Hin. apply Hnot. now right.
Qed.

Lemma assign_all_is_Some (l : list (string * pyval)) (other : string) :
  forall self,
  is_Some (ob_dict self !! other) ->
  is_Some (ob_dict (assign_all self l) !! other).
Proof.
  unfold assign_all. induction l as [| [a v] l IH]; intros self Hs; simpl.
  - exact Hs.
  - apply IH. now apply setattr_is_Some.
Qed.

Lemma assign_all_app (l1 l2 : list (string * pyval)) (self : pyobj) :
  assign_all self (l1 ++ l2) = assign_all (assign_all self l1) l2.
Proof. unfold assign_all. apply fold_left_app. Qed.

(** What [__setattr__] leaves under the assigned name depends on the
    value, on the entry and on the flag only. *)
Lemma setattr_lookup_same (self self' : pyobj) (attr : string) (value : pyval) :
  ob_dict self !! attr = ob_dict self' !! attr ->
  overwrite_flag self = overwrite_flag self' ->
  ob_dict (__setattr__ self attr value) !! attr
  = ob_dict (__setattr__ self' attr value) !! attr.
Proof.
  unfold __setattr__, overwrite_flag. intros Ha Hf. rewrite Ha, Hf.
  destruct (_ || _); simpl; [| exact Ha].
  now rewrite !lookup_insert_eq.
Qed.

(** An attribute that [_loadData] assigns once ends as one assignment to
    it would leave it, whatever else is assigned, as long as the flag is
    not. *)
Lemma assign_all_once (self : pyobj) (l1 l2 : list (string * pyval))
  (attr : string) (value : pyval) :
  ~ In attr (names l1) -> ~ In attr (names l2) ->
  ~ In "_overwriteNone" (names l1) ->
  ob_dict (assign_all self (l1 ++ (attr, value) :: l2)) !! attr
  = ob_dict (__setattr__ self attr value) !! attr.
Proof.
  intros H1 H2 Hflag. rewrite assign_all_app.
  change ((attr, value) :: l2) with ([(attr, value)] ++ l2)%list.
  rewrite assign_all_app. rewrite assign_all_lookup_notin by exact H2.
  unfold assign_all at 1. simpl.
  apply setattr_lookup_same.
  - now apply assign_all_lookup_notin.
  - unfold overwrite_flag. now rewrite assign_all_lookup_notin.
Qed.

End Assignment.

(** ** Classes and cached properties *)

Section Classes.

(** Induction on a class with its bases. *)
Lemma pyclass_bases_ind (P : pyclass -> Prop) :
  (forall name body ld, P (Mixin name body ld)) ->
  (forall name bases body ld,
      List.Forall P bases -> P (PlexClass name bases body ld)) ->
  forall c, P c.
Proof.
  intros Hmixin Hclass. fix IH 1. intros [name body ld | name bases body ld].
  - apply Hmixin.
  - apply Hclass. induction bases as [| b bases IHb].
    + constructor.
    + constructor; [apply IH | exact IHb].
Qed.

Lemma own_cached_assoc (body : list (string * member)) (name : string) :
  name ∈ own_cached body -> is_Some (assoc body name).
Proof.
  induction body as [| [k m] body IH]; simpl.
  - intros Hin. now apply not_elem_of_empty in Hin.
  - intros Hin. destruct (String.eqb k name) eqn:E; [eauto |].
    apply IH. destruct m; try exact Hin.
    apply elem_of_union in Hin as [Hin | Hin]; [| exact Hin].
    apply elem_of_singleton in Hin. subst.
    now rewrite String.eqb_refl in E.
Qed.

(** A registered name is bound somewhere in the class or its bases. *)
Lemma cached_is_member (c : pyclass) (name : string) :
  name ∈ _cached_data_properties c -> is_Some (class_lookup c name).
Proof.
  revert c. apply (pyclass_bases_ind
    (fun c => name ∈ _cached_data_properties c -> is_Some (class_lookup c name))).
  - intros n body ld. simpl. apply own_cached_assoc.
  - intros n bases body ld IH. simpl. intros Hin.
    destruct (assoc body name) eqn:E; [eauto |].
    apply elem_of_union in Hin as [Hin | Hin].
    + induction IH as [| b bases Hb _ IHbases]; simpl in *.
      * now apply not_elem_of_empty in Hin.
      * apply elem_of_union in Hin as [Hin | Hin].
        -- destruct (Hb Hin) as [m ->]. eauto.
        -- destruct (class_lookup b name); [eauto | now apply IHbases].
    + apply own_cached_assoc in Hin. rewrite E in Hin.
      now destruct Hin.
Qed.

(** The set of a class made by the metaclass holds the sets of all its
    bases and the cached properties of its own body. *)
Lemma cached_inherited (name : string) (bases : list pyclass)
  (body : list (string * member)) (ld : option loader) (base : pyclass) :
  In base bases ->
  _cached_data_properties base
  ⊆ _cached_data_properties (PlexClass name bases body ld).
Proof.
  intros Hin. simpl. induction bases as [| b bases IH]; [destruct Hin |].
  destruct Hin as [-> | Hin]; intros x Hx; apply elem_of_union.
  - left. apply elem_of_union. now left.
  - apply (IH Hin) in Hx. apply elem_of_union in Hx as [Hx | Hx].
    + left. apply elem_of_union. now right.
    + now right.
Qed.

Lemma cached_own (name : string) (bases : list pyclass)
  (body : list (string * member)) (ld : option loader) :
  own_cached body ⊆ _cached_data_properties (PlexClass name bases body ld).
Proof. simpl. intros x Hx. apply elem_of_union. now right. Qed.

Lemma invalidate_lookup (self : pyobj) (name : string) :
  ob_dict (_invalidateCachedProperties self) !! name
  = if bool_decide (name ∈ _cached_data_properties (ob_class self))
    then None else ob_dict self !! name.
Proof.
  unfold _invalidateCachedProperties. simpl.
  generalize (_cached_data_properties (ob_class self)). intros props.
  assert (Hfold :
    (name ∈ props ->
     set_fold (fun p d => delete p d) (ob_dict self) props !! name = None)
    /\ (name ∉ props ->
        set_fold (fun p d => delete p d) (ob_dict self) props !! name
        = ob_dict self !! name)).
  { apply (set_fold_ind_L
      (fun d X => (name ∈ X -> d !! name = None)
                  /\ (name ∉ X -> d !! name = ob_dict self !! name))).
    - split; [intros Hin; now apply not_elem_of_empty in Hin | reflexivity].
    - intros x X d Hx [IHin IHout].
      destruct (decide (x = name)) as [-> | Hne].
      + split; [intros _; apply lookup_delete_eq |].
        intros Hout. exfalso. apply Hout, elem_of_union. left.
        now apply elem_of_singleton.
      + rewrite lookup_delete_ne by exact Hne. split.
        * intros Hin. apply IHin.
          apply elem_of_union in Hin as [Hin | Hin]; [| exact Hin].
          apply elem_of_singleton in Hin. congruence.
        * intros Hout. apply IHout. intros Hin.
          apply Hout, elem_of_union. now right. }
  destruct Hfold as [Hin Hout]. case_bool_decide; auto.
Qed.

Lemma invalidate_class (self : pyobj) :
  ob_class (_invalidateCachedProperties self) = ob_class self.
Proof. reflexivity. Qed.

End Classes.

(** ** Cache invalidation *)

Section CacheInvalidation.

Lemma invalidateCacheAndLoadData_unfold (self : pyobj) (data : Element)
  (f : loader) :
  class_loadData (ob_class self) = Some f ->
  _invalidateCacheAndLoadData self data
  = (Ok tt,
     assign_all
       (let self1 := __setattr__ self "_data" (VElem data) in
        if is_other_object (attr_read_or_none self "_data") data
        then _invalidateCachedProperties self1 else self1)
       (f data)).
Proof.
  intros Hf. unfold _invalidateCacheAndLoadData, _loadData.
  destruct (is_other_object _ _); simpl;
    rewrite ?setattr_class; rewrite Hf; reflexivity.
Qed.

(** C5.  [_invalidateCacheAndLoadData(data)] stores the new node in
    [_data].  When the node is another object than the previous one,
    every name of the class's [_cached_data_properties] (the union over
    the class hierarchy) is gone from the instance dictionary, so the
    next access computes the property again and stores it; when it is
    the same object, every memoized value is kept.  (Names that
    [_loadData] itself assigns are set aside.) *)
Theorem invalidateCacheAndLoadData_cached_properties
  (self : pyobj) (data : Element) (f : loader) :
  class_loadData (ob_class self) = Some f ->
  "_data" ∉ _cached_data_properties (ob_class self) ->
  let old := attr_read_or_none self "_data" in
  let out := _invalidateCacheAndLoadData self data in
  out.1 = Ok tt
  /\ (~ In "_data" (names (f data)) ->
      ob_dict out.2 !! "_data" = Some (VElem data))
  /\ (forall name bases body ld base,
        ob_class self = PlexClass name bases body ld ->
        In base bases ->
        _cached_data_properties base ∪ own_cached body
        ⊆ _cached_data_properties (ob_class self))
  /\ (forall p,
        p ∈ _cached_data_properties (ob_class self) ->
        ~ In p (names (f data)) ->
        (is_other_object old data = true ->
         ob_dict out.2 !! p = None
         /\ forall g,
              class_lookup (ob_class self) p = Some (CachedDataProperty g) ->
              object_getattribute out.2 p
              = (Ok (g (self_reader out.2)),
                 with_dict out.2
                   (<[p := g (self_reader out.2)]> (ob_dict out.2))))
        /\ (is_other_object old data = false ->
            ob_dict out.2 !! p = ob_dict self !! p)).
Proof.
  intros Hf Hdata old out. subst out.
  rewrite (invalidateCacheAndLoadData_unfold self data f Hf). simpl.
  split; [reflexivity |]. split; [| split].
  - intros Hnot. rewrite assign_all_lookup_notin by exact Hnot.
    fold old. destruct (is_other_object old data).
    + rewrite invalidate_lookup, setattr_class.
      rewrite bool_decide_eq_false_2 by exact Hdata.
      rewrite setattr_private by reflexivity. simpl.
      apply lookup_insert_eq.
    + rewrite setattr_private by reflexivity. simpl.
      apply lookup_insert_eq.
  - intros name bases body ld base Hcls Hin. rewrite Hcls.
    intros x Hx. apply elem_of_union in Hx as [Hx | Hx].
    + now apply (cached_inherited name bases body ld base Hin).
    + now apply cached_own.
  - intros p Hp Hnot. fold old.
    assert (Hne : "_data" <> p) by (intros Heq; apply Hdata; now rewrite Heq).
    split.
    + intros Hother. rewrite Hother.
      assert (Hgone :
        ob_dict (assign_all
                   (_invalidateCachedProperties
                      (__setattr__ self "_data" (VElem data))) (f data)) !! p
        = None).
      { rewrite assign_all_lookup_notin by exact Hnot.
        rewrite invalidate_lookup, setattr_class.
        now rewrite bool_decide_eq_true_2 by exact Hp. }
      split; [exact Hgone |].
      intros g Hg. unfold object_getattribute.
      rewrite assign_all_class, invalidate_class, setattr_class.
      rewrite Hg, Hgone. reflexivity.
    + intros Hsame. rewrite Hsame.
      rewrite assign_all_lookup_notin by exact Hnot.
      now apply setattr_lookup_ne.
Qed.

End CacheInvalidation.

(** ** Methods that only read *)

Definition pure {A} (m : M A) : Prop :=
  forall self w, m self w = (result_of (m self w), self, w).

Section Pure.

Lemma pure_ret {A} (a : A) : pure (ret a).
Proof. intros self w. reflexivity. Qed.

Lemma pure_raise {A} (e : exn) : pure (@raise A e).
Proof. intros self w. reflexivity. Qed.

Lemma pure_lift {A} (r : result A) : pure (lift r).
Proof. intros self w. reflexivity. Qed.

Lemma pure_read (attr : string) : pure (read attr).
Proof. intros self w. reflexivity. Qed.

Lemma pure_the_class : pure the_class.
Proof. intros self w. reflexivity. Qed.

Lemma pure_the_world : pure the_world.
Proof. intros self w. reflexivity. Qed.

Lemma pure_bind {A B} (m : M A) (k : A -> M B) :
  pure m -> (forall a, pure (k a)) -> pure (bind m k).
Proof.
  intros Hm Hk self w. unfold bind. rewrite (Hm self w).
  destruct (result_of (m self w)) as [a | e].
  - rewrite (Hk a self w). reflexivity.
  - reflexivity.
Qed.

Lemma pure_if {A} (b : bool) (m1 m2 : M A) :
  pure m1 -> pure m2 -> pure (if b then m1 else m2).
Proof. now destruct b. Qed.

Lemma bind_pure {A B} (m : M A) (k : A -> M B) (self : pyobj) (w : world) :
  pure m ->
  bind m k self w
  = match result_of (m self w) with
    | Ok a => k a self w
    | Raise e => (Raise e, self, w)
    end.
Proof.
  intros Hm. unfold bind. rewrite (Hm self w).
  now destruct (result_of (m self w)).
Qed.

Context `{Imports} `{PlexServer}.

Lemma pure_buildDetailsKey (kwargs : gmap string pyval) :
  pure (_buildDetailsKey kwargs).
Proof.
  unfold _buildDetailsKey.
  apply pure_bind; [apply pure_read | intros details_key].
  apply pure_bind; [intros self w; reflexivity | intros self0].
  apply pure_bind.
  { apply pure_if; [| apply pure_ret].
    apply pure_bind; [apply pure_read | intros d].
    apply pure_bind; [apply pure_lift | intros includes]. apply pure_ret. }
  intros included. apply pure_bind.
  { apply pure_if; [| apply pure_ret].
    apply pure_bind; [apply pure_read | intros d].
    apply pure_bind; [apply pure_lift | intros excludes]. apply pure_ret. }
  intros excluded. apply pure_if; [apply pure_ret |].
  destruct details_key; try apply pure_raise. apply pure_ret.
Qed.

Lemma pure_isFullObject : pure isFullObject.
Proof.
  unfold isFullObject.
  apply pure_bind; [apply pure_read | intros details_key].
  apply pure_bind; [apply pure_if; [apply pure_ret | apply pure_read] |].
  intros k. apply pure_bind; [apply pure_lift | intros parsed_key].
  apply pure_bind; [apply pure_read | intros initpath].
  apply pure_bind; [apply pure_lift | intros parsed_initpath].
  apply pure_bind; [apply pure_read | intros key]. apply pure_ret.
Qed.

(** [isFullObject()] from the three attributes it reads. *)
Lemma isFullObject_result (self : pyobj) (w : world)
  (key details_key initpath : pyval) :
  attr_read self "key" = Ok key ->
  attr_read self "_details_key" = Ok details_key ->
  attr_read self "_initpath" = Ok initpath ->
  isFullObject self w
  = (p <-? Spec.full_by_paths (py_or details_key key) initpath ;;
     Ok (negb (truthy key) || p), self, w).
Proof.
  intros Hkey Hdk Hip. rewrite (pure_isFullObject self w). f_equal. f_equal.
  unfold isFullObject, result_of, bind, read, lift, ret, Spec.full_by_paths,
    py_or.
  rewrite Hdk. cbv beta iota.
  destruct (truthy details_key); cbv beta iota; rewrite ?Hkey; cbv beta iota.
  - destruct (urlparse details_key) as [pk | e]; cbv beta iota;
      [| reflexivity].
    rewrite Hip. cbv beta iota.
    destruct (urlparse initpath) as [pi | e]; cbv beta iota;
      [| reflexivity].
    rewrite ?Hkey. reflexivity.
  - destruct (urlparse key) as [pk | e]; cbv beta iota; [| reflexivity].
    rewrite Hip. cbv beta iota.
    destruct (urlparse initpath) as [pi | e]; cbv beta iota;
      [| reflexivity].
    rewrite ?Hkey. reflexivity.
Qed.

End Pure.

(** ** Partial and full objects *)

(** C2 (as the code has it).  [isFullObject()] is true exactly when [key]
    is false ([None] or empty), or the resource path of the details path
    ([_details_key], else [key]) equals that of [_initpath] and the query
    parameters of the details path are among those of [_initpath].  The
    answer is computed from these three attributes alone; the object and
    the world are left as they are. *)
Theorem isFullObject_by_key_and_paths `{Imports}
  (self : pyobj) (w : world) (key details_key initpath : pyval) (p : bool) :
  attr_read self "key" = Ok key ->
  attr_read self "_details_key" = Ok details_key ->
  attr_read self "_initpath" = Ok initpath ->
  Spec.full_by_paths (py_or details_key key) initpath = Ok p ->
  isFullObject self w = (Ok (negb (truthy key) || p), self, w)
  /\ (result_of (isFullObject self w) = Ok true
      <-> truthy key = false \/ p = true).
Proof.
  intros Hkey Hdk Hip Hp.
  rewrite (isFullObject_result self w key details_key initpath Hkey Hdk Hip).
  rewrite Hp. simpl. split; [reflexivity |].
  unfold result_of. simpl. split.
  - intros [= Hb]. destruct (truthy key), p; simpl in Hb; auto; discriminate.
  - intros [-> | ->]; [reflexivity |]. now rewrite orb_true_r.
Qed.

(** C2, witness: the listed movie is partial, its key is set and the paths
    differ. *)
Lemma isFullObject_by_key_and_paths_witness :
  isFullObject (H := Example.imports) Example.listed_movie Example.world0
  = (Ok false, Example.listed_movie, Example.world0).
Proof.
  refine (proj1 (isFullObject_by_key_and_paths (H := Example.imports)
            Example.listed_movie Example.world0
            (VStr "/library/metadata/1")
            (VStr "/library/metadata/1?includeChapters=1&includeMarkers=1")
            (VStr "/library/sections/3/all") false _ _ _ _));
    vm_compute; reflexivity.
Defined.

(** C2, counterexample: a movie built from a node without [key] on the
    path [/hubs/search].  Its details path is [None], whose resource path
    is not [/hubs/search], yet [isFullObject()] is true. *)
Lemma isFullObject_without_key_counterexample :
  let self := Example.keyless_movie in
  attr_read self "key" = Ok VNone
  /\ attr_read self "_details_key" = Ok VNone
  /\ attr_read self "_initpath" = Ok (VStr "/hubs/search")
  /\ Spec.full_by_paths (H := Example.imports) (py_or VNone VNone)
       (VStr "/hubs/search") = Ok false
  /\ result_of (isFullObject (H := Example.imports) self Example.world0)
     = Ok true.
Proof. repeat split; vm_compute; reflexivity. Qed.

(** C5, witness: the movie whose [codecs] were computed from the listed
    node is reloaded from another node; the cached value is gone. *)
Lemma invalidateCacheAndLoadData_cached_properties_witness :
  let out :=
    _invalidateCacheAndLoadData Example.watched_movie Example.detailed_video in
  ob_dict Example.watched_movie !! "codecs"
  = Some (VList [VStr "h264"; VStr "hevc"])
  /\ out.1 = Ok tt
  /\ ob_dict out.2 !! "codecs" = None.
Proof.
  assert (Hdata : "_data" ∉ _cached_data_properties (ob_class Example.watched_movie))
    by (apply (bool_decide_unpack _); vm_compute; exact I).
  assert (Hin : "codecs" ∈ _cached_data_properties (ob_class Example.watched_movie))
    by (apply (bool_decide_unpack _); vm_compute; exact I).
  pose proof (invalidateCacheAndLoadData_cached_properties
                Example.watched_movie Example.detailed_video _ eq_refl Hdata)
    as (Hok & _ & _ & Hcached).
  destruct (Hcached "codecs" Hin) as [Hother _].
  { simpl. intros [E | [E | [E | [E | []]]]]; discriminate E. }
  destruct (Hother eq_refl) as [Hgone _].
  split; [vm_compute; reflexivity | split; [exact Hok | exact Hgone]].
Defined.

(** ** Reload *)

(** The request of a reload: the key, no headers, no parameters. *)
Definition reload_request (key : pyval) : request :=
  {| rq_key := key; rq_headers := []; rq_params := VNone |}.

Section Reload.
Context `{Imports} `{PlexServer}.

(** [_reload(_overwriteNone=ow)] of an object with a details key, step
    by step. *)
Lemma reload_unfold (self : pyobj) (w : world) (details_key : pyval)
  (ow : bool) :
  attr_read self "_details_key" = Ok details_key ->
  truthy details_key = true ->
  _reload VNone ow ∅ self w
  = let w' := record_query w (reload_request details_key) in
    let self1 := __setattr__ self "_initpath" details_key in
    match server_query (w_queries w) (reload_request details_key) with
    | Raise e => (Raise e, self1, w')
    | Ok data =>
        let self2 := __setattr__ self1 "_overwriteNone" (VBool ow) in
        match first_child data with
        | Raise e => (Raise e, self2, w')
        | Ok data0 =>
            match _invalidateCacheAndLoadData self2 data0 with
            | (Ok _, self3) =>
                (Ok tt, __setattr__ self3 "_overwriteNone" (VBool true), w')
            | (Raise e, self3) => (Raise e, self3, w')
            end
        end
    end.
Proof.
  intros Hdk Htrue.
  unfold _reload, bind, read, setattr, query, lift, raise, ret.
  rewrite bool_decide_eq_true_2 by reflexivity.
  rewrite Hdk. cbv beta iota. change (truthy VNone) with false.
  cbv beta iota. rewrite Htrue. cbv beta iota. rewrite Htrue.
  change (negb true) with false. cbv beta iota.
  fold (reload_request details_key).
  destruct (server_query (w_queries w) (reload_request details_key))
    as [data | e]; cbv beta iota zeta; [| reflexivity].
  destruct (first_child data) as [data0 | e]; cbv beta iota; [| reflexivity].
  destruct (_invalidateCacheAndLoadData _ data0) as [[[] | e] self3];
    reflexivity.
Qed.

End Reload.

(** ** Construction *)

Section Construction.
Context `{Imports} `{PlexServer}.

(** The private attributes [__init__] sets before it loads the data. *)
Definition init_private (self : pyobj) (data : option Element)
  (initpath : pyval) : pyobj :=
  let self := __setattr__ self "_data"
                match data with Some d => VElem d | None => VNone end in
  let self := __setattr__ self "_initpath" initpath in
  let self := __setattr__ self "_details_key" VNone in
  let self := __setattr__ self "_overwriteNone" (VBool true) in
  let self := __setattr__ self "_autoReload" config_autoreload in
  __setattr__ self "_edits" VNone.

Lemma init_private_flag (self : pyobj) (data : option Element)
  (initpath : pyval) :
  overwrite_flag (init_private self data initpath) = VBool true.
Proof.
  unfold init_private, overwrite_flag.
  rewrite !setattr_lookup_ne by discriminate.
  rewrite setattr_private by reflexivity. simpl.
  now rewrite lookup_insert_eq.
Qed.

(** The constructor, step by step. *)
Lemma new_unfold (cls : pyclass) (data : option Element) (initpath : pyval)
  (w : world) :
  new cls data initpath w
  = let blank := {| ob_class := cls; ob_dict := ∅ |} in
    let self_a := __setattr__ blank "_data"
                    match data with Some d => VElem d | None => VNone end in
    match (if truthy initpath then Ok initpath else attr_read self_a "key")
    with
    | Raise e => (Raise e, self_a, w)
    | Ok path =>
        let self0 := init_private blank data path in
        match match data with
              | Some d => _loadData self0 d
              | None => Ok self0
              end
        with
        | Raise e => (Raise e, self0, w)
        | Ok self1 =>
            match result_of (_buildDetailsKey ∅ self1 w) with
            | Ok details_key =>
                (Ok tt, __setattr__ self1 "_details_key" details_key, w)
            | Raise e => (Raise e, self1, w)
            end
        end
    end.
Proof.
  cbv beta iota zeta delta
    [new __init__ init_private bind setattr ret read result_of].
  destruct (truthy initpath).
  2: destruct (attr_read _ "key") as [path | e]; [| reflexivity].
  all: destruct data as [d |].
  all: try (destruct (_loadData _ d) as [self1 | e]; [| reflexivity]).
  all: match goal with
       | |- context [_buildDetailsKey ∅ ?s ?w0] =>
           pose proof (pure_buildDetailsKey ∅ s w0) as Hp;
           destruct (_buildDetailsKey ∅ s w0) as [[r s'] w'];
           unfold result_of in Hp; simpl in Hp;
           injection Hp as -> ->; now destruct r
       end.
Qed.

(** A successful construction. *)
Lemma new_ok_inv (cls : pyclass) (data : option Element) (initpath : pyval)
  (w : world) :
  result_of (new cls data initpath w) = Ok tt ->
  exists path details_key self1,
    let self0 := init_private {| ob_class := cls; ob_dict := ∅ |} data path in
    match data with
    | Some d => _loadData self0 d = Ok self1
    | None => self1 = self0
    end
    /\ result_of (_buildDetailsKey ∅ self1 w) = Ok details_key
    /\ new cls data initpath w
       = (Ok tt, __setattr__ self1 "_details_key" details_key, w).
Proof.
  remember (new cls data initpath w) as out eqn:Hout.
  rewrite new_unfold in Hout. cbv zeta in Hout. intros Hok.
  destruct (if truthy initpath then _ else _) as [path | e];
    [| subst out; discriminate].
  destruct (match data with Some d => _ | None => _ end)
    as [self1 | e] eqn:Hload; [| subst out; discriminate].
  destruct (result_of (_buildDetailsKey ∅ self1 w)) as [dk | e] eqn:Hdk;
    [| subst out; discriminate].
  exists path, dk, self1. split; [| split; [exact Hdk | exact Hout]].
  destruct data as [d |]; [exact Hload | now injection Hload].
Qed.

(** After a successful construction [_overwriteNone] is [True]. *)
Lemma new_sets_overwrite_flag (cls : pyclass) (data : option Element)
  (initpath : pyval) (w : world) :
  result_of (new cls data initpath w) = Ok tt ->
  (forall d f, data = Some d -> class_loadData cls = Some f ->
               ~ In "_overwriteNone" (names (f d))) ->
  overwrite_flag (self_of (new cls data initpath w)) = VBool true.
Proof.
  intros Hok Hload.
  destruct (new_ok_inv cls data initpath w Hok)
    as (path & dk & self1 & Hself1 & _ & ->).
  unfold self_of. simpl. unfold overwrite_flag.
  rewrite setattr_lookup_ne by discriminate.
  fold (overwrite_flag self1).
  destruct data as [d |].
  - unfold _loadData in Hself1.
    assert (Hcls : ob_class (init_private {| ob_class := cls; ob_dict := ∅ |}
                               (Some d) path) = cls).
    { unfold init_private. now rewrite !setattr_class. }
    rewrite Hcls in Hself1.
    destruct (class_loadData cls) as [f |] eqn:Hf; [| discriminate].
    injection Hself1 as <-. unfold overwrite_flag.
    rewrite assign_all_lookup_notin by now apply (Hload d f).
    apply init_private_flag.
  - subst self1. apply init_private_flag.
Qed.

End Construction.

(** ** Overwriting with [None] *)

Section OverwriteNone.
Context `{Imports} `{PlexServer}.

Lemma public_not_private (attr private : string) :
  PyStr.startswith attr "_" = false ->
  PyStr.startswith private "_" = true ->
  private <> attr.
Proof. intros Hpub Hpriv ->. congruence. Qed.

Lemma setattr_none_by_flag (self : pyobj) (attr : string) (v0 : pyval)
  (ow : bool) :
  PyStr.startswith attr "_" = false ->
  ob_dict self !! attr = Some v0 ->
  overwrite_flag self = VBool ow ->
  ob_dict (__setattr__ self attr VNone) !! attr
  = Some (if ow then VNone else v0).
Proof.
  intros Hpub Hset Hflag. destruct ow.
  - rewrite setattr_stores by (rewrite Hflag; auto). simpl.
    apply lookup_insert_eq.
  - rewrite setattr_keeps; auto. now rewrite Hflag.
Qed.

(** The path [_reload] asks for: what its first two statements
    compute. *)
Definition reload_key (key : pyval) (kwargs : gmap string pyval) : M pyval :=
  let* details_key :=
    if bool_decide (kwargs = ∅) then read "_details_key"
    else _buildDetailsKey kwargs in
  if truthy key then ret key
  else if truthy details_key then ret details_key
  else read "key".

(** The answer of the server to the request of [_reload]; there is none
    when [_reload] raises before the server has answered. *)
Definition reload_answer (key : pyval) (kwargs : gmap string pyval)
  (self : pyobj) (w : world) : option Element :=
  match result_of (reload_key key kwargs self w) with
  | Ok path =>
      if truthy path then
        match server_query (w_queries w) (reload_request path) with
        | Ok data => Some data
        | Raise _ => None
        end
      else None
  | Raise _ => None
  end.

Lemma pure_reload_key (key : pyval) (kwargs : gmap string pyval) :
  pure (reload_key key kwargs).
Proof.
  unfold reload_key. apply pure_bind.
  - apply pure_if; [apply pure_read | apply pure_buildDetailsKey].
  - intros details_key. apply pure_if; [apply pure_ret |].
    apply pure_if; [apply pure_ret | apply pure_read].
Qed.

(** [_reload], step by step, for any key and keyword arguments. *)
Lemma reload_steps (key : pyval) (ow : bool) (kwargs : gmap string pyval)
  (self : pyobj) (w : world) :
  _reload key ow kwargs self w
  = match result_of (reload_key key kwargs self w) with
    | Raise e => (Raise e, self, w)
    | Ok path =>
        if truthy path then
          let w' := record_query w (reload_request path) in
          let self1 := __setattr__ self "_initpath" path in
          match server_query (w_queries w) (reload_request path) with
          | Raise e => (Raise e, self1, w')
          | Ok data =>
              let self2 := __setattr__ self1 "_overwriteNone" (VBool ow) in
              match first_child data with
              | Raise e => (Raise e, self2, w')
              | Ok data0 =>
                  match _invalidateCacheAndLoadData self2 data0 with
                  | (Ok _, self3) =>
                      (Ok tt, __setattr__ self3 "_overwriteNone" (VBool true),
                       w')
                  | (Raise e, self3) => (Raise e, self3, w')
                  end
              end
          end
        else (Raise Unsupported, self, w)
    end.
Proof.
  unfold _reload, reload_key.
  set (A := if bool_decide (kwargs = ∅) then read "_details_key"
            else _buildDetailsKey kwargs).
  assert (HA : pure A)
    by (apply pure_if; [apply pure_read | apply pure_buildDetailsKey]).
  rewrite (bind_pure A _ self w HA). rewrite (bind_pure A _ self w HA).
  destruct (result_of (A self w)) as [details_key | e]; [| reflexivity].
  match goal with
  | |- bind ?m _ self w = _ => set (B := m)
  end.
  assert (HB : pure B).
  { subst B. apply pure_if; [apply pure_ret |].
    apply pure_if; [apply pure_ret | apply pure_read]. }
  rewrite (bind_pure B _ self w HB).
  destruct (result_of (B self w)) as [path | e]; [| reflexivity].
  destruct (truthy path); cbn [negb]; [| reflexivity].
  unfold bind, setattr, query, lift, raise, ret.
  fold (reload_request path). cbv beta iota zeta.
  destruct (server_query (w_queries w) (reload_request path))
    as [data | e]; cbv beta iota zeta; [| reflexivity].
  destruct (first_child data) as [data0 | e]; cbv beta iota; [| reflexivity].
  destruct (_invalidateCacheAndLoadData _ data0) as [[[] | e] self3];
    reflexivity.
Qed.

(** A reload that returns has set the flag back. *)
Lemma reload_ok_flag (key : pyval) (ow : bool) (kwargs : gmap string pyval)
  (self : pyobj) (w : world) :
  result_of (_reload key ow kwargs self w) = Ok tt ->
  overwrite_flag (self_of (_reload key ow kwargs self w)) = VBool true.
Proof.
  rewrite reload_steps.
  destruct (result_of (reload_key key kwargs self w)) as [path | e];
    [| discriminate].
  destruct (truthy path); [| discriminate]. cbv zeta.
  destruct (server_query (w_queries w) (reload_request path))
    as [data | e]; [| discriminate].
  destruct (first_child data) as [data0 | e]; [| discriminate].
  destruct (_invalidateCacheAndLoadData _ data0) as [[[] | e] self3];
    [| discriminate].
  intros _. unfold self_of, overwrite_flag. cbn [fst snd].
  rewrite setattr_private by reflexivity. simpl.
  now rewrite lookup_insert_eq.
Qed.

(** A reload that raises leaves the flag at the argument when the server
    has answered, and as it was otherwise. *)
Lemma reload_raise_flag (key : pyval) (ow : bool)
  (kwargs : gmap string pyval) (self : pyobj) (w : world) (e : exn) :
  "_overwriteNone" ∉ _cached_data_properties (ob_class self) ->
  result_of (_reload key ow kwargs self w) = Raise e ->
  overwrite_flag (self_of (_reload key ow kwargs self w))
  = match reload_answer key kwargs self w with
    | Some _ => VBool ow
    | None => overwrite_flag self
    end.
Proof.
  intros Hcached. unfold reload_answer. rewrite reload_steps.
  destruct (result_of (reload_key key kwargs self w)) as [path | e'];
    [| reflexivity].
  destruct (truthy path); [| reflexivity]. cbv zeta.
  destruct (server_query (w_queries w) (reload_request path))
    as [data | e'].
  2:{ intros _. unfold self_of, overwrite_flag. cbn [fst snd].
      now rewrite setattr_lookup_ne by discriminate. }
  set (self2 := __setattr__ (__setattr__ self "_initpath" path)
                  "_overwriteNone" (VBool ow)).
  assert (Hflag2 : overwrite_flag self2 = VBool ow).
  { subst self2. unfold overwrite_flag.
    rewrite setattr_private by reflexivity. simpl.
    now rewrite lookup_insert_eq. }
  destruct (first_child data) as [data0 | e']; [| intros _; exact Hflag2].
  unfold _invalidateCacheAndLoadData.
  destruct (_loadData _ data0) as [self3 | e']; [discriminate |].
  intros _. unfold self_of. cbn [fst snd].
  destruct (is_other_object _ data0).
  - unfold overwrite_flag. rewrite invalidate_lookup.
    rewrite bool_decide_eq_false_2
      by (subst self2; now rewrite !setattr_class).
    rewrite setattr_lookup_ne by discriminate. exact Hflag2.
  - unfold overwrite_flag.
    rewrite setattr_lookup_ne by discriminate. exact Hflag2.
Qed.

(** An answer without element makes the reload raise. *)
Lemma reload_empty_answer (key : pyval) (ow : bool)
  (kwargs : gmap string pyval) (self : pyobj) (w : world) (data : Element) :
  reload_answer key kwargs self w = Some data ->
  children data = [] ->
  result_of (_reload key ow kwargs self w) = Raise IndexError.
Proof.
  unfold reload_answer. rewrite reload_steps.
  destruct (result_of (reload_key key kwargs self w)) as [path | e];
    [| discriminate].
  destruct (truthy path); [| discriminate]. cbv zeta.
  destruct (server_query (w_queries w) (reload_request path))
    as [data' | e]; [| discriminate].
  intros [= ->] Hnone. unfold first_child. now rewrite Hnone.
Qed.

(** The state in which [_loadData] runs during a reload. *)
Lemma reload_window (self : pyobj) (w : world) (key : pyval)
  (kwargs : gmap string pyval)
  (data data0 : Element) (f : loader) (l1 l2 : list (string * pyval))
  (attr : string) (v0 : pyval) (ow : bool) :
  reload_answer key kwargs self w = Some data ->
  first_child data = Ok data0 ->
  class_loadData (ob_class self) = Some f ->
  f data0 = (l1 ++ (attr, VNone) :: l2)%list ->
  ~ In attr (names l1) -> ~ In attr (names l2) ->
  ~ In "_overwriteNone" (names (f data0)) ->
  "_overwriteNone" ∉ _cached_data_properties (ob_class self) ->
  attr ∉ _cached_data_properties (ob_class self) ->
  PyStr.startswith attr "_" = false ->
  ob_dict self !! attr = Some v0 ->
  let out := _reload key ow kwargs self w in
  result_of out = Ok tt
  /\ overwrite_flag (self_of out) = VBool true
  /\ ob_dict (self_of out) !! attr = Some (if ow then VNone else v0).
Proof.
  intros Hanswer Hd0 Hf Hl Hl1 Hl2 Hlflag Hcflag Hcattr Hpub Hset out.
  subst out. revert Hanswer. unfold reload_answer. rewrite reload_steps.
  destruct (result_of (reload_key key kwargs self w)) as [path | e];
    [| discriminate].
  destruct (truthy path); [| discriminate]. cbv zeta.
  destruct (server_query (w_queries w) (reload_request path))
    as [data' | e]; [| discriminate].
  intros [= ->]. rewrite Hd0.
  rewrite (invalidateCacheAndLoadData_unfold _ data0 f)
    by (now rewrite !setattr_class).
  unfold result_of, self_of. simpl fst. simpl snd.
  split; [reflexivity |]. split.
  - unfold overwrite_flag. rewrite setattr_private by reflexivity. simpl.
    now rewrite lookup_insert_eq.
  - assert (Hflag : "_overwriteNone" <> attr)
      by now apply public_not_private.
    assert (Hdata : "_data" <> attr) by now apply public_not_private.
    assert (Hinit : "_initpath" <> attr) by now apply public_not_private.
    rewrite setattr_lookup_ne by exact Hflag.
    rewrite Hl. rewrite assign_all_once; auto.
    2: { intros Hin. apply Hlflag. rewrite Hl. unfold names.
         rewrite map_app. apply in_or_app. now left. }
    set (self2 := __setattr__ (__setattr__ self "_initpath" path)
                    "_overwriteNone" (VBool ow)).
    assert (Hset2 : ob_dict (__setattr__ self2 "_data" (VElem data0)) !! attr
                    = Some v0).
    { subst self2. now rewrite !setattr_lookup_ne. }
    assert (Hflag2 : overwrite_flag (__setattr__ self2 "_data" (VElem data0))
                     = VBool ow).
    { subst self2. unfold overwrite_flag.
      rewrite setattr_lookup_ne by discriminate.
      rewrite setattr_private by reflexivity. simpl.
      now rewrite lookup_insert_eq. }
    cbv zeta. destruct (is_other_object _ data0).
    + apply setattr_none_by_flag; auto.
      * rewrite invalidate_lookup.
        rewrite bool_decide_eq_false_2; [exact Hset2 |].
        subst self2. now rewrite !setattr_class.
      * unfold overwrite_flag. rewrite invalidate_lookup.
        rewrite bool_decide_eq_false_2; [exact Hflag2 |].
        subst self2. now rewrite !setattr_class.
    + now apply setattr_none_by_flag.
Qed.

End OverwriteNone.

(** ** Reload on access *)

(** The class keeps an attribute as plain private data: it is no property
    and no cached property, and [_loadData] does not assign it.  This is how
    [base.py] treats [_details_key] and [_initpath]. *)
Definition plain_private (cls : pyclass) (name : string) : Prop :=
  (match class_lookup cls name with
   | Some (Property _) => False
   | _ => True
   end)
  /\ (name ∉ _cached_data_properties cls)
  /\ forall f d, class_loadData cls = Some f -> ~ In name (names (f d)).

(** [value in (None, [])] *)
Definition absent (value : pyval) : bool := py_in_list value [VNone; VList []].

Section AccessLemmas.
Context `{Imports} `{PlexServer}.

Lemma absent_iff (value : pyval) :
  absent value = true <-> value = VNone \/ value = VList [].
Proof.
  unfold absent. simpl. split.
  - destruct value as [| [] | z | s | [| x l] | d | e]; simpl;
      try discriminate; auto.
  - intros [-> | ->]; reflexivity.
Qed.

Lemma object_getattribute_class (self : pyobj) (attr : string) :
  ob_class (object_getattribute self attr).2 = ob_class self.
Proof.
  unfold object_getattribute.
  destruct (class_lookup (ob_class self) attr) as [[v | f | f] |];
    try reflexivity; destruct (ob_dict self !! attr); reflexivity.
Qed.

Lemma object_getattribute_lookup_ne (self : pyobj) (attr other : string) :
  attr <> other ->
  ob_dict (object_getattribute self attr).2 !! other = ob_dict self !! other.
Proof.
  intros Hne. unfold object_getattribute.
  destruct (class_lookup (ob_class self) attr) as [[v | f | f] |];
    try reflexivity; destruct (ob_dict self !! attr); try reflexivity.
  simpl. now rewrite lookup_insert_ne.
Qed.

(** A name in the dictionary that is no property of the class reads as
    its entry. *)
Lemma attr_read_entry (self : pyobj) (name : string) (v : pyval) :
  match class_lookup (ob_class self) name with
  | Some (Property _) => False
  | _ => True
  end ->
  ob_dict self !! name = Some v ->
  attr_read self name = Ok v.
Proof.
  intros Hplain Hv. unfold attr_read, object_getattribute.
  destruct (class_lookup (ob_class self) name) as [[c | f | f] |];
    try contradiction; now rewrite Hv.
Qed.

(** An access that does not find an absent value returns what it found. *)
Lemma getattribute_present (self self1 : pyobj) (w : world) (attr : string)
  (value : pyval) :
  object_getattribute self attr = (Ok value, self1) ->
  absent value = false ->
  __getattribute__ attr self w = (Ok value, self1, w).
Proof.
  intros Hvalue Hpresent. unfold __getattribute__, bind, super_getattribute.
  rewrite Hvalue. cbv beta iota.
  destruct (bool_decide (attr ∈ _DONT_RELOAD_FOR_KEYS)); [reflexivity |].
  unfold the_world at 1. cbv beta iota.
  destruct (bool_decide (attr ∈ USER_DONT_RELOAD_FOR_KEYS w)); [reflexivity |].
  destruct (PyStr.startswith attr "_"); [reflexivity |].
  fold (absent value). rewrite Hpresent. reflexivity.
Qed.

(** An access that finds an absent value on a partial object that may
    reload runs [_reload(_overwriteNone=False)] and looks again. *)
Lemma getattribute_absent (self self1 : pyobj) (w : world) (attr : string)
  (value auto : pyval) :
  object_getattribute self attr = (Ok value, self1) ->
  absent value = true ->
  attr ∉ _DONT_RELOAD_FOR_KEYS ->
  attr ∉ USER_DONT_RELOAD_FOR_KEYS w ->
  PyStr.startswith attr "_" = false ->
  result_of (isFullObject self1 w) = Ok false ->
  inherits "PlexSession" (ob_class self) = false ->
  inherits "PlexHistory" (ob_class self) = false ->
  attr_read self1 "_autoReload" = Ok auto ->
  is_False auto = false ->
  __getattribute__ attr self w
  = match _reload VNone false ∅ self1 w with
    | (Ok _, reloaded, w') =>
        let '(r, self') := object_getattribute reloaded attr in (r, self', w')
    | (Raise e, self', w') => (Raise e, self', w')
    end.
Proof.
  intros Hvalue Habsent Hkey Huser Hpub Hpartial Hsession Hhistory
    Hauto Hon.
  assert (Hcls : ob_class self1 = ob_class self).
  { pose proof (object_getattribute_class self attr) as Hc.
    now rewrite Hvalue in Hc. }
  unfold __getattribute__.
  unfold bind at 1. unfold super_getattribute at 1.
  rewrite Hvalue. cbv beta iota.
  rewrite bool_decide_eq_false_2 by exact Hkey.
  unfold bind at 1. unfold the_world at 1. cbv beta iota.
  rewrite bool_decide_eq_false_2 by exact Huser.
  rewrite Hpub. fold (absent value). rewrite Habsent.
  change (negb true) with false. cbv beta iota.
  rewrite (bind_pure _ _ self1 w pure_isFullObject). rewrite Hpartial.
  unfold bind at 1. unfold the_class at 1. cbv beta iota.
  rewrite Hcls, Hsession, Hhistory. change (false || false) with false.
  cbv beta iota.
  unfold bind at 1. unfold read at 1. rewrite Hauto. cbv beta iota.
  rewrite Hon. unfold bind, super_getattribute.
  destruct (_reload VNone false ∅ self1 w) as [[[[] | e] reloaded] w'];
    reflexivity.
Qed.

End AccessLemmas.

(** ** The policy for [None] *)




Section ReloadOnce.
Context `{Imports} `{PlexServer}.

(** Loading a node leaves plain private data alone. *)
Lemma invalidateCacheAndLoadData_plain (self : pyobj) (data : Element)
  (name : string) :
  plain_private (ob_class self) name ->
  name <> "_data" ->
  ob_dict (_invalidateCacheAndLoadData self data).2 !! name
  = ob_dict self !! name.
Proof.
  intros (_ & Hcached & Hload) Hne.
  unfold _invalidateCacheAndLoadData, _loadData.
  set (self_d := __setattr__ self "_data" (VElem data)).
  assert (Hd : ob_dict self_d !! name = ob_dict self !! name)
    by (subst self_d; now rewrite setattr_lookup_ne).
  assert (Hi : ob_dict (_invalidateCachedProperties self_d) !! name
               = ob_dict self !! name).
  { rewrite invalidate_lookup. subst self_d. rewrite setattr_class.
    now rewrite bool_decide_eq_false_2 by exact Hcached. }
  destruct (is_other_object _ data); simpl;
    rewrite ?setattr_class;
    destruct (class_loadData (ob_class self)) as [f |] eqn:Hf; simpl;
    rewrite ?assign_all_lookup_notin by (now apply Hload);
    assumption.
Qed.

Lemma invalidateCacheAndLoadData_class (self : pyobj) (data : Element) :
  ob_class (_invalidateCacheAndLoadData self data).2 = ob_class self.
Proof.
  unfold _invalidateCacheAndLoadData, _loadData.
  destruct (is_other_object _ data); simpl; rewrite ?setattr_class;
    destruct (class_loadData (ob_class self)); simpl;
    rewrite ?assign_all_class, ?setattr_class; reflexivity.
Qed.

(** Whatever becomes of the reload, afterwards [_initpath] is the details
    key and one request for it was made. *)
Lemma reload_paths (self : pyobj) (w : world) (details_key : pyval) :
  plain_private (ob_class self) "_details_key" ->
  plain_private (ob_class self) "_initpath" ->
  ob_dict self !! "_details_key" = Some details_key ->
  truthy details_key = true ->
  let out := _reload VNone false ∅ self w in
  world_of out = record_query w (reload_request details_key)
  /\ ob_class (self_of out) = ob_class self
  /\ ob_dict (self_of out) !! "_details_key" = Some details_key
  /\ ob_dict (self_of out) !! "_initpath" = Some details_key.
Proof.
  intros Hpd Hpi Hdk Htrue out. subst out.
  rewrite (reload_unfold self w details_key false)
    by first [exact Htrue
             | apply attr_read_entry; [apply Hpd | exact Hdk]].
  cbv zeta.
  set (self1 := __setattr__ self "_initpath" details_key).
  set (self2 := __setattr__ self1 "_overwriteNone" (VBool false)).
  assert (H1 : ob_class self1 = ob_class self
               /\ ob_dict self1 !! "_details_key" = Some details_key
               /\ ob_dict self1 !! "_initpath" = Some details_key).
  { subst self1. rewrite setattr_class, setattr_lookup_ne by discriminate.
    rewrite setattr_private by reflexivity. simpl.
    now rewrite lookup_insert_eq. }
  assert (H2 : ob_class self2 = ob_class self
               /\ ob_dict self2 !! "_details_key" = Some details_key
               /\ ob_dict self2 !! "_initpath" = Some details_key).
  { subst self2. now rewrite setattr_class, !setattr_lookup_ne by discriminate. }
  destruct (server_query _ _) as [data | e]; [| now unfold world_of, self_of].
  destruct (first_child data) as [data0 | e]; [| now unfold world_of, self_of].
  pose proof (invalidateCacheAndLoadData_class self2 data0) as Hc.
  pose proof (invalidateCacheAndLoadData_plain self2 data0 "_details_key")
    as Hd.
  pose proof (invalidateCacheAndLoadData_plain self2 data0 "_initpath")
    as Hi.
  destruct H2 as (Hc2 & Hd2 & Hi2). rewrite Hc2 in Hd, Hi, Hc.
  specialize (Hd Hpd ltac:(discriminate)).
  specialize (Hi Hpi ltac:(discriminate)).
  destruct (_invalidateCacheAndLoadData self2 data0) as [[[] | e] self3];
    cbn [fst snd] in Hc, Hd, Hi; unfold world_of, self_of; cbn [fst snd].
  - rewrite setattr_class, !setattr_lookup_ne by discriminate.
    rewrite Hd, Hi. auto.
  - rewrite Hd, Hi. auto.
Qed.

(** An object whose [_initpath] is its details key is full, if
    [isFullObject] returns at all. *)
Lemma full_when_reloaded (self : pyobj) (w : world)
  (details_key : pyval) (p : urlpath * gset (string * string)) :
  plain_private (ob_class self) "_details_key" ->
  plain_private (ob_class self) "_initpath" ->
  ob_dict self !! "_details_key" = Some details_key ->
  ob_dict self !! "_initpath" = Some details_key ->
  truthy details_key = true ->
  urlparse details_key = Ok p ->
  result_of (isFullObject self w) = Ok true
  \/ exists e, result_of (isFullObject self w) = Raise e.
Proof.
  intros Hpd Hpi Hdk Hip Htrue Hparse.
  unfold isFullObject, result_of, bind, read, lift, ret.
  rewrite (attr_read_entry self "_details_key" details_key)
    by (try exact Hdk; apply Hpd).
  cbv beta iota. rewrite Htrue. cbv beta iota. rewrite Hparse.
  cbv beta iota.
  rewrite (attr_read_entry self "_initpath" details_key)
    by (try exact Hip; apply Hpi).
  cbv beta iota. rewrite Hparse. cbv beta iota.
  destruct (attr_read self "key") as [key | e]; cbv beta iota.
  - left. simpl. f_equal.
    assert (Hsame : urlpath_eqb p.1 p.1 = true).
    { destruct p.1; simpl; [apply String.eqb_refl | reflexivity]. }
    rewrite Hsame. rewrite bool_decide_eq_true_2 by reflexivity.
    apply orb_true_r.
  - right. now exists e.
Qed.

Lemma partial_parses (self : pyobj) (w : world) (details_key : pyval)
  (b : bool) :
  attr_read self "_details_key" = Ok details_key ->
  truthy details_key = true ->
  result_of (isFullObject self w) = Ok b ->
  exists p, urlparse details_key = Ok p.
Proof.
  intros Hdk Htrue. unfold isFullObject, result_of, bind, read, lift, ret.
  rewrite Hdk. cbv beta iota. rewrite Htrue. cbv beta iota.
  destruct (urlparse details_key) as [p | e]; [eauto | discriminate].
Qed.

(** An access on such an object makes no request. *)
Lemma getattribute_when_reloaded (self : pyobj) (w : world) (attr : string)
  (details_key : pyval) (p : urlpath * gset (string * string)) :
  plain_private (ob_class self) "_details_key" ->
  plain_private (ob_class self) "_initpath" ->
  ob_dict self !! "_details_key" = Some details_key ->
  ob_dict self !! "_initpath" = Some details_key ->
  truthy details_key = true ->
  urlparse details_key = Ok p ->
  PyStr.startswith attr "_" = false ->
  world_of (__getattribute__ attr self w) = w.
Proof.
  intros Hpd Hpi Hdk Hip Htrue Hparse Hpub.
  unfold __getattribute__.
  unfold bind at 1. unfold super_getattribute at 1.
  pose proof (object_getattribute_class self attr) as Hc.
  pose proof (object_getattribute_lookup_ne self attr "_details_key"
                (not_eq_sym (public_not_private attr "_details_key"
                               Hpub eq_refl))) as Hd.
  pose proof (object_getattribute_lookup_ne self attr "_initpath"
                (not_eq_sym (public_not_private attr "_initpath"
                               Hpub eq_refl))) as Hi.
  destruct (object_getattribute self attr) as [[value | e] self1];
    simpl in Hc, Hd, Hi; cbv beta iota; [| reflexivity].
  destruct (bool_decide (attr ∈ _DONT_RELOAD_FOR_KEYS)); [reflexivity |].
  unfold bind at 1. unfold the_world at 1. cbv beta iota.
  destruct (bool_decide (attr ∈ USER_DONT_RELOAD_FOR_KEYS w)); [reflexivity |].
  rewrite Hpub. destruct (negb _); [reflexivity |].
  rewrite (bind_pure _ _ self1 w pure_isFullObject).
  rewrite <- Hc in Hpd, Hpi. rewrite <- Hd in Hdk. rewrite <- Hi in Hip.
  destruct (full_when_reloaded self1 w details_key p Hpd Hpi Hdk Hip
              Htrue Hparse) as [-> | [e ->]]; reflexivity.
Qed.

End ReloadOnce.

Section ReloadResult.
Context `{Imports} `{PlexServer}.

(** The reload succeeds when the server answers with a node and the
    class can load it. *)
Lemma reload_ok (self : pyobj) (w : world) (details_key : pyval)
  (data data0 : Element) (ow : bool) :
  attr_read self "_details_key" = Ok details_key ->
  truthy details_key = true ->
  server_query (w_queries w) (reload_request details_key) = Ok data ->
  first_child data = Ok data0 ->
  is_Some (class_loadData (ob_class self)) ->
  result_of (_reload VNone ow ∅ self w) = Ok tt.
Proof.
  intros Hdk Htrue Hq Hd0 [f Hf].
  rewrite (reload_unfold self w details_key ow Hdk Htrue). cbv zeta.
  rewrite Hq, Hd0.
  rewrite (invalidateCacheAndLoadData_unfold _ data0 f)
    by (now rewrite !setattr_class).
  reflexivity.
Qed.

Lemma invalidateCacheAndLoadData_is_Some (self : pyobj) (data : Element)
  (name : string) :
  is_Some (ob_dict self !! name) ->
  name ∉ _cached_data_properties (ob_class self) ->
  is_Some (ob_dict (_invalidateCacheAndLoadData self data).2 !! name).
Proof.
  intros Hs Hcached. unfold _invalidateCacheAndLoadData, _loadData.
  set (self_d := __setattr__ self "_data" (VElem data)).
  assert (Hd : is_Some (ob_dict self_d !! name))
    by (subst self_d; now apply setattr_is_Some).
  assert (Hi : is_Some (ob_dict (_invalidateCachedProperties self_d) !! name)).
  { rewrite invalidate_lookup. subst self_d. rewrite setattr_class.
    now rewrite bool_decide_eq_false_2 by exact Hcached. }
  destruct (is_other_object _ data); simpl; rewrite ?setattr_class;
    destruct (class_loadData (ob_class self)); simpl;
    try apply assign_all_is_Some; assumption.
Qed.

(** Entries that are no cached properties survive a reload. *)
Lemma reload_keeps_entries (self : pyobj) (w : world) (details_key : pyval)
  (ow : bool) (name : string) :
  attr_read self "_details_key" = Ok details_key ->
  truthy details_key = true ->
  is_Some (ob_dict self !! name) ->
  name ∉ _cached_data_properties (ob_class self) ->
  is_Some (ob_dict (self_of (_reload VNone ow ∅ self w)) !! name).
Proof.
  intros Hdk Htrue Hs Hcached.
  rewrite (reload_unfold self w details_key ow Hdk Htrue). cbv zeta.
  set (self1 := __setattr__ self "_initpath" details_key).
  set (self2 := __setattr__ self1 "_overwriteNone" (VBool ow)).
  assert (H1 : is_Some (ob_dict self1 !! name))
    by (subst self1; now apply setattr_is_Some).
  assert (H2 : is_Some (ob_dict self2 !! name))
    by (subst self2; now apply setattr_is_Some).
  destruct (server_query _ _) as [data | e]; [| exact H1].
  destruct (first_child data) as [data0 | e]; [| exact H2].
  pose proof (invalidateCacheAndLoadData_is_Some self2 data0 name H2) as H3.
  assert (Hc : ob_class self2 = ob_class self)
    by (subst self2 self1; now rewrite !setattr_class).
  rewrite Hc in H3. specialize (H3 Hcached).
  destruct (_invalidateCacheAndLoadData self2 data0) as [[[] | e] self3];
    cbn [fst snd] in H3; unfold self_of; cbn [fst snd].
  - now apply setattr_is_Some.
  - exact H3.
Qed.

(** An attribute that could be read can be read on any object of the
    same class that still has its entry. *)
Lemma object_getattribute_defined (self self' : pyobj) (attr : string)
  (value : pyval) :
  (object_getattribute self attr).1 = Ok value ->
  ob_class self' = ob_class self ->
  (is_Some (ob_dict self !! attr) ->
   attr ∉ _cached_data_properties (ob_class self) ->
   is_Some (ob_dict self' !! attr)) ->
  exists v, (object_getattribute self' attr).1 = Ok v.
Proof.
  intros Hget Hcls Hentry. unfold object_getattribute in *.
  rewrite Hcls.
  destruct (class_lookup (ob_class self) attr) as [[c | f | f] |] eqn:Hm.
  - destruct (ob_dict self' !! attr); simpl; eauto.
  - simpl. eauto.
  - destruct (ob_dict self' !! attr); simpl; eauto.
  - destruct (ob_dict self !! attr) as [v0 |] eqn:Hv0; [| discriminate].
    destruct Hentry as [v Hv]; [eauto | |].
    + intros Hin. apply cached_is_member in Hin. rewrite Hm in Hin.
      now destruct Hin.
    + rewrite Hv. simpl. eauto.
Qed.

End ReloadResult.

Section AbsentAccess.
Context `{Imports} `{PlexServer}.
Variables (self self1 : pyobj) (w : world) (attr : string).
Variables (value details_key auto : pyval).

Hypothesis Hdetails : plain_private (ob_class self) "_details_key".
Hypothesis Hinitpath : plain_private (ob_class self) "_initpath".
Hypothesis Hvalue : object_getattribute self attr = (Ok value, self1).
Hypothesis Habsent : absent value = true.
Hypothesis Hkey : attr ∉ _DONT_RELOAD_FOR_KEYS.
Hypothesis Huser : attr ∉ USER_DONT_RELOAD_FOR_KEYS w.
Hypothesis Hpublic : PyStr.startswith attr "_" = false.
Hypothesis Hdk : ob_dict self1 !! "_details_key" = Some details_key.
Hypothesis Htrue : truthy details_key = true.
Hypothesis Hpartial : result_of (isFullObject self1 w) = Ok false.
Hypothesis Hsession : inherits "PlexSession" (ob_class self) = false.
Hypothesis Hhistory : inherits "PlexHistory" (ob_class self) = false.
Hypothesis Hauto : attr_read self1 "_autoReload" = Ok auto.
Hypothesis Hon : is_False auto = false.

Let first := __getattribute__ attr self w.
Let second := __getattribute__ attr (self_of first) (world_of first).

Lemma absent_access_class : ob_class self1 = ob_class self.
Proof.
  pose proof (object_getattribute_class self attr) as Hc.
  now rewrite Hvalue in Hc.
Qed.

Lemma absent_access_details :
  attr_read self1 "_details_key" = Ok details_key.
Proof.
  apply attr_read_entry; [| exact Hdk].
  rewrite absent_access_class. apply Hdetails.
Qed.

Lemma absent_access_unfold :
  first
  = match _reload VNone false ∅ self1 w with
    | (Ok _, reloaded, w') =>
        let '(r, self') := object_getattribute reloaded attr in (r, self', w')
    | (Raise e, self', w') => (Raise e, self', w')
    end.
Proof.
  subst first.
  exact (getattribute_absent self self1 w attr value auto Hvalue Habsent
           Hkey Huser Hpublic Hpartial Hsession Hhistory Hauto Hon).
Qed.

(** The access makes one request, for the details key. *)
Lemma absent_access_request :
  world_of first = record_query w (reload_request details_key).
Proof.
  rewrite absent_access_unfold.
  pose proof absent_access_class as Hc.
  destruct (reload_paths self1 w details_key) as (Hw & _); auto;
    try (rewrite Hc; assumption).
  destruct (_reload VNone false ∅ self1 w) as [[[[] | e] reloaded] w'];
    unfold world_of in *; cbn [fst snd] in *; [| exact Hw].
  now destruct (object_getattribute reloaded attr).
Qed.

(** When the reload succeeds the access returns the attribute of the
    reloaded object. *)
Lemma absent_access_value (data data0 : Element) :
  server_query (w_queries w) (reload_request details_key) = Ok data ->
  first_child data = Ok data0 ->
  is_Some (class_loadData (ob_class self)) ->
  exists reloaded v,
    _reload VNone false ∅ self1 w = (Ok tt, reloaded, world_of first)
    /\ object_getattribute reloaded attr = (Ok v, self_of first)
    /\ result_of first = Ok v.
Proof.
  intros Hq Hd0 Hload.
  pose proof absent_access_class as Hc.
  pose proof absent_access_details as Hread.
  rewrite <- Hc in Hload.
  pose proof (reload_ok self1 w details_key data data0 false Hread Htrue
                Hq Hd0 Hload) as Hok.
  destruct (reload_paths self1 w details_key) as (_ & Hc' & _); auto;
    try (rewrite Hc; assumption).
  assert (Hkept : is_Some (ob_dict self !! attr) ->
                  attr ∉ _cached_data_properties (ob_class self) ->
                  is_Some (ob_dict (self_of (_reload VNone false ∅ self1 w))
                             !! attr)).
  { intros Hs Hnc.
    apply (reload_keeps_entries self1 w details_key false attr Hread Htrue).
    - destruct (decide (attr ∈ dom (ob_dict self1))) as [Hin | Hout].
      + now apply elem_of_dom in Hin.
      + exfalso. apply Hout. apply elem_of_dom.
        pose proof Hvalue as Hv. unfold object_getattribute in Hv.
        destruct (class_lookup (ob_class self) attr) as [[c | f | f] |];
          destruct Hs as [v0 Hv0]; rewrite ?Hv0 in Hv;
          injection Hv as _ <-; eauto.
    - now rewrite Hc. }
  rewrite absent_access_unfold.
  destruct (_reload VNone false ∅ self1 w) as [[[[] | e] reloaded] w'];
    unfold result_of, self_of in *; cbn [fst snd] in *; [| discriminate].
  destruct (object_getattribute_defined self reloaded attr value) as [v Hv].
  - now rewrite Hvalue.
  - now rewrite Hc', Hc.
  - exact Hkept.
  - exists reloaded, v.
    destruct (object_getattribute reloaded attr) as [r self'].
    cbn [fst snd] in *. subst r. unfold world_of. cbn [fst snd]. auto.
Qed.

(** A second access makes no request. *)
Lemma absent_access_again : world_of second = world_of first.
Proof.
  subst second.
  pose proof absent_access_class as Hc.
  pose proof absent_access_details as Hread.
  destruct (partial_parses self1 w details_key false Hread Htrue Hpartial)
    as [p Hparse].
  destruct (reload_paths self1 w details_key) as (_ & Hc' & Hd & Hi); auto;
    try (rewrite Hc; assumption).
  rewrite absent_access_unfold.
  destruct (_reload VNone false ∅ self1 w) as [[[[] | e] reloaded] w'];
    unfold self_of, world_of in *; cbn [fst snd] in *.
  - pose proof (object_getattribute_class reloaded attr) as Hc2.
    pose proof (object_getattribute_lookup_ne reloaded attr "_details_key"
                  (not_eq_sym (public_not_private attr "_details_key"
                                 Hpublic eq_refl))) as Hd2.
    pose proof (object_getattribute_lookup_ne reloaded attr "_initpath"
                  (not_eq_sym (public_not_private attr "_initpath"
                                 Hpublic eq_refl))) as Hi2.
    destruct (object_getattribute reloaded attr) as [r self'].
    cbn [fst snd] in *.
    apply (getattribute_when_reloaded self' w' attr details_key p);
      rewrite ?Hc2, ?Hc', ?Hc, ?Hd2, ?Hi2; auto.
  - apply (getattribute_when_reloaded reloaded w' attr details_key p);
      rewrite ?Hc', ?Hc; auto.
Qed.

End AbsentAccess.

(** C1.  On a partial [PlexPartialObject] that is no session or history
    entry and whose [_autoReload] is not [False], reading a public
    attribute outside the exemption lists whose value is [None] makes
    exactly one request, for the details key; when the server answers
    with a node the class can load, the access returns the attribute of
    the reloaded object; a second access makes no request, whatever the
    attribute is by then.  (The class keeps [_details_key] and [_initpath]
    as plain private data, and the object has a details key.) *)
Theorem getattribute_none_reloads_once `{Imports} `{PlexServer}
  (self self1 : pyobj) (w : world) (attr : string)
  (details_key auto : pyval) :
  plain_private (ob_class self) "_details_key" ->
  plain_private (ob_class self) "_initpath" ->
  object_getattribute self attr = (Ok VNone, self1) ->
  attr ∉ _DONT_RELOAD_FOR_KEYS ->
  attr ∉ USER_DONT_RELOAD_FOR_KEYS w ->
  PyStr.startswith attr "_" = false ->
  ob_dict self1 !! "_details_key" = Some details_key ->
  truthy details_key = true ->
  result_of (isFullObject self1 w) = Ok false ->
  inherits "PlexSession" (ob_class self) = false ->
  inherits "PlexHistory" (ob_class self) = false ->
  attr_read self1 "_autoReload" = Ok auto ->
  is_False auto = false ->
  let first := __getattribute__ attr self w in
  let second := __getattribute__ attr (self_of first) (world_of first) in
  w_queries (world_of first)
  = (w_queries w ++ [reload_request details_key])%list
  /\ (forall data data0,
        server_query (w_queries w) (reload_request details_key) = Ok data ->
        first_child data = Ok data0 ->
        is_Some (class_loadData (ob_class self)) ->
        exists reloaded v,
          _reload VNone false ∅ self1 w = (Ok tt, reloaded, world_of first)
          /\ object_getattribute reloaded attr = (Ok v, self_of first)
          /\ result_of first = Ok v)
  /\ world_of second = world_of first.
Proof.
  intros Hd Hi Hvalue Hkey Huser Hpub Hdk Htrue Hpartial Hs Hh Hauto Hon.
  cbv zeta. split; [| split].
  - rewrite (absent_access_request self self1 w attr VNone details_key auto);
      auto.
  - intros data data0.
    apply (absent_access_value self self1 w attr VNone details_key auto); auto.
  - apply (absent_access_again self self1 w attr VNone details_key auto); auto.
Qed.

(** C1, witness: the listed movie has no summary; reading it asks the
    server once and returns the summary of the movie's own path, reading
    it again asks nothing. *)
Lemma getattribute_none_reloads_once_witness :
  let first := __getattribute__ (H := Example.imports) (H0 := Example.server)
                 "summary" Example.listed_movie Example.world0 in
  let second := __getattribute__ (H := Example.imports) (H0 := Example.server)
                  "summary" (self_of first) (world_of first) in
  result_of first = Ok (VStr "A race car.")
  /\ w_queries (world_of first)
     = [reload_request
          (VStr "/library/metadata/1?includeChapters=1&includeMarkers=1")]
  /\ world_of second = world_of first.
Proof.
  assert (Hplain : forall name, name = "_details_key" \/ name = "_initpath" ->
                     plain_private (ob_class Example.listed_movie) name).
  { intros name Hname. change (ob_class Example.listed_movie) with Example.Movie.
    split; [| split].
    - destruct Hname as [-> | ->]; exact I.
    - destruct Hname as [-> | ->];
        apply (bool_decide_unpack _); vm_compute; exact I.
    - intros f d Hf. injection Hf as <-. cbn [names map fst].
      destruct Hname as [-> | ->];
        intros [E | [E | [E | [E | []]]]]; discriminate E. }
  pose proof (getattribute_none_reloads_once (H := Example.imports)
                (H0 := Example.server)
                Example.listed_movie Example.listed_movie Example.world0
                "summary"
                (VStr "/library/metadata/1?includeChapters=1&includeMarkers=1")
                (VBool true)
                (Hplain _ (or_introl eq_refl)) (Hplain _ (or_intror eq_refl))
                eq_refl
                ltac:(apply (bool_decide_unpack _); vm_compute; exact I)
                ltac:(apply (bool_decide_unpack _); vm_compute; exact I)
                eq_refl
                ltac:(vm_compute; reflexivity) eq_refl
                ltac:(vm_compute; reflexivity) eq_refl eq_refl
                ltac:(vm_compute; reflexivity) eq_refl)
    as (Hone & _ & Hagain).
  intros first second. split; [vm_compute; reflexivity |].
  split; [exact Hone | exact Hagain].
Defined.

(** C10.  The empty list is as absent as [None]: with either value the
    access of C1 runs [_reload(_overwriteNone=False)], makes its one
    request and looks the attribute up again.  Any other value is returned
    as it was found, without a request. *)
Theorem getattribute_empty_list_reloads `{Imports} `{PlexServer} :
  (forall self self1 w attr value details_key auto,
      value = VNone \/ value = VList [] ->
      plain_private (ob_class self) "_details_key" ->
      plain_private (ob_class self) "_initpath" ->
      object_getattribute self attr = (Ok value, self1) ->
      attr ∉ _DONT_RELOAD_FOR_KEYS ->
      attr ∉ USER_DONT_RELOAD_FOR_KEYS w ->
      PyStr.startswith attr "_" = false ->
      ob_dict self1 !! "_details_key" = Some details_key ->
      truthy details_key = true ->
      result_of (isFullObject self1 w) = Ok false ->
      inherits "PlexSession" (ob_class self) = false ->
      inherits "PlexHistory" (ob_class self) = false ->
      attr_read self1 "_autoReload" = Ok auto ->
      is_False auto = false ->
      let first := __getattribute__ attr self w in
      first
      = match _reload VNone false ∅ self1 w with
        | (Ok _, reloaded, w') =>
            let '(r, self') := object_getattribute reloaded attr in
            (r, self', w')
        | (Raise e, self', w') => (Raise e, self', w')
        end
      /\ w_queries (world_of first)
         = (w_queries w ++ [reload_request details_key])%list)
  /\ (forall self self1 w attr value,
        object_getattribute self attr = (Ok value, self1) ->
        value <> VNone -> value <> VList [] ->
        __getattribute__ attr self w = (Ok value, self1, w)).
Proof.
  split.
  - intros self self1 w attr value details_key auto Hvalue Hd Hi Hget Hkey
      Huser Hpub Hdk Htrue Hpartial Hs Hh Hauto Hon.
    apply absent_iff in Hvalue. cbv zeta. split.
    + apply (absent_access_unfold self self1 w attr value auto); auto.
    + rewrite (absent_access_request self self1 w attr value details_key auto);
        auto.
  - intros self self1 w attr value Hget Hnone Hempty.
    apply getattribute_present; [exact Hget |].
    destruct (absent value) eqn:E; [| reflexivity].
    apply absent_iff in E. tauto.
Qed.

(** C10, witness: a movie listed without media has the empty list of
    codecs; reading them reloads the movie and returns the codecs of its
    own path, while its title is returned as it is. *)
Lemma getattribute_empty_list_reloads_witness :
  let self := Example.bare_movie in
  let first := __getattribute__ (H := Example.imports) (H0 := Example.server)
                 "codecs" self Example.world0 in
  (object_getattribute self "codecs").1 = Ok (VList [])
  /\ result_of first = Ok (VList [VStr "h264"])
  /\ w_queries (world_of first)
     = [reload_request
          (VStr "/library/metadata/1?includeChapters=1&includeMarkers=1")]
  /\ __getattribute__ (H := Example.imports) (H0 := Example.server)
       "title" self Example.world0
     = (Ok (VStr "Cars"), self, Example.world0).
Proof.
  destruct (getattribute_empty_list_reloads (H := Example.imports)
              (H0 := Example.server)) as [Habsent Hpresent].
  assert (Hplain : forall name, name = "_details_key" \/ name = "_initpath" ->
                     plain_private (ob_class Example.bare_movie) name).
  { intros name Hname. change (ob_class Example.bare_movie) with Example.Movie.
    split; [| split].
    - destruct Hname as [-> | ->]; exact I.
    - destruct Hname as [-> | ->];
        apply (bool_decide_unpack _); vm_compute; exact I.
    - intros f d Hf. injection Hf as <-. cbn [names map fst].
      destruct Hname as [-> | ->];
        intros [E | [E | [E | [E | []]]]]; discriminate E. }
  pose proof (Habsent Example.bare_movie
                (object_getattribute Example.bare_movie "codecs").2
                Example.world0 "codecs" (VList [])
                (VStr "/library/metadata/1?includeChapters=1&includeMarkers=1")
                (VBool true)
                (or_intror eq_refl)
                (Hplain _ (or_introl eq_refl)) (Hplain _ (or_intror eq_refl))
                eq_refl
                ltac:(apply (bool_decide_unpack _); vm_compute; exact I)
                ltac:(apply (bool_decide_unpack _); vm_compute; exact I)
                eq_refl
                ltac:(vm_compute; reflexivity) eq_refl
                ltac:(vm_compute; reflexivity) eq_refl eq_refl
                ltac:(vm_compute; reflexivity) eq_refl)
    as [_ Hone].
  intros self first. split; [reflexivity |].
  split; [vm_compute; reflexivity |]. split; [exact Hone |].
  apply Hpresent; [reflexivity | discriminate | discriminate].
Defined.

(** ** Merging containers *)

Definition int_or_none (v : pyval) : Prop := v = VNone \/ exists z, v = VInt z.

(** [v if v is not None else len(l)] for an integer [v] *)
Definition size_or_len (v : pyval) (l : list pyobj) : Z :=
  match v with
  | VInt z => z
  | _ => Z.of_nat (List.length l)
  end.

(** The minimum of two offsets, or the one that is not [None]. *)
Definition merged_offset (a b : pyval) : pyval :=
  match a, b with
  | VInt x, VInt y => VInt (Z.min x y)
  | VNone, _ => b
  | _, _ => a
  end.

(** A provenance field after the merge: the receiver's value when it is
    set and not [None], else the new container's when it has one. *)
Definition merged_field (own new : option pyval) : option pyval :=
  match own with
  | Some v =>
      if is_none v
      then match new with Some v' => Some v' | None => Some v end
      else Some v
  | None => new
  end.

(** The attributes [extend] reads are entries of the instance dictionary,
    not members of the class. *)
Definition container_data (cls : pyclass) : Prop :=
  forall name,
    In name ("size" :: "totalSize" :: "offset" :: provenance_keys) ->
    class_lookup cls name = None.

Section Extend.

Lemma attr_read_plain (self : pyobj) (name : string) :
  class_lookup (ob_class self) name = None ->
  attr_read self name
  = match ob_dict self !! name with
    | Some v => Ok v
    | None => Raise AttributeError
    end.
Proof.
  intros Hm. unfold attr_read, object_getattribute. rewrite Hm.
  now destruct (ob_dict self !! name).
Qed.

(** Assigning a value leaves under its name the value, unless it is a
    [None] dropped in favour of a [None]. *)
Lemma setattr_lookup_value (self : pyobj) (attr : string) (value : pyval) :
  (value = VNone -> ob_dict self !! attr = None
                    \/ ob_dict self !! attr = Some VNone) ->
  ob_dict (__setattr__ self attr value) !! attr = Some value.
Proof.
  intros Hnone. unfold __setattr__.
  destruct (negb (is_none value) || _ || _ || _) eqn:E.
  - simpl. apply lookup_insert_eq.
  - destruct value; try discriminate E.
    destruct (Hnone eq_refl) as [Hn | Hs]; [| exact Hs].
    rewrite Hn in E. rewrite bool_decide_eq_false_2 in E.
    + simpl in E. now rewrite orb_true_r in E.
    + intros [? ?]; discriminate.
Qed.

Lemma fill_unset_merges (other : pyobj) (keys : list string) :
  forall c : MediaContainer,
  (forall key, In key keys -> class_lookup (ob_class (mc_self c)) key = None) ->
  (forall key, In key keys -> class_lookup (ob_class other) key = None) ->
  NoDup keys ->
  exists self',
    fill_unset other keys c
    = (Ok tt, {| mc_list := mc_list c; mc_self := self' |})
    /\ ob_class self' = ob_class (mc_self c)
    /\ (forall key, In key keys ->
          ob_dict self' !! key
          = merged_field (ob_dict (mc_self c) !! key) (ob_dict other !! key))
    /\ (forall name, ~ In name keys ->
          ob_dict self' !! name = ob_dict (mc_self c) !! name).
Proof.
  induction keys as [| key keys IH]; intros c Hc Ho Hdup.
  - exists (mc_self c). destruct c. simpl. repeat split; auto.
    intros key [].
  - apply NoDup_cons in Hdup as [Hnotin Hdup].
    assert (Hnotin' : ~ In key keys) by (now rewrite <- list_elem_of_In).
    simpl fill_unset.
    rewrite (attr_read_plain (mc_self c) key) by (apply Hc; now left).
    rewrite (attr_read_plain other key) by (apply Ho; now left).
    set (c1 := {| mc_list := mc_list c;
                  mc_self := __setattr__ (mc_self c) key
                               (default VNone (ob_dict other !! key)) |}).
    assert (Hstep : exists c2,
      (c2 = c \/ (c2 = c1 /\ is_Some (ob_dict other !! key)
                  /\ (ob_dict (mc_self c) !! key = None
                      \/ ob_dict (mc_self c) !! key = Some VNone)))
      /\ ob_dict (mc_self c2) !! key
         = merged_field (ob_dict (mc_self c) !! key) (ob_dict other !! key)
      /\ (if match match ob_dict (mc_self c) !! key with
                      | Some v => Ok v
                      | None => Raise AttributeError
                      end
                with
                | Ok v => is_none v
                | Raise _ => true
                end
          then match match ob_dict other !! key with
                     | Some v => Ok v
                     | None => Raise AttributeError
                     end
               with
               | Ok v => mc_bind (mc_setattr key v)
                           (fun _ => fill_unset other keys) c
               | Raise _ => fill_unset other keys c
               end
          else fill_unset other keys c)
         = fill_unset other keys c2).
    { destruct (ob_dict (mc_self c) !! key) as [v |] eqn:Hown.
      - destruct (is_none v) eqn:Hv.
        + destruct v; try discriminate Hv.
          destruct (ob_dict other !! key) as [v' |] eqn:Hnew.
          * exists c1. split; [right; eauto |]. split; [| reflexivity].
            subst c1. simpl. apply setattr_lookup_value. auto.
          * exists c. split; [now left |]. rewrite Hown. now split.
        + exists c. split; [now left |]. rewrite Hown. simpl. rewrite Hv.
          now split.
      - destruct (ob_dict other !! key) as [v' |] eqn:Hnew.
        + exists c1. split; [right; eauto |]. split; [| reflexivity].
          subst c1. simpl. apply setattr_lookup_value. auto.
        + exists c. split; [now left |]. rewrite Hown. now split. }
    destruct Hstep as (c2 & Hc2 & Hkey & ->).
    assert (Hsame : mc_list c2 = mc_list c
                    /\ ob_class (mc_self c2) = ob_class (mc_self c)
                    /\ forall name, name <> key ->
                         ob_dict (mc_self c2) !! name
                         = ob_dict (mc_self c) !! name).
    { destruct Hc2 as [-> | (-> & _)]; [auto |]. subst c1. simpl.
      rewrite setattr_class. repeat split.
      intros name Hne. now apply setattr_lookup_ne. }
    destruct Hsame as (Hlist & Hcls & Hother).
    destruct (IH c2) as (self' & Hrun & Hcls' & Hkeys & Hrest).
    + intros k Hk. rewrite Hcls. apply Hc. now right.
    + intros k Hk. apply Ho. now right.
    + exact Hdup.
    + exists self'. rewrite Hrun, Hlist. split; [reflexivity |].
      split; [now rewrite Hcls', Hcls |]. split.
      * intros k [<- | Hk].
        -- now rewrite Hrest.
        -- rewrite Hkeys by exact Hk. rewrite Hother; [reflexivity |].
           intros ->. contradiction.
      * intros name Hname. rewrite Hrest.
        -- apply Hother. intros ->. apply Hname. now left.
        -- intros Hin. apply Hname. now right.
Qed.

End Extend.

Section ExtendContainer.

Lemma py_min_int (a b : Z) : py_min (VInt a) (VInt b) = Ok (VInt (Z.min a b)).
Proof.
  unfold py_min, py_compare. simpl. unfold Z.min.
  rewrite (Z.compare_antisym a b).
  destruct (a ?= b); reflexivity.
Qed.

Lemma provenance_keys_NoDup : NoDup provenance_keys.
Proof.
  unfold provenance_keys.
  repeat (apply NoDup_cons; split;
          [rewrite list_elem_of_In; simpl; intuition discriminate |]).
  apply NoDup_nil_2.
Qed.

(** [extend] with a container, step by step. *)
Lemma extend_container_merges (c other : MediaContainer)
  (size total offset size' total' offset' : pyval) :
  container_data (ob_class (mc_self c)) ->
  container_data (ob_class (mc_self other)) ->
  ob_dict (mc_self c) !! "size" = Some size ->
  ob_dict (mc_self c) !! "totalSize" = Some total ->
  ob_dict (mc_self c) !! "offset" = Some offset ->
  ob_dict (mc_self other) !! "size" = Some size' ->
  ob_dict (mc_self other) !! "totalSize" = Some total' ->
  ob_dict (mc_self other) !! "offset" = Some offset' ->
  int_or_none size -> int_or_none size' ->
  int_or_none offset -> int_or_none offset' ->
  exists c',
    extend (Container other) c = (Ok tt, c')
    /\ mc_list c' = (mc_list c ++ mc_list other)%list
    /\ ob_class (mc_self c') = ob_class (mc_self c)
    /\ ob_dict (mc_self c') !! "offset" = Some (merged_offset offset offset')
    /\ ob_dict (mc_self c') !! "size"
       = Some (VInt (size_or_len size (mc_list c)
                     + size_or_len size' (mc_list other)))
    /\ ob_dict (mc_self c') !! "totalSize"
       = Some (if is_none total' then total else total')
    /\ (forall key, In key provenance_keys ->
          ob_dict (mc_self c') !! key
          = merged_field (ob_dict (mc_self c) !! key)
              (ob_dict (mc_self other) !! key))
    /\ (forall name,
          ~ In name ("size" :: "totalSize" :: "offset" :: provenance_keys) ->
          ob_dict (mc_self c') !! name = ob_dict (mc_self c) !! name).
Proof.
  intros Hc Ho Hsize Htotal Hoffset Hsize' Htotal' Hoffset'
    Hisize Hisize' Hioffset Hioffset'.
  assert (Hread : forall self name v,
            container_data (ob_class self) ->
            In name ["size"; "totalSize"; "offset"] ->
            ob_dict self !! name = Some v -> attr_read self name = Ok v).
  { intros self name v Hcd Hin Hv. rewrite attr_read_plain, Hv; [reflexivity |].
    apply Hcd. simpl in *. tauto. }
  unfold extend, mc_bind at 1, mc_read at 1.
  rewrite (Hread _ "size" size Hc) by (simpl; tauto || exact Hsize).
  set (c1 := {| mc_list := (mc_list c ++ items_of (Container other))%list;
                mc_self := mc_self c |}).
  set (curr := if negb (is_none size) then size else len (mc_list c)).
  (* totalSize *)
  unfold mc_bind at 1, mc_lift at 1.
  rewrite (Hread _ "totalSize" total' Ho) by (simpl; tauto || exact Htotal').
  unfold mc_bind at 1.
  set (total1 := if is_none total' then total else total').
  assert (Htot : (if negb (is_none total') then mc_lift (Ok total')
                  else mc_read "totalSize") c1 = (Ok total1, c1)).
  { subst total1. destruct (is_none total'); simpl; [| reflexivity].
    unfold mc_read. subst c1. simpl.
    now rewrite (Hread _ "totalSize" total Hc) by (simpl; tauto || exact Htotal). }
  rewrite Htot. unfold mc_bind at 1, mc_setattr at 1. cbn [mc_self mc_list].
  set (self2 := __setattr__ (mc_self c1) "totalSize" total1).
  (* size *)
  unfold mc_bind at 1, mc_lift at 1.
  rewrite (Hread _ "size" size' Ho) by (simpl; tauto || exact Hsize').
  unfold mc_bind at 1, mc_lift at 1.
  assert (Hadd : py_add curr (if negb (is_none size') then size'
                              else len (mc_list other))
                 = Ok (VInt (size_or_len size (mc_list c)
                             + size_or_len size' (mc_list other)))).
  { subst curr.
    destruct Hisize as [-> | [a ->]], Hisize' as [-> | [b ->]]; reflexivity. }
  rewrite Hadd. unfold mc_bind at 1, mc_setattr at 1. cbn [mc_self mc_list].
  set (size1 := VInt (size_or_len size (mc_list c)
                      + size_or_len size' (mc_list other))).
  set (self3 := __setattr__ self2 "size" size1).
  (* offset *)
  assert (Hcls3 : ob_class self3 = ob_class (mc_self c))
    by (subst self3 self2 c1; now rewrite !setattr_class).
  assert (Hoff3 : ob_dict self3 !! "offset" = Some offset)
    by (subst self3 self2 c1; now rewrite !setattr_lookup_ne).
  unfold mc_bind at 1, mc_read at 1. cbn [mc_self].
  rewrite (Hread self3 "offset" offset) by
    first [now rewrite Hcls3 | simpl; tauto | exact Hoff3].
  unfold mc_bind at 1.
  assert (Hnew : (if negb (is_none offset)
                  then mc_lift (attr_read (mc_self other) "offset")
                  else mc_lift (Ok VNone))
                   {| mc_list := mc_list c1; mc_self := self3 |}
                 = (Ok (if negb (is_none offset) then offset' else VNone),
                    {| mc_list := mc_list c1; mc_self := self3 |})).
  { destruct (negb (is_none offset)); [| reflexivity]. unfold mc_lift.
    now rewrite (Hread _ "offset" offset' Ho)
      by (simpl; tauto || exact Hoffset'). }
  rewrite Hnew. unfold mc_bind at 1.
  assert (Hmerge :
    (if negb (is_none offset)
        && negb (is_none (if negb (is_none offset) then offset' else VNone))
     then mc_lift (py_min offset
                     (if negb (is_none offset) then offset' else VNone))
     else if negb (is_none offset) then mc_lift (Ok offset)
          else mc_lift (attr_read (mc_self other) "offset"))
      {| mc_list := mc_list c1; mc_self := self3 |}
    = (Ok (merged_offset offset offset'),
       {| mc_list := mc_list c1; mc_self := self3 |})).
  { destruct Hioffset as [-> | [a ->]]; simpl.
    - unfold mc_lift.
      now rewrite (Hread _ "offset" offset' Ho)
        by (simpl; tauto || exact Hoffset').
    - destruct Hioffset' as [-> | [b ->]]; simpl; [reflexivity |].
      unfold mc_lift. now rewrite py_min_int. }
  rewrite Hmerge. unfold mc_bind at 1, mc_setattr at 1. cbn [mc_self mc_list].
  set (self4 := __setattr__ self3 "offset" (merged_offset offset offset')).
  (* what the three assignments leave *)
  assert (Hcls4 : ob_class self4 = ob_class (mc_self c))
    by (subst self4; now rewrite setattr_class).
  assert (H4off : ob_dict self4 !! "offset" = Some (merged_offset offset offset')).
  { subst self4. apply setattr_lookup_value. intros Hm. right.
    rewrite Hoff3. f_equal.
    destruct Hioffset as [-> | [a ->]]; [reflexivity |].
    destruct Hioffset' as [-> | [b ->]]; discriminate Hm. }
  assert (H4size : ob_dict self4 !! "size" = Some size1).
  { subst self4 self3. rewrite setattr_lookup_ne by discriminate.
    apply setattr_lookup_value. discriminate. }
  assert (H4total : ob_dict self4 !! "totalSize" = Some total1).
  { subst self4 self3 self2. rewrite !setattr_lookup_ne by discriminate.
    apply setattr_lookup_value. intros Hm. right. subst c1. cbn [mc_self].
    rewrite Htotal. f_equal. subst total1.
    destruct (is_none total') eqn:E; [exact Hm |].
    rewrite Hm in E. discriminate E. }
  assert (H4rest : forall name,
            name <> "size" -> name <> "totalSize" -> name <> "offset" ->
            ob_dict self4 !! name = ob_dict (mc_self c) !! name).
  { intros name H1 H2 H3. subst self4 self3 self2 c1.
    now rewrite !setattr_lookup_ne by congruence. }
  destruct (fill_unset_merges (mc_self other) provenance_keys
              {| mc_list := mc_list c1; mc_self := self4 |})
    as (self' & Hrun & Hcls' & Hkeys & Hrest).
  { intros key Hin. cbn [mc_self]. rewrite Hcls4. apply Hc.
    simpl in *. tauto. }
  { intros key Hin. apply Ho. simpl in *. tauto. }
  { exact provenance_keys_NoDup. }
  cbn [mc_self mc_list] in *.
  exists {| mc_list := mc_list c1; mc_self := self' |}.
  split; [exact Hrun |]. cbn [mc_self mc_list].
  split; [reflexivity |]. split; [now rewrite Hcls', Hcls4 |].
  split; [rewrite Hrest; [exact H4off | simpl; intuition discriminate] |].
  split; [rewrite Hrest; [exact H4size | simpl; intuition discriminate] |].
  split; [rewrite Hrest; [exact H4total | simpl; intuition discriminate] |].
  split.
  - intros key Hin. rewrite Hkeys by exact Hin. f_equal.
    apply H4rest; intros ->; simpl in Hin; intuition discriminate.
  - intros name Hname. rewrite Hrest.
    + apply H4rest; intros ->; apply Hname; simpl; tauto.
    + intros Hin. apply Hname. simpl in *. tauto.
Qed.

End ExtendContainer.

(** C8.  [extend] with another [MediaContainer] appends its items, and
    leaves as [offset] the minimum of the two offsets when both are set,
    else the one that is set; as [size] the old size (the old count of
    items when the size is [None]) plus the new container's size (its
    length when that is [None]); as [totalSize] the new container's when
    it is set; and in each provenance field the new container's value
    only where the receiver's was unset or [None].  (Sizes and offsets are
    integers or [None], and both objects keep these fields in their
    dictionaries, as [MediaContainer._loadData] leaves them.) *)
Theorem extend_merges_containers (c other : MediaContainer)
  (size total offset size' total' offset' : pyval) :
  container_data (ob_class (mc_self c)) ->
  container_data (ob_class (mc_self other)) ->
  ob_dict (mc_self c) !! "size" = Some size ->
  ob_dict (mc_self c) !! "totalSize" = Some total ->
  ob_dict (mc_self c) !! "offset" = Some offset ->
  ob_dict (mc_self other) !! "size" = Some size' ->
  ob_dict (mc_self other) !! "totalSize" = Some total' ->
  ob_dict (mc_self other) !! "offset" = Some offset' ->
  int_or_none size -> int_or_none size' ->
  int_or_none offset -> int_or_none offset' ->
  exists c',
    extend (Container other) c = (Ok tt, c')
    /\ mc_list c' = (mc_list c ++ mc_list other)%list
    /\ ob_dict (mc_self c') !! "offset" = Some (merged_offset offset offset')
    /\ ob_dict (mc_self c') !! "size"
       = Some (VInt (size_or_len size (mc_list c)
                     + size_or_len size' (mc_list other)))
    /\ ob_dict (mc_self c') !! "totalSize"
       = Some (if is_none total' then total else total')
    /\ (forall key, In key provenance_keys ->
          ob_dict (mc_self c') !! key
          = merged_field (ob_dict (mc_self c) !! key)
              (ob_dict (mc_self other) !! key)).
Proof.
  intros Hc Ho Hsize Htotal Hoffset Hsize' Htotal' Hoffset' Hs Hs' Hf Hf'.
  destruct (extend_container_merges c other size total offset size' total'
              offset' Hc Ho Hsize Htotal Hoffset Hsize' Htotal' Hoffset'
              Hs Hs' Hf Hf')
    as (c' & Hrun & Hlist & _ & Hoff & Hsz & Htot & Hkeys & _).
  exists c'. auto 10.
Qed.

(** C8, witness: the first page of the listing (offset 0, 20 items) is
    extended with the second (offset 20, 5 items). *)
Lemma extend_merges_containers_witness :
  exists c',
    extend (Container (Example.page 20)) (Example.page 0) = (Ok tt, c')
    /\ List.length (mc_list c') = 25%nat
    /\ ob_dict (mc_self c') !! "offset" = Some (VInt 0)
    /\ ob_dict (mc_self c') !! "size" = Some (VInt 25).
Proof.
  assert (Hdata : forall c,
            ob_class (mc_self c) = MediaContainer_class (H := Example.imports) ->
            container_data (ob_class (mc_self c))).
  { intros c -> name Hin. simpl in Hin.
    repeat (destruct Hin as [<- | Hin]; [reflexivity |]). destruct Hin. }
  destruct (extend_merges_containers (Example.page 0) (Example.page 20)
              (VInt 20) (VInt 25) (VInt 0) (VInt 5) (VInt 25) (VInt 20)
              (Hdata (Example.page 0) eq_refl)
              (Hdata (Example.page 20) eq_refl)
              ltac:(vm_compute; reflexivity) ltac:(vm_compute; reflexivity)
              ltac:(vm_compute; reflexivity) ltac:(vm_compute; reflexivity)
              ltac:(vm_compute; reflexivity) ltac:(vm_compute; reflexivity)
              (or_intror (ex_intro _ _ eq_refl))
              (or_intror (ex_intro _ _ eq_refl))
              (or_intror (ex_intro _ _ eq_refl))
              (or_intror (ex_intro _ _ eq_refl)))
    as (c' & Hrun & Hlist & Hoff & Hsz & _).
  exists c'. split; [exact Hrun |]. split; [| split; [exact Hoff | exact Hsz]].
  rewrite Hlist. vm_compute. reflexivity.
Defined.

(** ** Finding items *)

Section FindItems.
Context `{Imports} `{PlexServer} `{PlexRegistry}.

Lemma pure_construct (cls : pyclass) (elem : Element) (initpath : pyval) :
  pure (construct cls elem initpath).
Proof.
  intros self w. unfold construct, result_of.
  rewrite new_unfold. cbv zeta.
  destruct (if truthy initpath then _ else _) as [path | e]; [| reflexivity].
  destruct (_loadData _ elem) as [self1 | e]; [| reflexivity].
  now destruct (result_of (_buildDetailsKey ∅ self1 w)).
Qed.

Lemma pure_buildItem (elem : Element) (cls : option pyclass)
  (initpath : pyval) : pure (_buildItem elem cls initpath).
Proof.
  unfold _buildItem.
  apply pure_bind; [apply pure_if; [apply pure_ret | apply pure_read] |].
  intros path. destruct cls as [c |]; [apply pure_construct |].
  apply pure_bind.
  - apply pure_if; [apply pure_ret |].
    destruct path; try apply pure_raise.
    apply pure_if; apply pure_ret.
  - intros ehash. destruct (utils_getPlexObject ehash (tag elem));
      [apply pure_construct | apply pure_raise].
Qed.

Lemma pure_buildItemOrNone (elem : Element) (cls : option pyclass)
  (initpath : pyval) : pure (_buildItemOrNone elem cls initpath).
Proof.
  intros self w. unfold _buildItemOrNone.
  rewrite (pure_buildItem elem cls initpath self w).
  destruct (result_of (_buildItem elem cls initpath self w)) as [item | []];
    reflexivity.
Qed.

Lemma pure_find_each (elems : list Element) (cls : option pyclass)
  (initpath : pyval) (kwargs : list (string * pyval)) :
  forall items, pure (find_each elems cls initpath kwargs items).
Proof.
  induction elems as [| elem elems IH]; intros items; simpl.
  - apply pure_ret.
  - apply pure_bind; [apply pure_lift | intros ok].
    destruct ok; [| apply IH].
    apply pure_bind; [apply pure_buildItemOrNone | intros [item |]]; apply IH.
Qed.

Lemma pure_findItems (data : Element) (cls : option pyclass)
  (initpath : pyval) (kwargs : list (string * pyval)) :
  pure (findItems data cls initpath kwargs).
Proof.
  unfold findItems.
  apply pure_bind; [apply pure_lift | intros kwargs1].
  apply pure_bind; [apply pure_lift | intros kwargs2].
  apply pure_bind.
  - apply pure_if; [| apply pure_ret].
    apply pure_bind; [| intros c; apply pure_ret].
    unfold new_container.
    apply pure_bind; [apply pure_construct | intros c; apply pure_ret].
  - intros items. apply pure_find_each.
Qed.

(** The results [fetchItems] starts from: an empty container built from a
    new, empty [MediaContainer] element. *)
Definition empty_results (ekey : pyval) : MediaContainer :=
  {| mc_list := [];
     mc_self := __setattr__
       (assign_all
          (init_private {| ob_class := MediaContainer_class; ob_dict := ∅ |}
             (Some (Elem 0 "MediaContainer" [] [])) ekey)
          (MediaContainer_loadData (Elem 0 "MediaContainer" [] [])))
       "_details_key" VNone |}.

Lemma new_container_empty (ekey : pyval) (self : pyobj) (w : world) :
  truthy ekey = true ->
  new_container (Elem 0 "MediaContainer" [] []) ekey self w
  = (Ok (empty_results ekey), self, w).
Proof.
  intros Hkey. unfold new_container, bind, construct, ret.
  rewrite new_unfold. cbv zeta. rewrite Hkey.
  set (self0 := init_private _ _ ekey).
  assert (Hcls0 : ob_class self0 = MediaContainer_class).
  { subst self0. unfold init_private. now rewrite !setattr_class. }
  unfold _loadData. rewrite Hcls0.
  change (class_loadData MediaContainer_class)
    with (Some MediaContainer_loadData).
  cbv beta iota.
  set (self1 := assign_all self0 _).
  assert (Hdk : result_of (_buildDetailsKey ∅ self1 w) = Ok VNone).
  { assert (Hkeyattr : attr_read self1 "key" = Ok VNone).
    { unfold attr_read, object_getattribute.
      assert (Hcls : ob_class self1 = MediaContainer_class).
      { subst self1. now rewrite assign_all_class. }
      rewrite Hcls.
      assert (Hnokey : ob_dict self1 !! "key" = None).
      { subst self1. rewrite assign_all_lookup_notin.
        - subst self0. unfold init_private.
          rewrite !setattr_lookup_ne by discriminate. apply lookup_empty.
        - simpl. intuition discriminate. }
      now rewrite Hnokey. }
    unfold _buildDetailsKey, result_of, bind, read, ret.
    rewrite Hkeyattr. cbv beta iota. change (truthy VNone) with false.
    cbv beta iota delta [andb].
    rewrite bool_decide_eq_true_2; [reflexivity |].
    now rewrite (left_id_L ∅ (∪)). }
  rewrite Hdk. reflexivity.
Qed.

End FindItems.

(** ** Pagination *)

Section Pagination.
Context `{Imports} `{PlexServer} `{PlexRegistry}.

Lemma is_gt_int (a b : Z) : is_gt (VInt a) (VInt b) = Ok (Z.gtb a b).
Proof. reflexivity. Qed.

(** One turn of the loop without [maxresults], on a response whose total
    size is an integer. *)
Lemma fetch_turn_page (ekey params : pyval) (cls : option pyclass)
  (kwargs : list (string * pyval)) (offset : Z) (st : fetch_state)
  (self : pyobj) (w : world) (data : Element) (sub : iterable)
  (total : Z) (merged : MediaContainer) :
  let rq := page_request ekey params (container_start st) (container_size st) in
  let next := container_start st + container_size st in
  server_query (w_queries w) rq = Ok data ->
  result_of (findItems data cls ekey kwargs self (record_query w rq)) = Ok sub ->
  response_total data sub = VInt total ->
  extend (tag_section data sub) (results st) = (Ok tt, merged) ->
  fetch_turn ekey cls None params kwargs offset st self w
  = (Ok (if Z.gtb next total then inr merged
         else if Z.gtb (total + - offset)
                   (Z.of_nat (List.length (mc_list merged)))
              then inl {| container_start := next;
                          container_size := container_size st;
                          results := merged |}
              else inr merged),
     self, record_query w rq).
Proof.
  intros rq next Hq Hfind Htotal Hextend.
  unfold fetch_turn. fold rq.
  unfold bind at 1. unfold query at 1. rewrite Hq. cbv beta iota.
  rewrite (bind_pure _ _ self _ (pure_findItems data cls ekey kwargs)).
  rewrite Hfind. cbv zeta. rewrite Htotal, Hextend.
  unfold bind at 1.
  assert (Hcheck : exists b,
            match items_of sub with
            | [] => lift (is_gt (VInt offset) (VInt total))
            | _ :: _ => ret false
            end self (record_query w rq) = (Ok b, self, record_query w rq)).
  { destruct (items_of sub); [rewrite is_gt_int |]; eexists; reflexivity. }
  destruct Hcheck as [b ->]. cbv beta iota.
  unfold bind at 1, lift at 1. cbv beta iota.
  unfold bind at 1, lift at 1. rewrite is_gt_int. cbv beta iota. fold next.
  destruct (Z.gtb next total); [reflexivity |].
  unfold bind at 1, lift at 1. cbv beta iota.
  unfold bind at 1, ret at 1. cbv beta iota.
  unfold bind at 1, lift at 1. cbn [fst snd]. unfold len at 1.
  change (py_add (VInt total) (VInt (- offset)))
    with (Ok (VInt (total + - offset))).
  cbv beta iota. rewrite is_gt_int.
  destruct (Z.gtb _ _); reflexivity.
Qed.

End Pagination.

Section BuiltContainers.
Context `{Imports} `{PlexServer} `{PlexRegistry}.

Lemma result_bind_pure {A B} (m : M A) (k : A -> M B) (self : pyobj)
  (w : world) :
  pure m ->
  result_of (bind m k self w)
  = match result_of (m self w) with
    | Ok a => result_of (k a self w)
    | Raise e => Raise e
    end.
Proof.
  intros Hm. rewrite (bind_pure m k self w Hm).
  now destruct (result_of (m self w)).
Qed.

Lemma result_lift {A} (r : result A) (self : pyobj) (w : world) :
  result_of (lift r self w) = r.
Proof. reflexivity. Qed.

(** Assignments to different names that are not yet set are all stored. *)
Lemma assign_all_fresh (l : list (string * pyval)) :
  forall self,
  NoDup (names l) ->
  (forall a, In a (names l) -> ob_dict self !! a = None) ->
  forall a v, In (a, v) l -> ob_dict (assign_all self l) !! a = Some v.
Proof.
  induction l as [| [k x] l IH]; intros self Hdup Hfresh a v Hin.
  - destruct Hin.
  - unfold names in Hdup. simpl in Hdup.
    apply NoDup_cons in Hdup as [Hk Hdup].
    rewrite list_elem_of_In in Hk.
    change (assign_all self ((k, x) :: l))
      with (assign_all (__setattr__ self k x) l).
    destruct Hin as [[= <- <-] | Hin].
    + rewrite assign_all_lookup_notin by exact Hk.
      rewrite setattr_stores.
      * simpl. apply lookup_insert_eq.
      * right. right. left. apply Hfresh. now left.
    + apply IH; [exact Hdup | | exact Hin].
      intros b Hb. rewrite setattr_lookup_ne.
      * apply Hfresh. now right.
      * intros ->. contradiction.
Qed.

(** The fields of a container that was built from a node. *)
Lemma built_container_fields (self0 : pyobj) (data : Element)
  (details_key : pyval) :
  ob_class self0 = MediaContainer_class ->
  (forall a, In a (names (MediaContainer_loadData data)) ->
             ob_dict self0 !! a = None) ->
  let built := __setattr__
                 (assign_all self0 (MediaContainer_loadData data))
                 "_details_key" details_key in
  ob_class built = MediaContainer_class
  /\ forall a v, In (a, v) (MediaContainer_loadData data) ->
                 ob_dict built !! a = Some v.
Proof.
  intros Hcls Hfresh built. subst built. split.
  - now rewrite setattr_class, assign_all_class.
  - intros a v Hin. rewrite setattr_lookup_ne.
    + apply assign_all_fresh; [| exact Hfresh | exact Hin].
      unfold names. simpl.
      repeat (apply NoDup_cons; split;
              [rewrite list_elem_of_In; simpl; intuition discriminate |]).
      apply NoDup_nil_2.
    + intros <-. simpl in Hin. intuition discriminate.
Qed.

Lemma init_private_fresh (cls : pyclass) (data : option Element)
  (path : pyval) (a : string) :
  PyStr.startswith a "_" = false ->
  ob_dict (init_private {| ob_class := cls; ob_dict := ∅ |} data path) !! a
  = None.
Proof.
  intros Hpub. unfold init_private.
  rewrite !setattr_lookup_ne by (now apply public_not_private).
  apply lookup_empty.
Qed.

Lemma init_private_class (cls : pyclass) (data : option Element)
  (path : pyval) :
  ob_class (init_private {| ob_class := cls; ob_dict := ∅ |} data path) = cls.
Proof. unfold init_private. now rewrite !setattr_class. Qed.

(** A container that the constructor built from [data]. *)
Definition built_from (data : Element) (self : pyobj) : Prop :=
  ob_class self = MediaContainer_class
  /\ forall a v, In (a, v) (MediaContainer_loadData data) ->
                 ob_dict self !! a = Some v.

Lemma new_container_built (data : Element) (initpath : pyval)
  (self : pyobj) (w : world) (c : MediaContainer) :
  result_of (new_container data initpath self w) = Ok c ->
  mc_list c = [] /\ built_from data (mc_self c).
Proof.
  unfold new_container. rewrite result_bind_pure by apply pure_construct.
  unfold construct, result_of.
  destruct (new MediaContainer_class (Some data) initpath w)
    as [[r item] w'] eqn:Hnew.
  destruct r as [[] | e]; cbn [fst snd]; [| discriminate].
  intros [= <-]. split; [reflexivity |]. cbn [mc_self].
  destruct (new_ok_inv MediaContainer_class (Some data) initpath w)
    as (path & dk & self1 & Hload & _ & Heq).
  { now rewrite Hnew. }
  rewrite Hnew in Heq. injection Heq as -> _.
  cbv zeta in Hload. unfold _loadData in Hload.
  rewrite init_private_class in Hload.
  change (class_loadData MediaContainer_class)
    with (Some MediaContainer_loadData) in Hload.
  injection Hload as <-.
  apply built_container_fields.
  - apply init_private_class.
  - intros a Ha. apply init_private_fresh. simpl in Ha.
    repeat (destruct Ha as [<- | Ha]; [reflexivity |]). destruct Ha.
Qed.

Lemma find_each_container (elems : list Element) (cls : option pyclass)
  (initpath : pyval) (kwargs : list (string * pyval)) (self : pyobj)
  (w : world) :
  forall (c : MediaContainer) (items : iterable),
  result_of (find_each elems cls initpath kwargs (Container c) self w)
  = Ok items ->
  exists c', items = Container c' /\ mc_self c' = mc_self c.
Proof.
  induction elems as [| elem elems IH]; intros c items; simpl.
  - intros [= <-]. eauto.
  - rewrite result_bind_pure by apply pure_lift. rewrite result_lift.
    destruct (_checkAttrs elem kwargs) as [[] | e];
      [| apply IH | discriminate].
    rewrite result_bind_pure by apply pure_buildItemOrNone.
    destruct (result_of (_buildItemOrNone elem cls initpath self w))
      as [[item |] | e]; [| apply IH | discriminate].
    intros Hrun. apply IH in Hrun as (c' & -> & Hc'). eauto.
Qed.

(** [findItems] on a [MediaContainer] element returns a container built
    from that element. *)
Lemma findItems_container (data : Element) (cls : option pyclass)
  (initpath : pyval) (kwargs : list (string * pyval)) (self : pyobj)
  (w : world) (items : iterable) :
  tag data = "MediaContainer" ->
  result_of (findItems data cls initpath kwargs self w) = Ok items ->
  exists c, items = Container c /\ built_from data (mc_self c).
Proof.
  intros Htag. unfold findItems.
  rewrite result_bind_pure by apply pure_lift. rewrite result_lift.
  destruct (inject cls "TAG" "tag" "etag" kwargs) as [kw1 | e];
    [| discriminate].
  rewrite result_bind_pure by apply pure_lift. rewrite result_lift.
  destruct (inject cls "TYPE" "type" "type" kw1) as [kw2 | e];
    [| discriminate].
  rewrite Htag. change (String.eqb "MediaContainer" "MediaContainer") with true.
  cbv beta iota.
  assert (Hnc : pure (new_container data initpath)).
  { unfold new_container.
    apply pure_bind; [apply pure_construct | intros; apply pure_ret]. }
  rewrite result_bind_pure
    by (apply pure_bind; [exact Hnc | intros; apply pure_ret]).
  rewrite result_bind_pure by exact Hnc.
  destruct (result_of (new_container data initpath self w)) as [c | e] eqn:Hc;
    [| discriminate].
  apply new_container_built in Hc as [_ Hbuilt].
  change (result_of (ret (Container c) self w)) with (Ok (Container c)).
  cbv beta iota.
  intros Hrun. apply find_each_container in Hrun as (c' & -> & Hself).
  exists c'. split; [reflexivity |]. now rewrite Hself.
Qed.

End BuiltContainers.

Section TwoPages.
Context `{Imports} `{PlexServer} `{PlexRegistry}.

Lemma container_data_MediaContainer : container_data MediaContainer_class.
Proof.
  intros name Hin. simpl in Hin.
  repeat (destruct Hin as [<- | Hin]; [reflexivity |]). destruct Hin.
Qed.

Lemma tag_section_container (data : Element) (c : MediaContainer) :
  exists l,
    tag_section data (Container c)
    = Container {| mc_list := l; mc_self := mc_self c |}
    /\ List.length l = List.length (mc_list c).
Proof.
  unfold tag_section. destruct (truthy _).
  - simpl. eexists. split; [reflexivity |]. apply length_map.
  - exists (mc_list c). now destruct c.
Qed.

Lemma built_from_field (data : Element) (self : pyobj) (name : string) :
  built_from data self ->
  In name ["offset"; "size"; "totalSize"] ->
  ob_dict self !! name
  = Some (utils_cast_int (of_opt_str (attrib_get (attrib data) name))).
Proof.
  intros [_ Hfields] Hin. apply Hfields. simpl in *.
  destruct Hin as [<- | [<- | [<- | []]]]; tauto.
Qed.

Lemma empty_results_built (ekey : pyval) :
  built_from (Elem 0 "MediaContainer" [] []) (mc_self (empty_results ekey)).
Proof.
  unfold empty_results. cbn [mc_self]. apply built_container_fields.
  - apply init_private_class.
  - intros a Ha. apply init_private_fresh. simpl in Ha.
    repeat (destruct Ha as [<- | Ha]; [reflexivity |]). destruct Ha.
Qed.

Variables (self : pyobj) (w : world) (path : string).
Variables (cls : option pyclass) (params : pyval).
Variable kwargs : list (string * pyval).
Variables (page1 page2 : Element) (sub1 sub2 : iterable).

Let ekey := VStr path.
Let rq1 := page_request ekey params 0 20.
Let rq2 := page_request ekey params 20 20.
Let w1 := record_query w rq1.
Let w2 := record_query w1 rq2.
Let field (data : Element) (name : string) : pyval :=
  utils_cast_int (of_opt_str (attrib_get (attrib data) name)).

Hypothesis Hpath : path <> "".
(* [utils.cast] keeps [None] and reads the total size *)
Hypothesis Hcast_none : utils_cast_int VNone = VNone.
Hypothesis Hcast_total : utils_cast_int (VStr "25") = VInt 25.
(* the two responses of the server *)
Hypothesis Hquery1 : server_query (w_queries w) rq1 = Ok page1.
Hypothesis Hquery2 : server_query (w_queries w1) rq2 = Ok page2.
Hypothesis Htag1 : tag page1 = "MediaContainer".
Hypothesis Htag2 : tag page2 = "MediaContainer".
Hypothesis Htotal1 : attrib_get (attrib page1) "totalSize" = Some "25".
Hypothesis Htotal2 : attrib_get (attrib page2) "totalSize" = Some "25".
Hypothesis Hoffset1 : field page1 "offset" = VInt 0.
Hypothesis Hoffset2 : field page2 "offset" = VInt 20.
Hypothesis Hsize1 : int_or_none (field page1 "size").
Hypothesis Hsize2 : int_or_none (field page2 "size").
(* the items matched on the two pages *)
Hypothesis Hfind1 : result_of (findItems page1 cls ekey kwargs self w1) = Ok sub1.
Hypothesis Hfind2 : result_of (findItems page2 cls ekey kwargs self w2) = Ok sub2.
Hypothesis Hcount1 : (List.length (items_of sub1) < 25)%nat.
Hypothesis Hcount : (List.length (items_of sub1) + List.length (items_of sub2)
                     = 25)%nat.

Lemma response_total_25 (data : Element) (sub : iterable) :
  attrib_get (attrib data) "totalSize" = Some "25" ->
  response_total data sub = VInt 25.
Proof.
  intros Ht. unfold response_total. rewrite Ht. simpl of_opt_str.
  change (py_or (VStr "25") ?x) with (VStr "25"). now rewrite Hcast_total.
Qed.


End TwoPages.

(** A result known to be [Ok] is the [Ok] of its value. *)
Lemma result_ok_inv {A : Type} (r : result A) (d : A) :
  match r with Ok _ => true | Raise _ => false end = true ->
  r = Ok (match r with Ok a => a | Raise _ => d end).
Proof. now destruct r. Qed.


(** ** Batch edits *)

(** The name is no property of the class: the instance dictionary is read
    first. *)
Definition no_property (cls : pyclass) (name : string) : Prop :=
  match class_lookup cls name with
  | Some (Property _) => False
  | _ => True
  end.

(** The [edit] calls of a batch, one after the other *)
Fixpoint edit_all `{Imports} `{PlexServer}
  (calls : list (gmap string pyval)) : M unit :=
  match calls with
  | [] => ret tt
  | kwargs :: calls => edit kwargs >> edit_all calls
  end.

(** The union of the keyword arguments of the calls; a later call
    overrides an earlier one. *)
Definition pending (calls : list (gmap string pyval)) : gmap string pyval :=
  foldl (fun d kwargs => kwargs ∪ d) ∅ calls.

(** [kwargs] with [type] set to [t] where the caller gave none *)
Definition with_type (t : pyval) (kwargs : gmap string pyval)
  : gmap string pyval :=
  if bool_decide (is_Some (kwargs !! "type")) then kwargs
  else <["type" := t]> kwargs.

Lemma pending_snoc (calls : list (gmap string pyval))
  (kwargs : gmap string pyval) (k : string) :
  pending (calls ++ [kwargs]) !! k
  = match kwargs !! k with
    | Some v => Some v
    | None => pending calls !! k
    end.
Proof.
  unfold pending. rewrite foldl_app. simpl.
  rewrite lookup_union. now destruct (kwargs !! k), (foldl _ _ _ !! k).
Qed.

Lemma with_type_keeps (t : pyval) (kwargs : gmap string pyval) :
  kwargs ⊆ with_type t kwargs.
Proof.
  unfold with_type. case_bool_decide as Ht; [reflexivity |].
  apply insert_subseteq. destruct (kwargs !! "type") eqn:E; [| reflexivity].
  exfalso. apply Ht. eauto.
Qed.

Section BatchEdits.
Context `{Imports} `{PlexServer}.

Lemma object_getattribute_entry (self : pyobj) (name : string) (v : pyval) :
  no_property (ob_class self) name ->
  ob_dict self !! name = Some v ->
  object_getattribute self name = (Ok v, self).
Proof.
  unfold no_property, object_getattribute. intros Hplain Hv.
  destruct (class_lookup (ob_class self) name) as [[c | f | f] |];
    try contradiction; now rewrite Hv.
Qed.

(** An access to a private name never reloads. *)
Lemma getattribute_private (self : pyobj) (w : world) (attr : string) :
  PyStr.startswith attr "_" = true ->
  __getattribute__ attr self w = super_getattribute attr self w.
Proof.
  intros Hprivate. unfold __getattribute__, bind, super_getattribute.
  destruct (object_getattribute self attr) as [[value | e] self1];
    [| reflexivity].
  destruct (bool_decide (attr ∈ _DONT_RELOAD_FOR_KEYS)); [reflexivity |].
  unfold the_world at 1. cbv beta iota.
  destruct (bool_decide (attr ∈ USER_DONT_RELOAD_FOR_KEYS w)); [reflexivity |].
  now rewrite Hprivate.
Qed.

Lemma getattribute_edits (self : pyobj) (w : world) (v : pyval) :
  no_property (ob_class self) "_edits" ->
  ob_dict self !! "_edits" = Some v ->
  __getattribute__ "_edits" self w = (Ok v, self, w).
Proof.
  intros Hplain Hv. rewrite getattribute_private by reflexivity.
  unfold super_getattribute.
  now rewrite (object_getattribute_entry self "_edits" v Hplain Hv).
Qed.

(** [self._edits = value] *)
Definition set_edits (self : pyobj) (value : pyval) : pyobj :=
  with_dict self (<["_edits" := value]> (ob_dict self)).

Lemma setattr_edits (self : pyobj) (w : world) (value : pyval) :
  setattr "_edits" value self w = (Ok tt, set_edits self value, w).
Proof.
  unfold setattr, __setattr__.
  change (PyStr.startswith "_edits" "_") with true.
  now rewrite orb_true_r.
Qed.

(** In batch mode [_edit] only updates the pending dictionary. *)
Lemma edit_pending (self : pyobj) (w : world) (kwargs d : gmap string pyval) :
  no_property (ob_class self) "_edits" ->
  ob_dict self !! "_edits" = Some (VDict d) ->
  _edit kwargs self w = (Ok tt, set_edits self (VDict (kwargs ∪ d)), w).
Proof.
  intros Hplain Hd. unfold _edit, bind.
  now rewrite (getattribute_edits self w (VDict d) Hplain Hd).
Qed.

Lemma edit_all_pending (calls : list (gmap string pyval)) :
  forall (self : pyobj) (w : world) (d : gmap string pyval),
    no_property (ob_class self) "_edits" ->
    ob_dict self !! "_edits" = Some (VDict d) ->
    edit_all calls self w
    = (Ok tt, set_edits self (VDict (foldl (fun d kwargs => kwargs ∪ d) d calls)),
       w).
Proof.
  induction calls as [| kwargs calls IH]; intros self w d Hplain Hd.
  - simpl. unfold ret, set_edits, with_dict. rewrite insert_id by exact Hd.
    now destruct self.
  - simpl. unfold bind, edit. rewrite (edit_pending self w kwargs d Hplain Hd).
    rewrite (IH _ w (kwargs ∪ d)).
    + unfold set_edits, with_dict. simpl. now rewrite insert_insert_eq.
    + exact Hplain.
    + unfold set_edits. simpl. apply lookup_insert_eq.
Qed.

(** The object outside batch mode, as [__init__] and [saveEdits] leave
    it, with the section of an item of a library. *)
Variables (self : pyobj) (w : world) (id ty t : pyval) (sec : N).
Hypothesis Hedits_plain : no_property (ob_class self) "_edits".
Hypothesis Hsection_plain : no_property (ob_class self) "librarySectionID".
Hypothesis Hsearch_plain :
  class_lookup (ob_class self) "_searchType" = Some (Property _searchType).
Hypothesis Hfresh : ob_dict self !! "_edits" = Some VNone.
Hypothesis Hsection_id : ob_dict self !! "librarySectionID" = Some id.
Hypothesis Hpresent : absent id = false.
Hypothesis Hsection : library_sectionByID id = Ok sec.
Hypothesis Htype : self_reader self "TYPE" = Some ty.
Hypothesis Hsearch : utils_searchType ty = Ok t.

(** Outside batch mode [_edit] calls the edit sink of the section. *)
Lemma edit_applies (kwargs : gmap string pyval) :
  _edit kwargs self w
  = (Ok tt, self,
     record_edit w {| ec_section := sec; ec_items := self;
                      ec_kwargs := with_type t kwargs |}).
Proof.
  unfold _edit. unfold bind at 1.
  rewrite (getattribute_edits self w VNone Hedits_plain Hfresh).
  assert (Hsec : section self w = (Ok sec, self, w)).
  { unfold section, bind.
    rewrite (getattribute_present self self w "librarySectionID" id
               (object_getattribute_entry self _ id Hsection_plain Hsection_id)
               Hpresent).
    unfold lift. now rewrite Hsection. }
  unfold with_type. case_bool_decide as Hgiven.
  - unfold bind, ret. now rewrite Hsec.
  - unfold bind. rewrite getattribute_private by reflexivity.
    unfold super_getattribute, object_getattribute.
    rewrite Hsearch_plain. unfold _searchType. rewrite Htype. simpl.
    unfold lift. rewrite Hsearch. unfold ret. now rewrite Hsec.
Qed.

(** [saveEdits] outside batch mode *)
Lemma saveEdits_outside_batch : saveEdits self w = (Raise BadRequest, self, w).
Proof.
  unfold saveEdits, bind.
  now rewrite (getattribute_edits self w VNone Hedits_plain Hfresh).
Qed.

End BatchEdits.

Section BatchProtocol.
Context `{Imports} `{PlexServer}.

(** The object outside batch mode: [_edits] is [None], as [__init__]
    leaves it; the item has the [librarySectionID] of a section of the
    library and a [TYPE] that [utils.searchType] knows. *)
Variables (self : pyobj) (w : world) (id ty t : pyval) (sec : N).
Hypothesis Hedits_plain : no_property (ob_class self) "_edits".
Hypothesis Hsection_plain : no_property (ob_class self) "librarySectionID".
Hypothesis Hsearch_plain :
  class_lookup (ob_class self) "_searchType" = Some (Property _searchType).
Hypothesis Hfresh : ob_dict self !! "_edits" = Some VNone.
Hypothesis Hsection_id : ob_dict self !! "librarySectionID" = Some id.
Hypothesis Hpresent : absent id = false.
Hypothesis Hsection : library_sectionByID id = Ok sec.
Hypothesis Htype : self_reader self "TYPE" = Some ty.
Hypothesis Hsearch : utils_searchType ty = Ok t.

Lemma set_edits_back (value : pyval) :
  set_edits (set_edits self value) VNone = self.
Proof.
  unfold set_edits, with_dict. simpl. rewrite insert_insert_eq.
  rewrite insert_id by exact Hfresh. now destruct self.
Qed.

(** C9.  [saveEdits] on an object that is not in batch mode raises
    [BadRequest] and leaves the object and the world, with its edit
    calls, as they are.  After [batchEdits] any list of [edit] calls
    returns without a change of the world and leaves in [_edits] the
    union of their keyword arguments, a later call overriding an earlier
    one; [saveEdits] then adds exactly one call of the edit sink of the
    section to the world, with the object as its item and the whole
    union among its keyword arguments ([type] is added where no call
    gave it), and leaves [_edits] at [None]. *)
Theorem saveEdits_batch_protocol (calls : list (gmap string pyval)) :
  saveEdits self w = (Raise BadRequest, self, w)
  /\ exists batch saved : pyobj,
       (batchEdits >> edit_all calls) self w = (Ok tt, batch, w)
       /\ ob_dict batch !! "_edits" = Some (VDict (pending calls))
       /\ saveEdits batch w
          = (Ok tt, saved,
             record_edit w {| ec_section := sec; ec_items := saved;
                              ec_kwargs := with_type t (pending calls) |})
       /\ w_edits (world_of (saveEdits batch w))
          = (w_edits w ++ [ {| ec_section := sec; ec_items := saved;
                               ec_kwargs := with_type t (pending calls) |} ])%list
       /\ pending calls ⊆ with_type t (pending calls)
       /\ ob_dict saved !! "_edits" = Some VNone
       /\ saveEdits saved (world_of (saveEdits batch w))
          = (Raise BadRequest, saved, world_of (saveEdits batch w)).
Proof.
  split.
  { exact (saveEdits_outside_batch self w Hedits_plain Hfresh). }
  exists (set_edits self (VDict (pending calls))), self.
  assert (Hbatch : (batchEdits >> edit_all calls) self w
                   = (Ok tt, set_edits self (VDict (pending calls)), w)).
  { unfold bind, batchEdits. rewrite setattr_edits.
    rewrite (edit_all_pending calls _ w ∅).
    - unfold set_edits, with_dict. simpl. now rewrite insert_insert_eq.
    - exact Hedits_plain.
    - apply lookup_insert_eq. }
  assert (Hsave : saveEdits (set_edits self (VDict (pending calls))) w
                  = (Ok tt, self,
                     record_edit w {| ec_section := sec; ec_items := self;
                                      ec_kwargs := with_type t (pending calls) |})).
  { unfold saveEdits. unfold bind at 1.
    rewrite (getattribute_edits _ w (VDict (pending calls)));
      [| exact Hedits_plain | apply lookup_insert_eq].
    unfold bind. rewrite setattr_edits, set_edits_back.
    exact (edit_applies self w id ty t sec Hedits_plain Hsection_plain
             Hsearch_plain Hfresh Hsection_id Hpresent Hsection Htype Hsearch
             (pending calls)). }
  split; [exact Hbatch |].
  split; [apply lookup_insert_eq |].
  split; [exact Hsave |].
  rewrite Hsave. unfold world_of. cbn [snd].
  split; [reflexivity |].
  split; [apply with_type_keeps |].
  split; [exact Hfresh |].
  exact (saveEdits_outside_batch self _ Hedits_plain Hfresh).
Qed.

End BatchProtocol.

(** C9, witness: the listed movie of section 3; two edits in a batch are
    saved by one call. *)
Lemma saveEdits_batch_protocol_witness :
  exists batch saved : pyobj,
    (batchEdits
     >> edit_all (H := Example.imports) (H0 := Example.server)
          [ {[ "title.value" := VStr "Cars 2" ]};
            {[ "summary.value" := VStr "More cars." ]} ])
      Example.listed_movie Example.world0
    = (Ok tt, batch, Example.world0)
    /\ w_edits (world_of (saveEdits (H := Example.imports)
                            (H0 := Example.server) batch Example.world0))
       = [ {| ec_section := 3; ec_items := saved;
              ec_kwargs :=
                with_type (VInt 1)
                  (pending [ {[ "title.value" := VStr "Cars 2" ]};
                             {[ "summary.value" := VStr "More cars." ]} ]) |} ].
Proof.
  destruct (saveEdits_batch_protocol (H := Example.imports)
              (H0 := Example.server) Example.listed_movie Example.world0
              (VInt 3) (VStr "movie") (VInt 1) 3%N
              ltac:(vm_compute; exact I) ltac:(vm_compute; exact I)
              eq_refl
              ltac:(vm_compute; reflexivity) ltac:(vm_compute; reflexivity)
              eq_refl eq_refl
              ltac:(vm_compute; reflexivity) eq_refl
              [ {[ "title.value" := VStr "Cars 2" ]};
                {[ "summary.value" := VStr "More cars." ]} ])
    as (_ & batch & saved & Hbatch & _ & _ & Hsaved & _).
  exists batch, saved. split; [exact Hbatch | exact Hsaved].
Defined.

(** ** Strings *)

Section Strings.

Lemma append_cons (c : ascii) (s t : string) :
  String c s +:+ t = String c (s +:+ t).
Proof. reflexivity. Qed.

Lemma append_nil_r (s : string) : s +:+ "" = s.
Proof.
  induction s as [| c s IH]; [reflexivity | now rewrite append_cons, IH].
Qed.

Lemma append_assoc (a b c : string) : (a +:+ b) +:+ c = a +:+ (b +:+ c).
Proof.
  induction a as [| x a IH]; [reflexivity | now rewrite !append_cons, IH].
Qed.

Lemma rev_app_append (s t : string) : String.rev_app s t = String.rev s +:+ t.
Proof.
  unfold String.rev. revert t.
  induction s as [| c s IH]; intros t; simpl; [reflexivity |].
  rewrite (IH (String c t)), (IH (String c "")), append_assoc. reflexivity.
Qed.

Lemma rev_cons (c : ascii) (s : string) :
  String.rev (String c s) = String.rev s +:+ String c "".
Proof. unfold String.rev at 1. simpl. apply rev_app_append. Qed.

Lemma rev_append (a b : string) :
  String.rev (a +:+ b) = String.rev b +:+ String.rev a.
Proof.
  induction a as [| c a IH].
  - change ("" +:+ b) with b. now rewrite append_nil_r.
  - now rewrite append_cons, !rev_cons, IH, append_assoc.
Qed.

Lemma rev_involutive (s : string) : String.rev (String.rev s) = s.
Proof.
  induction s as [| c s IH]; [reflexivity |].
  now rewrite rev_cons, rev_append, IH.
Qed.

Lemma prefix_append_intro (p q r : string) :
  String.prefix p q = true -> String.prefix p (q +:+ r) = true.
Proof.
  revert q. induction p as [| a p IH]; intros q Hp.
  - now destruct (q +:+ r).
  - destruct q as [| b q]; [discriminate |]. rewrite append_cons. simpl in *.
    destruct (ascii_dec a b); [now apply IH | discriminate].
Qed.

Lemma prefix_append_elim (p q r : string) :
  String.prefix p (q +:+ r) = true ->
  String.prefix p q = true \/ String.prefix q p = true.
Proof.
  revert q. induction p as [| a p IH]; intros q Hp.
  - left. now destruct q.
  - destruct q as [| b q]; [now right |]. rewrite append_cons in Hp. simpl in *.
    destruct (ascii_dec a b) as [<- | ?]; [| discriminate].
    destruct (ascii_dec a a); [now apply IH | congruence].
Qed.

Lemma endswith_append_intro (a s t : string) :
  PyStr.endswith s t = true -> PyStr.endswith (a +:+ s) t = true.
Proof.
  unfold PyStr.endswith. rewrite rev_append. apply prefix_append_intro.
Qed.

Lemma endswith_append_elim (a s t : string) :
  PyStr.endswith (a +:+ s) t = true ->
  PyStr.endswith s t = true \/ PyStr.endswith t s = true.
Proof.
  unfold PyStr.endswith. rewrite rev_append. apply prefix_append_elim.
Qed.

(** A suffix that neither ends nor is ended by [t] stays none behind any
    text. *)
Lemma endswith_append_false (a s t : string) :
  PyStr.endswith s t = false -> PyStr.endswith t s = false ->
  PyStr.endswith (a +:+ s) t = false.
Proof.
  intros Hst Hts. destruct (PyStr.endswith (a +:+ s) t) eqn:E; [| reflexivity].
  destruct (endswith_append_elim a s t E); congruence.
Qed.

(** No character of the string is an underscore. *)
Fixpoint no_underscore (s : string) : bool :=
  match s with
  | EmptyString => true
  | String c s' => negb (Ascii.eqb c "_") && no_underscore s'
  end.

Lemma split1_first (a b : string) :
  no_underscore a = true ->
  PyStr.split1 "__" (a +:+ "__" +:+ b) = (a, Some b).
Proof.
  induction a as [| c a IH]; intros Ha.
  - change ("" +:+ "__" +:+ b) with (String "_" (String "_" b)).
    simpl. destruct b; reflexivity.
  - simpl in Ha. apply andb_true_iff in Ha as [Hc Ha].
    apply negb_true_iff, Ascii.eqb_neq in Hc.
    rewrite append_cons. cbn [PyStr.split1 String.prefix].
    destruct (ascii_dec "_" c) as [<- | _]; [congruence |].
    now rewrite (IH Ha).
Qed.

Lemma rsplit1_head_last (a op : string) :
  no_underscore op = true ->
  PyStr.rsplit1_head "__" (a +:+ "__" +:+ op) = a.
Proof.
  intros Hop. unfold PyStr.rsplit1_head.
  rewrite !rev_append. change (String.rev "__") with "__".
  rewrite append_assoc.
  rewrite split1_first; [apply rev_involutive |].
  clear a. 
  assert (Hgen : forall s t, no_underscore s = true -> no_underscore t = true ->
                        no_underscore (String.rev_app s t) = true).
  { induction s as [| c s IH]; intros t Hs Ht; simpl in *; [exact Ht |].
    apply andb_true_iff in Hs as [Hc Hs]. apply IH; [exact Hs |].
    simpl. now rewrite Hc. }
  now apply Hgen.
Qed.

End Strings.

Section Operators.
Context `{Imports}.

(** The loop of [_getAttrOperator] on a key built from an entry of
    [OPERATORS]. *)
Lemma find_operator_suffix (attr op : string) (f : operator) :
  In (op, f) OPERATORS ->
  find_operator OPERATORS (attr +:+ "__" +:+ op) = Some (attr, op, f).
Proof.
  intros Hin. unfold OPERATORS in *. simpl in Hin.
  repeat (destruct Hin as [Heq | Hin];
    [ injection Heq as <- <-;
      cbn [find_operator];
      repeat (rewrite (endswith_append_false attr) by reflexivity);
      rewrite (endswith_append_intro attr) by reflexivity;
      rewrite rsplit1_head_last by reflexivity; reflexivity
    | ]).
  destruct Hin.
Qed.

(** X1.  [_getAttrOperator] finds the operator a key was built with: for
    every attribute path [attr] and every entry [op] of [OPERATORS], the
    key [attr__op] is split into [attr], [op] and the function of [op].
    No operator is taken for another one ([gte] for [gt], [iexact] for
    [exact]), whatever the path. *)
Theorem getAttrOperator_suffix (attr op : string) (f : operator) :
  In (op, f) OPERATORS ->
  _getAttrOperator (attr +:+ "__" +:+ op) = (attr, op, f).
Proof.
  intros Hin. unfold _getAttrOperator.
  now rewrite (find_operator_suffix attr op f Hin).
Qed.

End Operators.

(** X1, witness: the key [year__gte]. *)
Lemma getAttrOperator_suffix_witness :
  _getAttrOperator (H := Example.imports) "year__gte"
  = ("year", "gte", op_gte).
Proof.
  apply (getAttrOperator_suffix (H := Example.imports) "year" "gte" op_gte).
  unfold OPERATORS. simpl. tauto.
Defined.

(** ** The values of an attribute path *)

Lemma Element_children_ind (P : Element -> Prop) :
  (forall i tg att kids, List.Forall P kids -> P (Elem i tg att kids)) ->
  forall e, P e.
Proof.
  intros HP. fix IH 1. intros [i tg att kids]. apply HP.
  induction kids as [| k kids IHk]; constructor; [apply IH | exact IHk].
Qed.

(** The value is a string. *)
Definition is_str (v : pyval) : bool :=
  match v with
  | VStr _ => true
  | _ => false
  end.

Lemma own_value_strings (tg : string) (att : list (string * string))
  (attr : string) : forallb is_str (own_value tg att attr) = true.
Proof.
  unfold own_value. destruct (String.eqb _ _); [reflexivity |].
  induction att as [| [k v] att IH]; simpl; [reflexivity |].
  destruct (String.eqb _ _); [reflexivity | exact IH].
Qed.

Lemma not_none_strings (l : list pyval) :
  forallb is_str l = true -> forallb is_str (not_none l) = true.
Proof.
  induction l as [| x l IH]; simpl; [reflexivity |].
  intros [Hx Hl]%andb_true_iff. destruct x; try discriminate.
  simpl. now rewrite IH.
Qed.

Lemma forallb_is_str_app (l m : list pyval) :
  forallb is_str (l ++ m) = forallb is_str l && forallb is_str m.
Proof. apply forallb_app. Qed.

Lemma getAttrValue_shared_strings (elem : Element) :
  forall attrstr results,
    forallb is_str results = true ->
    forallb is_str (getAttrValue_shared elem attrstr results).1 = true
    /\ forallb is_str (getAttrValue_shared elem attrstr results).2 = true.
Proof.
  induction elem as [i tg att kids IH] using Element_children_ind.
  intros attrstr results Hres. cbn [getAttrValue_shared].
  destruct (PyStr.split1 "__" attrstr) as [attr [[| c r] |]].
  - simpl. split; [apply own_value_strings | exact Hres].
  - cbn [fst snd].
    match goal with
    | |- forallb is_str (not_none ?l) = true /\ _ =>
        assert (Hl : forallb is_str l = true);
          [| split; [now apply not_none_strings | exact Hl]]
    end.
    revert results Hres.
    induction IH as [| child kids Hchild _ IHkids]; intros results Hres.
    + exact Hres.
    + destruct (String.eqb (PyStr.lower (tag child)) (PyStr.lower attr)).
      * destruct (Hchild (String c r) results Hres) as [H1 H2].
        destruct (getAttrValue_shared child (String c r) results)
          as [returned results'].
        apply IHkids. rewrite forallb_is_str_app. simpl in *.
        now rewrite H1, H2.
      * now apply IHkids.
  - simpl. split; [apply own_value_strings | exact Hres].
Qed.

Lemma getAttrValue_strings (elem : Element) (attrstr : string) :
  forallb is_str (_getAttrValue elem attrstr) = true.
Proof.
  unfold _getAttrValue.
  now apply (getAttrValue_shared_strings elem attrstr []).
Qed.

(** X2.  Every value [_getAttrValue] returns, for any element and any
    path, is a string of the tree: the result holds no [None] and nothing
    that was cast. *)
Theorem getAttrValue_only_strings (elem : Element) (attrstr : string) :
  List.Forall (fun v => exists s, v = VStr s) (_getAttrValue elem attrstr).
Proof.
  pose proof (getAttrValue_strings elem attrstr) as Hall.
  rewrite forallb_forall in Hall. apply List.Forall_forall. intros v Hin.
  specialize (Hall v Hin). destruct v; try discriminate. eauto.
Qed.

Lemma split1_none (s : string) :
  no_underscore s = true -> PyStr.split1 "__" s = (s, None).
Proof.
  induction s as [| c s IH]; intros Hs; [reflexivity |].
  simpl in Hs. apply andb_true_iff in Hs as [Hc Hs].
  apply negb_true_iff, Ascii.eqb_neq in Hc.
  cbn [PyStr.split1 String.prefix].
  destruct (ascii_dec "_" c) as [<- | _]; [congruence |].
  now rewrite (IH Hs).
Qed.

Lemma not_none_of_strings (l : list pyval) :
  forallb is_str l = true -> not_none l = l.
Proof.
  induction l as [| x l IH]; simpl; [reflexivity |].
  intros [Hx Hl]%andb_true_iff. destruct x; try discriminate.
  simpl. now rewrite IH.
Qed.

(** The values the children of an element with the tag [tg] have for
    the attribute [leaf], in document order. *)
Definition child_values (elem : Element) (tg leaf : string) : list pyval :=
  flat_map (fun child =>
    if String.eqb (PyStr.lower (tag child)) (PyStr.lower tg)
    then own_value (tag child) (attrib child) leaf
    else []) (children elem).

(** X5.  On a path [Tag__attr] of one child segment, [_getAttrValue]
    returns the value of [attr] of every direct child whose tag is [Tag]
    up to case, in document order, each once ([attr] matched up to case,
    first match; [etag] standing for the child's tag). *)
Theorem getAttrValue_child_attribute (elem : Element) (tg leaf : string) :
  no_underscore tg = true -> no_underscore leaf = true -> leaf <> "" ->
  _getAttrValue elem (tg +:+ "__" +:+ leaf) = child_values elem tg leaf.
Proof.
  intros Htg Hleaf Hne. destruct elem as [i t att kids].
  unfold _getAttrValue, child_values. cbn [getAttrValue_shared children].
  rewrite (split1_first tg leaf Htg).
  destruct leaf as [| c r]; [congruence |]. cbn [fst].
  assert (Hgen : forall acc,
    (fix each_child (cs : list Element) (results : list pyval) {struct cs}
       : list pyval :=
       match cs with
       | [] => results
       | child :: cs' =>
           if String.eqb (PyStr.lower (tag child)) (PyStr.lower tg)
           then let '(returned, results0) :=
                  getAttrValue_shared child (String c r) results in
                each_child cs' (results0 ++ returned)%list
           else each_child cs' results
       end) kids acc
    = (acc ++ flat_map (fun child =>
         if String.eqb (PyStr.lower (tag child)) (PyStr.lower tg)
         then own_value (tag child) (attrib child) (String c r)
         else []) kids)%list).
  { induction kids as [| child kids IH]; intros acc.
    - simpl. now rewrite app_nil_r.
    - cbn [flat_map].
      destruct (String.eqb (PyStr.lower (tag child)) (PyStr.lower tg)).
      + rewrite (getAttrValue_shared_own child (String c r) (String c r) acc)
          by (left; now apply split1_none).
        rewrite IH. now rewrite <- app_assoc.
      + rewrite IH. reflexivity. }
  rewrite Hgen. cbn [app]. apply not_none_of_strings. clear Hgen.
  induction kids as [| child kids IH]; [reflexivity |].
  cbn [flat_map]. rewrite forallb_app, IH, andb_true_r.
  destruct (String.eqb _ _); [apply own_value_strings | reflexivity].
Qed.

(** X5, witness: the codecs of the two [Media] children of the listed
    video. *)
Lemma getAttrValue_child_attribute_witness :
  _getAttrValue Example.listed_video "Media__videoCodec"
  = [VStr "h264"; VStr "hevc"].
Proof.
  change "Media__videoCodec" with ("Media" +:+ "__" +:+ "videoCodec").
  rewrite (getAttrValue_child_attribute Example.listed_video "Media"
             "videoCodec" eq_refl eq_refl ltac:(discriminate)).
  reflexivity.
Defined.

(** ** Filters *)

Section Filters.
Context `{Imports}.

(** [any_value_matches] under [exists]: no value is [None]. *)
Lemma any_value_exists (query : pyval) (values : list pyval) :
  forallb is_str values = true ->
  any_value_matches "exists" op_exists query values
  = Ok (truthy query && match values with [] => false | _ => true end).
Proof.
  induction values as [| v values IH]; intros Hstr.
  - simpl. now rewrite andb_false_r.
  - simpl in Hstr. apply andb_true_iff in Hstr as [Hv Hstr].
    destruct v; try discriminate.
    cbn [any_value_matches _castAttrValue rbind op_exists is_none negb].
    change (String.eqb "exists" "exists") with true. cbv iota.
    cbn [rbind]. destruct (truthy query); [reflexivity |].
    rewrite (IH Hstr). reflexivity.
Qed.

Lemma all_values_singleton (attr : string) (b : bool) :
  all_values (<[attr := b]> ∅) = b.
Proof.
  rewrite all_values_insert by apply lookup_empty.
  unfold all_values. rewrite bool_decide_eq_true_2 by apply map_Forall_empty.
  apply andb_true_r.
Qed.

(** [_checkAttrs] on the one key [attr__exists]. *)
Lemma checkAttrs_exists_key (elem : Element) (attr : string) (q : pyval) :
  _checkAttrs elem [(attr +:+ "__exists", q)]
  = Ok (truthy q
        && match _getAttrValue elem attr with [] => false | _ => true end).
Proof.
  unfold _checkAttrs. cbn [checkAttrs_loop].
  unfold _getAttrOperator.
  rewrite (find_operator_suffix attr "exists" op_exists)
    by (unfold OPERATORS; simpl; tauto).
  change (String.eqb "exists" "exact") with false. cbn [andb].
  rewrite any_value_exists by apply getAttrValue_strings.
  cbn [rbind]. now rewrite all_values_singleton.
Qed.

(** X3.  A filter [attr__exists=q] alone, with a true [q], accepts an
    element exactly when the path [attr] has a value on it.  With a false
    [q] (the documented way to ask for a missing attribute) it accepts no
    element at all: the values are never [None], and an element without
    the attribute has no value to test. *)
Theorem checkAttrs_exists (elem : Element) (attr : string) :
  (forall q, truthy q = true ->
     _checkAttrs elem [(attr +:+ "__exists", q)]
     = Ok match _getAttrValue elem attr with [] => false | _ => true end)
  /\ (forall q, truthy q = false ->
        _checkAttrs elem [(attr +:+ "__exists", q)] = Ok false).
Proof.
  split; intros q Hq; rewrite checkAttrs_exists_key, Hq; reflexivity.
Qed.

(** The verdict of one filter key: some value of its path satisfies its
    operator (the inner loop of [_checkAttrs]). *)
Definition key_verdict (elem : Element) (key : string) (query : pyval)
  : result bool :=
  let '(attr, op, oper) := _getAttrOperator key in
  any_value_matches op oper query (_getAttrValue elem attr).

Lemma spec_checkAttrs_verdicts (elem : Element)
  (kwargs : list (string * pyval)) (verdicts : list bool) :
  (forall kv, In kv kwargs -> takes_shortcut elem kv.1 kv.2 = false) ->
  Forall2 (fun kv b => key_verdict elem kv.1 kv.2 = Ok b) kwargs verdicts ->
  Spec.checkAttrs elem kwargs = Ok (forallb id verdicts).
Proof.
  intros Hshort Hall. induction Hall as [| [key query] b kwargs verdicts Hb _ IH].
  - reflexivity.
  - cbn [Spec.checkAttrs forallb]. unfold Spec.predicate_satisfied.
    pose proof (Hshort (key, query) (or_introl eq_refl)) as Hs.
    unfold takes_shortcut, key_attr in Hs. unfold key_verdict in Hb.
    cbn [fst snd] in Hs, Hb.
    destruct (_getAttrOperator key) as [[attr op] oper].
    cbn [fst snd] in Hs. rewrite Hs, Hb. cbn [rbind].
    rewrite IH by (intros kv Hin; apply Hshort; now right).
    reflexivity.
Qed.

(** X4.  When the filter keys name different attribute paths and none of
    them meets the special case for a missing attribute ([exact], no
    value, operand [None], [0] or the empty string), [_checkAttrs] is the
    conjunction of the verdicts of its keys. *)
Theorem checkAttrs_conjunction (elem : Element)
  (kwargs : list (string * pyval)) (verdicts : list bool) :
  NoDup (map (fun kv => key_attr kv.1) kwargs) ->
  (forall kv, In kv kwargs -> takes_shortcut elem kv.1 kv.2 = false) ->
  Forall2 (fun kv b => key_verdict elem kv.1 kv.2 = Ok b) kwargs verdicts ->
  _checkAttrs elem kwargs = Ok (forallb id verdicts).
Proof.
  intros Hdup Hshort Hall.
  rewrite (checkAttrs_is_conjunction elem kwargs Hdup Hshort).
  now apply spec_checkAttrs_verdicts.
Qed.

End Filters.

(** X4, witness: a title and a range of years on the listed video; the
    year 1990 is below the range. *)
Lemma checkAttrs_conjunction_witness :
  _checkAttrs (H := Example.imports) Example.listed_video
    [("title", VStr "Cars"); ("year__gte", VInt 2000)]
  = Ok false.
Proof.
  apply (checkAttrs_conjunction (H := Example.imports) Example.listed_video
           [("title", VStr "Cars"); ("year__gte", VInt 2000)] [true; false]).
  - vm_compute. apply NoDup_cons. split.
    + intros Hin. apply list_elem_of_In in Hin. simpl in Hin.
      destruct Hin as [Heq | []]. discriminate Heq.
    + apply NoDup_singleton.
  - intros kv [<- | [<- | []]]; vm_compute; reflexivity.
  - repeat constructor.
Defined.

Section DetailsKey.
Context `{Imports} `{PlexServer}.

(** The keys of the class dictionary [name] ([_INCLUDES], [_EXCLUDES]). *)
Definition option_keys (self : pyobj) (name key : string) : Prop :=
  exists d, attr_read self name = Ok (VDict d) /\ is_Some (d !! key).

(** X6.  [_buildDetailsKey] reads its keyword arguments only at the keys
    of [_INCLUDES] and [_EXCLUDES]: two calls whose arguments agree on
    these keys return the same details key; any other keyword argument is
    dropped without an error. *)
Theorem buildDetailsKey_other_kwargs (self : pyobj) (w : world)
  (kwargs kwargs' : gmap string pyval) :
  (forall key,
      option_keys self "_INCLUDES" key \/ option_keys self "_EXCLUDES" key ->
      kwargs !! key = kwargs' !! key) ->
  _buildDetailsKey kwargs self w = _buildDetailsKey kwargs' self w.
Proof.
  intros Hagree. unfold _buildDetailsKey.
  cbv beta zeta delta [bind read lift ret raise].
  destruct (attr_read self "key") as [details_key | e]; [| reflexivity].
  assert (Hinc : forall d, attr_read self "_INCLUDES" = Ok (VDict d) ->
    map_imap (fun k v =>
       if py_in_list (default v (kwargs !! k)) [VBool false; VInt 0; VStr "0"]
       then None else Some (param_value (default v (kwargs !! k)))) d
    = map_imap (fun k v =>
       if py_in_list (default v (kwargs' !! k)) [VBool false; VInt 0; VStr "0"]
       then None else Some (param_value (default v (kwargs' !! k)))) d).
  { intros d Hd. apply map_imap_ext. intros k.
    destruct (d !! k) as [v |] eqn:Hk; [| reflexivity]. simpl.
    rewrite (Hagree k); [reflexivity |]. left. exists d. eauto. }
  assert (Hexc : forall d, attr_read self "_EXCLUDES" = Ok (VDict d) ->
    map_imap (fun k (_ : pyval) =>
       match kwargs !! k with
       | Some value =>
           if is_none value then None else Some (param_value value)
       | None => None
       end) d
    = map_imap (fun k (_ : pyval) =>
       match kwargs' !! k with
       | Some value =>
           if is_none value then None else Some (param_value value)
       | None => None
       end) d).
  { intros d Hd. apply map_imap_ext. intros k.
    destruct (d !! k) as [v |] eqn:Hk; [| reflexivity]. simpl.
    rewrite (Hagree k); [reflexivity |]. right. exists d. eauto. }
  destruct (truthy details_key && hasattr self "_INCLUDES").
  - destruct (attr_read self "_INCLUDES") as [[] | e] eqn:Ei;
      try reflexivity.
    cbn [dict_items]. rewrite (Hinc _ eq_refl).
    destruct (truthy details_key && hasattr self "_EXCLUDES").
    + destruct (attr_read self "_EXCLUDES") as [[] | e] eqn:Ee;
        try reflexivity.
      cbn [dict_items]. now rewrite (Hexc _ eq_refl).
    + reflexivity.
  - destruct (truthy details_key && hasattr self "_EXCLUDES").
    + destruct (attr_read self "_EXCLUDES") as [[] | e] eqn:Ee;
        try reflexivity.
      cbn [dict_items]. now rewrite (Hexc _ eq_refl).
    + reflexivity.
Qed.

End DetailsKey.

(** X6, witness: the listed movie; [color] is no include or exclude. *)
Lemma buildDetailsKey_other_kwargs_witness :
  _buildDetailsKey (H := Example.imports)
    {[ "includeMarkers" := VBool false ]} Example.listed_movie Example.world0
  = _buildDetailsKey (H := Example.imports)
      (<["color" := VStr "red"]> {[ "includeMarkers" := VBool false ]})
      Example.listed_movie Example.world0.
Proof.
  apply buildDetailsKey_other_kwargs. intros key Hkey.
  destruct (decide (key = "color")) as [-> | Hne];
    [| now rewrite lookup_insert_ne].
  exfalso.
  assert (Hno : forall name d,
            name = "_INCLUDES" \/ name = "_EXCLUDES" ->
            attr_read Example.listed_movie name = Ok (VDict d) ->
            d !! "color" = None).
  { intros name d [-> | ->] Hd; vm_compute in Hd;
      injection Hd as <-; reflexivity. }
  destruct Hkey as [(d & Hd & Hk) | (d & Hd & Hk)];
    [rewrite (Hno "_INCLUDES" d) in Hk | rewrite (Hno "_EXCLUDES" d) in Hk];
    auto; destruct Hk; discriminate.
Defined.

Section ReloadEdges.
Context `{Imports} `{PlexServer} `{Builtins}.

(** [reload] on an object whose [_reload] is the one of [PlexObject]. *)
Lemma reload_of_PlexObject (key : pyval) (kwargs : gmap string pyval)
  (self : pyobj) (w : world) :
  reload_owner (ob_class self) = Some "PlexObject" ->
  reload key kwargs self w = _reload key true kwargs self w.
Proof.
  intros Howner. unfold reload, bind, the_class. now rewrite Howner.
Qed.

(** Without a key [_buildDetailsKey] returns the key as it is. *)
Lemma buildDetailsKey_without_key (self : pyobj) (w : world)
  (kwargs : gmap string pyval) (key : pyval) :
  attr_read self "key" = Ok key ->
  truthy key = false ->
  _buildDetailsKey kwargs self w = (Ok key, self, w).
Proof.
  intros Hkey Hfalse. unfold _buildDetailsKey.
  cbv beta zeta delta [bind read lift ret raise].
  rewrite Hkey, Hfalse. cbn [andb].
  rewrite bool_decide_eq_true_2; [reflexivity |].
  apply (left_id_L ∅ (∪)).
Qed.

(** X7.  An object whose [_reload] is the one of [PlexObject] (it is no
    session and no history entry) and that has no key (no [key], no
    [_details_key]) cannot be reloaded: [reload] without a key argument
    raises [Unsupported] whatever the include and exclude arguments are,
    before any request, and leaves the object as it is. *)
Theorem reload_without_key (self : pyobj) (w : world)
  (arg key details_key : pyval) (kwargs : gmap string pyval) :
  reload_owner (ob_class self) = Some "PlexObject" ->
  truthy arg = false ->
  attr_read self "key" = Ok key -> truthy key = false ->
  attr_read self "_details_key" = Ok details_key ->
  truthy details_key = false ->
  reload arg kwargs self w = (Raise Unsupported, self, w).
Proof.
  intros Howner Harg Hkey Hfalse Hdk Hdfalse.
  rewrite reload_of_PlexObject by exact Howner. unfold _reload.
  assert (Hdetails :
    exists d, truthy d = false
      /\ (if bool_decide (kwargs = ∅) then read "_details_key"
          else _buildDetailsKey kwargs) self w = (Ok d, self, w)).
  { case_bool_decide.
    - exists details_key. unfold read. now rewrite Hdk.
    - exists key. split; [exact Hfalse |].
      now apply buildDetailsKey_without_key. }
  destruct Hdetails as (d & Hd & Hrun).
  unfold bind at 1. rewrite Hrun. rewrite Harg, Hd.
  unfold bind at 1. unfold read at 1. rewrite Hkey, Hfalse. reflexivity.
Qed.

(** [_reload] without arguments, for either value of [_overwriteNone]:
    afterwards, whatever became of the request, [_initpath] is the
    details key. *)
Lemma reload_sets_initpath (self : pyobj) (w : world) (details_key : pyval)
  (ow : bool) :
  plain_private (ob_class self) "_details_key" ->
  plain_private (ob_class self) "_initpath" ->
  ob_dict self !! "_details_key" = Some details_key ->
  truthy details_key = true ->
  let out := _reload VNone ow ∅ self w in
  world_of out = record_query w (reload_request details_key)
  /\ ob_class (self_of out) = ob_class self
  /\ ob_dict (self_of out) !! "_details_key" = Some details_key
  /\ ob_dict (self_of out) !! "_initpath" = Some details_key.
Proof.
  intros Hpd Hpi Hdk Htrue out. subst out.
  rewrite (reload_unfold self w details_key ow)
    by first [exact Htrue
             | apply attr_read_entry; [apply Hpd | exact Hdk]].
  cbv zeta.
  set (self1 := __setattr__ self "_initpath" details_key).
  set (self2 := __setattr__ self1 "_overwriteNone" (VBool ow)).
  assert (Hself1 : ob_class self1 = ob_class self
               /\ ob_dict self1 !! "_details_key" = Some details_key
               /\ ob_dict self1 !! "_initpath" = Some details_key).
  { subst self1. rewrite setattr_class, setattr_lookup_ne by discriminate.
    rewrite setattr_private by reflexivity. simpl.
    now rewrite lookup_insert_eq. }
  assert (Hself2 : ob_class self2 = ob_class self
               /\ ob_dict self2 !! "_details_key" = Some details_key
               /\ ob_dict self2 !! "_initpath" = Some details_key).
  { subst self2. now rewrite setattr_class, !setattr_lookup_ne by discriminate. }
  destruct (server_query _ _) as [data | e]; [| now unfold world_of, self_of].
  destruct (first_child data) as [data0 | e]; [| now unfold world_of, self_of].
  pose proof (invalidateCacheAndLoadData_class self2 data0) as Hc.
  pose proof (invalidateCacheAndLoadData_plain self2 data0 "_details_key")
    as Hd.
  pose proof (invalidateCacheAndLoadData_plain self2 data0 "_initpath")
    as Hi.
  destruct Hself2 as (Hc2 & Hd2 & Hi2). rewrite Hc2 in Hd, Hi, Hc.
  specialize (Hd Hpd ltac:(discriminate)).
  specialize (Hi Hpi ltac:(discriminate)).
  destruct (_invalidateCacheAndLoadData self2 data0) as [[[] | e] self3];
    cbn [fst snd] in Hc, Hd, Hi; unfold world_of, self_of; cbn [fst snd].
  - rewrite setattr_class, !setattr_lookup_ne by discriminate.
    rewrite Hd, Hi. auto.
  - rewrite Hd, Hi. auto.
Qed.

(** An attribute the class defines can be read on every instance. *)
Lemma class_member_readable (self : pyobj) (name : string) :
  is_Some (class_lookup (ob_class self) name) ->
  exists v, attr_read self name = Ok v.
Proof.
  intros [m Hm]. unfold attr_read, object_getattribute. rewrite Hm.
  destruct m; destruct (ob_dict self !! name); simpl; eauto.
Qed.

(** X8.  After [reload()] an object whose [_reload] is the one of
    [PlexObject] (it is no session and no history entry) is full and not
    partial, whether the reload succeeded or raised: [_reload] stores
    the details key in [_initpath] before it asks the server, and
    [isFullObject] compares the two.  (The details key is a non-empty
    string; the class has [key], and keeps [_details_key] and [_initpath]
    as plain private data.) *)
Theorem reload_leaves_full (self : pyobj) (w : world) (path : string) :
  reload_owner (ob_class self) = Some "PlexObject" ->
  plain_private (ob_class self) "_details_key" ->
  plain_private (ob_class self) "_initpath" ->
  is_Some (class_lookup (ob_class self) "key") ->
  ob_dict self !! "_details_key" = Some (VStr path) ->
  path <> "" ->
  let out := reload VNone ∅ self w in
  isFullObject (self_of out) (world_of out)
  = (Ok true, self_of out, world_of out)
  /\ isPartialObject (self_of out) (world_of out)
     = (Ok false, self_of out, world_of out).
Proof.
  intros Howner Hpd Hpi Hkey Hdk Hpath out.
  assert (Htrue : truthy (VStr path) = true).
  { simpl. destruct path; [congruence | reflexivity]. }
  destruct (reload_sets_initpath self w (VStr path) true Hpd Hpi Hdk Htrue)
    as (_ & Hcls & Hd & Hi).
  rewrite <- (reload_of_PlexObject VNone ∅ self w Howner) in Hcls, Hd, Hi.
  fold out in Hcls, Hd, Hi.
  assert (Hfull_run : isFullObject (self_of out) (world_of out)
                      = (Ok true, self_of out, world_of out));
    [| split; [exact Hfull_run |];
       unfold isPartialObject, bind; now rewrite Hfull_run].
  rewrite (pure_isFullObject (self_of out) (world_of out)). do 2 f_equal.
  rewrite <- Hcls in Hpd, Hpi, Hkey.
  destruct (full_when_reloaded (self_of out) (world_of out) (VStr path)
              (StrPath (url_path path), list_to_set (url_query path))
              Hpd Hpi Hd Hi Htrue eq_refl) as [Hfull | [e He]];
    [exact Hfull |].
  exfalso. revert He.
  unfold isFullObject, result_of, bind, read, lift, ret.
  rewrite (attr_read_entry _ "_details_key" (VStr path))
    by (try exact Hd; apply Hpd).
  cbv beta iota. rewrite Htrue. cbv beta iota. cbn [urlparse].
  rewrite (attr_read_entry _ "_initpath" (VStr path))
    by (try exact Hi; apply Hpi).
  cbv beta iota.
  destruct (class_member_readable (self_of out) "key" Hkey) as [k ->].
  discriminate.
Qed.

(** X9.  When the answer to the automatic reload holds no element, the
    access that started it raises [IndexError] after its one request, and
    the object stays as [_reload] left it at that point: [_initpath] is
    the details key and [_overwriteNone] is [False], so an assignment of
    [None] no longer replaces a value that is set. *)
Theorem getattribute_empty_response (self self1 : pyobj) (w : world)
  (attr : string) (value details_key auto : pyval) (data : Element) :
  object_getattribute self attr = (Ok value, self1) ->
  absent value = true ->
  attr ∉ _DONT_RELOAD_FOR_KEYS ->
  attr ∉ USER_DONT_RELOAD_FOR_KEYS w ->
  PyStr.startswith attr "_" = false ->
  result_of (isFullObject self1 w) = Ok false ->
  inherits "PlexSession" (ob_class self) = false ->
  inherits "PlexHistory" (ob_class self) = false ->
  attr_read self1 "_autoReload" = Ok auto ->
  is_False auto = false ->
  attr_read self1 "_details_key" = Ok details_key ->
  truthy details_key = true ->
  server_query (w_queries w) (reload_request details_key) = Ok data ->
  children data = [] ->
  let left :=
    __setattr__ (__setattr__ self1 "_initpath" details_key)
      "_overwriteNone" (VBool false) in
  __getattribute__ attr self w
  = (Raise IndexError, left, record_query w (reload_request details_key))
  /\ overwrite_flag left = VBool false
  /\ (forall name,
        PyStr.startswith name "_" = false ->
        is_Some (ob_dict left !! name) ->
        __setattr__ left name VNone = left).
Proof.
  intros Hvalue Habsent Hkey Huser Hpub Hpartial Hs Hh Hauto Hon Hdk Htrue
    Hquery Hempty left.
  assert (Hflag : overwrite_flag left = VBool false).
  { unfold overwrite_flag. subst left.
    rewrite setattr_private by reflexivity. simpl.
    now rewrite lookup_insert_eq. }
  split; [| split; [exact Hflag |]].
  - rewrite (getattribute_absent self self1 w attr value auto); auto.
    rewrite (reload_unfold self1 w details_key false Hdk Htrue).
    cbv zeta. rewrite Hquery. unfold first_child. now rewrite Hempty.
  - intros name Hpublic Hset. apply setattr_keeps; auto.
    now rewrite Hflag.
Qed.

(** X10.  [__getattribute__] changes the world (it asks the server) only
    when all the conditions of a reload hold: the lookup found [None] or
    the empty list, the name is public and on neither exemption list,
    the object is partial, no session or history entry, and
    [_autoReload] is not [False].  In every other case, an
    [AttributeError] of the lookup included, the world is as before. *)
Theorem getattribute_asks_only_if (self : pyobj) (w : world) (attr : string) :
  world_of (__getattribute__ attr self w) <> w ->
  exists value self1 auto,
    object_getattribute self attr = (Ok value, self1)
    /\ absent value = true
    /\ (attr ∉ _DONT_RELOAD_FOR_KEYS)
    /\ (attr ∉ USER_DONT_RELOAD_FOR_KEYS w)
    /\ PyStr.startswith attr "_" = false
    /\ result_of (isFullObject self1 w) = Ok false
    /\ inherits "PlexSession" (ob_class self) = false
    /\ inherits "PlexHistory" (ob_class self) = false
    /\ attr_read self1 "_autoReload" = Ok auto
    /\ is_False auto = false.
Proof.
  unfold __getattribute__.
  unfold bind at 1. unfold super_getattribute at 1.
  pose proof (object_getattribute_class self attr) as Hcls.
  destruct (object_getattribute self attr) as [[value | e] self1];
    cbn [snd] in Hcls; cbv beta iota; [| now intros []].
  case_bool_decide as Hkey; [now intros [] |].
  unfold bind at 1. unfold the_world at 1. cbv beta iota.
  case_bool_decide as Huser; [now intros [] |].
  destruct (PyStr.startswith attr "_") eqn:Hpub; [now intros [] |].
  fold (absent value).
  destruct (absent value) eqn:Habsent; [| now intros []].
  cbn [negb]. rewrite (bind_pure _ _ self1 w pure_isFullObject).
  destruct (result_of (isFullObject self1 w)) as [[] | e] eqn:Hfull;
    [now intros [] | | now intros []].
  unfold bind at 1. unfold the_class at 1. cbv beta iota. rewrite Hcls.
  destruct (inherits "PlexSession" (ob_class self)) eqn:Hs;
    [now intros [] |].
  destruct (inherits "PlexHistory" (ob_class self)) eqn:Hh;
    [now intros [] |].
  cbn [orb]. unfold bind at 1. unfold read at 1.
  destruct (attr_read self1 "_autoReload") as [auto | e] eqn:Hauto;
    cbv beta iota; [| now intros []].
  destruct (is_False auto) eqn:Hon; [now intros [] |].
  intros _. exists value, self1, auto. auto 12.
Qed.

End ReloadEdges.

(** ** Finding and fetching *)

Section Finding.
Context `{Imports} `{PlexServer} `{PlexRegistry}.

Lemma find_each_length (elems : list Element) (cls : option pyclass)
  (initpath : pyval) (kwargs : list (string * pyval)) (self : pyobj)
  (w : world) :
  forall items found : iterable,
  result_of (find_each elems cls initpath kwargs items self w) = Ok found ->
  (List.length (items_of found)
   <= List.length (items_of items) + List.length elems)%nat.
Proof.
  induction elems as [| elem elems IH]; intros items found; simpl.
  - intros [= <-]. lia.
  - rewrite result_bind_pure by apply pure_lift. rewrite result_lift.
    destruct (_checkAttrs elem kwargs) as [[] | e]; [| | discriminate].
    + rewrite result_bind_pure by apply pure_buildItemOrNone.
      destruct (result_of (_buildItemOrNone elem cls initpath self w))
        as [[item |] | e]; [| | discriminate].
      * intros Hrun. apply IH in Hrun.
        destruct items; simpl in *; rewrite ?length_app in Hrun;
          simpl in Hrun; lia.
      * intros Hrun. apply IH in Hrun. lia.
    + intros Hrun. apply IH in Hrun. lia.
Qed.

Lemma find_each_plain (elems : list Element) (cls : option pyclass)
  (initpath : pyval) (kwargs : list (string * pyval)) (self : pyobj)
  (w : world) :
  forall (l : list pyobj) (found : iterable),
  result_of (find_each elems cls initpath kwargs (PlainList l) self w)
  = Ok found ->
  exists l', found = PlainList l'.
Proof.
  induction elems as [| elem elems IH]; intros l found; simpl.
  - intros [= <-]. eauto.
  - rewrite result_bind_pure by apply pure_lift. rewrite result_lift.
    destruct (_checkAttrs elem kwargs) as [[] | e];
      [| apply IH | discriminate].
    rewrite result_bind_pure by apply pure_buildItemOrNone.
    destruct (result_of (_buildItemOrNone elem cls initpath self w))
      as [[item |] | e]; [| apply IH | discriminate].
    apply IH.
Qed.

Lemma pure_new_container (data : Element) (initpath : pyval) :
  pure (new_container data initpath).
Proof.
  unfold new_container.
  apply pure_bind; [apply pure_construct | intros; apply pure_ret].
Qed.

Lemma findItems_length (data : Element) (cls : option pyclass)
  (initpath : pyval) (kwargs : list (string * pyval)) (self : pyobj)
  (w : world) (found : iterable) :
  result_of (findItems data cls initpath kwargs self w) = Ok found ->
  (List.length (items_of found) <= List.length (children data))%nat.
Proof.
  unfold findItems.
  rewrite result_bind_pure by apply pure_lift. rewrite result_lift.
  destruct (inject cls "TAG" "tag" "etag" kwargs) as [kw1 | e];
    [| discriminate].
  rewrite result_bind_pure by apply pure_lift. rewrite result_lift.
  destruct (inject cls "TYPE" "type" "type" kw1) as [kw2 | e];
    [| discriminate].
  destruct (String.eqb (tag data) "MediaContainer").
  - rewrite result_bind_pure
      by (apply pure_bind; [apply pure_new_container | intros; apply pure_ret]).
    rewrite result_bind_pure by apply pure_new_container.
    destruct (result_of (new_container data initpath self w)) as [c | e] eqn:Hc;
      [| discriminate].
    apply new_container_built in Hc as [Hempty _].
    change (result_of (ret (Container c) self w)) with (Ok (Container c)).
    cbv beta iota. intros Hrun. apply find_each_length in Hrun.
    simpl in Hrun. rewrite Hempty in Hrun. exact Hrun.
  - rewrite result_bind_pure by apply pure_ret.
    change (result_of (ret (PlainList []) self w)) with (Ok (PlainList [])).
    cbv beta iota. intros Hrun. now apply find_each_length in Hrun.
Qed.


End Finding.

Section Turns.
Context `{Imports} `{PlexServer} `{PlexRegistry}.

Lemma is_gt_number (a : Z) (t : pyval) (b : bool) :
  is_gt (VInt a) t = Ok b ->
  exists z, as_number t = Some z /\ b = Z.gtb a z.
Proof.
  unfold is_gt, py_compare. cbn [as_number].
  destruct (as_number t) as [z |] eqn:Ht.
  - cbn [rbind]. intros [= <-]. exists z. split; [reflexivity |].
    unfold Z.gtb. now destruct (a ?= z).
  - destruct t; discriminate.
Qed.

Lemma py_add_number (t : pyval) (z k : Z) :
  as_number t = Some z -> py_add t (VInt k) = Ok (VInt (z + k)).
Proof. intros Ht. unfold py_add. now rewrite Ht. Qed.

Lemma response_total_bound (data : Element) (sub : iterable) (T t : Z) :
  (forall z,
      as_number (utils_cast_int
                   (py_or (of_opt_str (attrib_get (attrib data) "totalSize"))
                          (of_opt_str (attrib_get (attrib data) "size"))))
      = Some z -> z <= T) ->
  Z.of_nat (List.length (items_of sub)) <= T ->
  as_number (response_total data sub) = Some t -> t <= T.
Proof.
  intros Hcast Hlen. unfold response_total, py_or at 1.
  destruct (truthy (utils_cast_int _)).
  - apply Hcast.
  - unfold len. cbn [as_number]. intros [= <-]. exact Hlen.
Qed.

(** What is left of a turn after the request. *)
Lemma fetch_turn_effect (ekey : pyval) (cls : option pyclass)
  (maxresults : option Z) (params : pyval) (kwargs : list (string * pyval))
  (offset : Z) (st : fetch_state) (self : pyobj) (w : world) :
  let rq := page_request ekey params (container_start st)
              (container_size st) in
  exists r,
    fetch_turn ekey cls maxresults params kwargs offset st self w
    = (r, self, record_query w rq).
Proof.
  intros rq. unfold fetch_turn. fold rq.
  unfold bind at 1. unfold query at 1.
  destruct (server_query (w_queries w) rq) as [data | e]; [| eauto].
  match goal with
  | |- exists r, bind ?m ?k self ?w1 = _ =>
      assert (Hpure : pure (bind m k))
  end.
  { apply pure_bind; [apply pure_findItems | intros sub].
    apply pure_bind.
    { destruct (items_of sub); [apply pure_lift | apply pure_ret]. }
    intros _. destruct (extend _ _) as [r merged].
    apply pure_bind; [apply pure_lift | intros _].
    apply pure_bind; [apply pure_lift | intros stop].
    destruct stop; [apply pure_ret |].
    apply pure_bind; [apply pure_lift | intros wanted].
    apply pure_bind.
    { destruct maxresults as [m |]; [| apply pure_ret].
      apply pure_bind; [apply pure_lift | intros wanted'].
      apply pure_bind; [apply pure_lift | intros rest].
      apply pure_bind; [apply pure_lift | intros size].
      destruct size; first [apply pure_ret | apply pure_raise]. }
    intros ws. apply pure_bind; [apply pure_lift | intros enough].
    destruct enough; apply pure_ret. }
  rewrite (Hpure self (record_query w rq)). eauto.
Qed.

(** A turn that goes on to another one. *)
Lemma fetch_turn_continues (ekey : pyval) (cls : option pyclass)
  (maxresults : option Z) (params : pyval) (kwargs : list (string * pyval))
  (offset : Z) (st st' : fetch_state) (self : pyobj) (w : world) :
  let rq := page_request ekey params (container_start st)
              (container_size st) in
  result_of (fetch_turn ekey cls maxresults params kwargs offset st self w)
  = Ok (inl st') ->
  exists data sub total,
    server_query (w_queries w) rq = Ok data
    /\ result_of (findItems data cls ekey kwargs self (record_query w rq))
       = Ok sub
    /\ as_number (response_total data sub) = Some total
    /\ container_start st' = container_start st + container_size st
    /\ container_start st' <= total
    /\ (maxresults = None -> container_size st' = container_size st)
    /\ (1 <= container_size st -> 1 <= container_size st').
Proof.
  intros rq. unfold fetch_turn. fold rq.
  unfold bind at 1. unfold query at 1.
  destruct (server_query (w_queries w) rq) as [data | e];
    [| discriminate].
  cbv beta iota.
  rewrite result_bind_pure by apply pure_findItems.
  destruct (result_of (findItems data cls ekey kwargs self _))
    as [sub | e] eqn:Hsub; [| discriminate].
  cbv zeta.
  set (total_size := response_total data sub).
  rewrite result_bind_pure
    by (destruct (items_of sub); [apply pure_lift | apply pure_ret]).
  match goal with
  | |- match ?c with _ => _ end = _ -> _ =>
      destruct c as [b0 | e]; [| discriminate]
  end.
  destruct (extend (tag_section data sub) (results st)) as [r merged].
  rewrite result_bind_pure by apply pure_lift. rewrite result_lift.
  destruct r as [[] | e]; [| discriminate].
  rewrite result_bind_pure by apply pure_lift. rewrite result_lift.
  destruct (is_gt (VInt (container_start st + container_size st)) total_size)
    as [stop | e] eqn:Hstop; [| discriminate].
  apply is_gt_number in Hstop as (total & Htotal & ->).
  destruct (Z.gtb_spec (container_start st + container_size st) total)
    as [Hgt | Hle]; [discriminate |].
  rewrite result_bind_pure by apply pure_lift. rewrite result_lift.
  rewrite (py_add_number total_size total (- offset) Htotal).
  destruct maxresults as [m |].
  - rewrite result_bind_pure.
    2:{ apply pure_bind; [apply pure_lift | intros wanted'].
        apply pure_bind; [apply pure_lift | intros rest].
        apply pure_bind; [apply pure_lift | intros size].
        destruct size; first [apply pure_ret | apply pure_raise]. }
    rewrite result_bind_pure by apply pure_lift. rewrite result_lift.
    rewrite py_min_int. cbv beta iota.
    rewrite result_bind_pure by apply pure_lift. rewrite result_lift.
    change (py_add (VInt ?a) (VInt ?b)) with (Ok (VInt (a + b))).
    cbv beta iota.
    rewrite result_bind_pure by apply pure_lift. rewrite result_lift.
    rewrite py_min_int. cbv beta iota.
    change (result_of (ret ?x self ?w1)) with (Ok x).
    cbv beta iota.
    rewrite result_bind_pure by apply pure_lift. rewrite result_lift.
    cbn [fst snd]. unfold len. rewrite is_gt_int. cbv beta iota.
    destruct (Z.gtb_spec (Z.min m (total + - offset))
                (Z.of_nat (List.length (mc_list merged)))) as [Hmore | Hdone].
    + intros [= <-]. exists data, sub, total. cbn [container_start container_size].
      repeat split; auto; try discriminate. lia.
    + discriminate.
  - rewrite result_bind_pure by apply pure_ret.
    change (result_of (ret ?x self ?w1)) with (Ok x).
    cbv beta iota.
    rewrite result_bind_pure by apply pure_lift. rewrite result_lift.
    cbn [fst snd]. unfold len. rewrite is_gt_int.
    destruct (Z.gtb _ _); [| discriminate].
    intros [= <-]. exists data, sub, total. cbn [container_start container_size].
    repeat split; auto.
Qed.

End Turns.

Section Termination.
Context `{Imports} `{PlexServer} `{PlexRegistry}.

(** The total size a response reports in its attributes. *)
Definition reported_total (data : Element) : pyval :=
  utils_cast_int
    (py_or (of_opt_str (attrib_get (attrib data) "totalSize"))
           (of_opt_str (attrib_get (attrib data) "size"))).

(** Every response of the server reports its sizes as integers, and
    none reports a total above [T] or has more than [T] elements.  (A
    size that [utils.cast] cannot read as an integer becomes [nan] in the
    code, a float, and no comparison with a total [nan] ends the loop.) *)
Definition bounded_server (T : Z) : Prop :=
  forall (qs : list request) (rq : request) (data : Element),
    server_query qs rq = Ok data ->
    (reported_total data = VNone
     \/ exists z, reported_total data = VInt z /\ z <= T)
    /\ (forall name,
          In name ["size"; "totalSize"; "offset"; "librarySectionID"] ->
          int_or_none
            (utils_cast_int (of_opt_str (attrib_get (attrib data) name))))
    /\ Z.of_nat (List.length (children data)) <= T.

Lemma fetch_loop_more_fuel (ekey : pyval) (cls : option pyclass)
  (maxresults : option Z) (params : pyval) (kwargs : list (string * pyval))
  (offset : Z) (fuel : nat) :
  forall st self w out,
    fetch_loop fuel ekey cls maxresults params kwargs offset st self w
    = Some out ->
    forall more,
      fetch_loop (fuel + more) ekey cls maxresults params kwargs offset st
        self w = Some out.
Proof.
  induction fuel as [| fuel IH]; intros st self w out; [discriminate |].
  cbn [fetch_loop Nat.add].
  destruct (fetch_turn ekey cls maxresults params kwargs offset st self w)
    as [[[[st' | res] | e] self'] w']; intros Hrun more;
    [now apply IH | exact Hrun | exact Hrun].
Qed.

Lemma fetch_loop_terminates (T : Z) (ekey : pyval) (cls : option pyclass)
  (maxresults : option Z) (params : pyval) (kwargs : list (string * pyval))
  (offset : Z) :
  bounded_server T ->
  forall (fuel : nat) (st : fetch_state) (self : pyobj) (w : world),
    1 <= container_size st ->
    (Z.to_nat (T - container_start st) < fuel)%nat ->
    exists out,
      fetch_loop fuel ekey cls maxresults params kwargs offset st self w
      = Some out
      /\ (List.length (w_queries (world_of out))
          <= List.length (w_queries w)
             + Z.to_nat (T - container_start st) + 1)%nat.
Proof.
  intros Hserver. induction fuel as [| fuel IH]; intros st self w Hsize Hfuel;
    [lia |].
  cbn [fetch_loop].
  destruct (fetch_turn_effect ekey cls maxresults params kwargs offset st
              self w) as [r Hturn].
  pose proof (fetch_turn_continues ekey cls maxresults params kwargs offset st)
    as Hnext.
  cbv zeta in Hnext. rewrite Hturn.
  assert (Hone : List.length (w_queries (record_query w
                   (page_request ekey params (container_start st)
                      (container_size st))))
                 = S (List.length (w_queries w))).
  { unfold record_query. cbn [w_queries]. rewrite length_app. simpl. lia. }
  destruct r as [[st' | res] | e].
  - destruct (Hnext st' self w) as
      (data & sub & total & Hq & Hsub & Htotal & Hstart & Hle & _ & Hpos).
    { now rewrite Hturn. }
    assert (HT : total <= T).
    { destruct (Hserver _ _ _ Hq) as (Hcast & _ & Hkids).
      assert (Hbound : forall z,
                as_number (reported_total data) = Some z -> z <= T).
      { destruct Hcast as [-> | (t & -> & Ht)];
          [discriminate | now intros z [= <-]]. }
      apply (response_total_bound data sub T total Hbound); [| exact Htotal].
      apply findItems_length in Hsub. lia. }
    destruct (IH st' self (record_query w (page_request ekey params
                (container_start st) (container_size st))))
      as (out & Hout & Hcount); [auto | lia |].
    exists out. split; [exact Hout |]. rewrite Hone in Hcount. lia.
  - eexists. split; [reflexivity |]. unfold world_of. cbn [snd].
    rewrite Hone. lia.
  - eexists. split; [reflexivity |]. unfold world_of. cbn [snd].
    rewrite Hone. lia.
Qed.

(** X12.  [fetchItems] terminates on a server whose responses are well
    formed: when every response reports its sizes as integers, none
    reports a total above [T] or has more than [T] elements, the page
    size is positive and [maxresults], if given, is positive, the loop
    ends after at most [T - container_start + 1] requests (one, when the
    start is beyond [T]); every amount of fuel above that bound gives the
    same outcome. *)
Theorem fetchItems_terminates (T : Z) (ekey : pyval) (cls : option pyclass)
  (first size maxresults : option Z) (params : pyval)
  (kwargs : list (string * pyval)) (self : pyobj) (w : world) :
  bounded_server T ->
  0 < X_PLEX_CONTAINER_SIZE ->
  (forall z, size = Some z -> 0 <= z) ->
  (forall m, maxresults = Some m -> 1 <= m) ->
  let turns := Z.to_nat (T - default 0 first) in
  exists out,
    (forall fuel, (turns < fuel)%nat ->
       fetchItems fuel ekey cls first size maxresults params kwargs self w
       = Some out)
    /\ (List.length (w_queries (world_of out))
        <= List.length (w_queries w) + turns + 1)%nat.
Proof.
  intros Hserver Hdefault Hsize Hmax turns. unfold fetchItems.
  destruct (is_none ekey).
  { eexists. split; [reflexivity |]. unfold world_of. cbn [snd]. lia. }
  match goal with
  | |- context [new_container ?d ?k self w] =>
      rewrite (pure_new_container d k self w);
      destruct (result_of (new_container d k self w)) as [res | e]
  end.
  2:{ eexists. split; [reflexivity |]. unfold world_of. cbn [snd]. lia. }
  match goal with
  | |- context [fetch_loop _ ?k _ _ _ _ ?o ?st self w] =>
      destruct (fetch_loop_terminates T k cls maxresults params kwargs o
                  Hserver (S turns) st self w) as (out & Hout & Hcount)
  end.
  - cbn [container_size].
    assert (1 <= match size with
                 | Some z => if z =? 0 then X_PLEX_CONTAINER_SIZE else z
                 | None => X_PLEX_CONTAINER_SIZE
                 end).
    { destruct size as [z |]; [| lia].
      specialize (Hsize z eq_refl). destruct (Z.eqb_spec z 0); lia. }
    destruct maxresults as [m |]; [specialize (Hmax m eq_refl); lia | lia].
  - cbn [container_start]. subst turns.
    destruct first; simpl; lia.
  - exists out. split.
    + intros fuel Hfuel.
      replace fuel with (S turns + (fuel - S turns))%nat by lia.
      now apply fetch_loop_more_fuel.
    + cbn [container_start] in Hcount. subst turns.
      destruct first; simpl in *; lia.
Qed.

End Termination.

Section SinglePage.
Context `{Imports} `{PlexServer} `{PlexRegistry}.

Variables (self : pyobj) (w : world) (path : string).
Variables (cls : option pyclass) (params : pyval).
Variable kwargs : list (string * pyval).
Variables (first size total : Z) (page : Element) (sub : iterable).

Let ekey := VStr path.
Let rq := page_request ekey params first size.
Let field (name : string) : pyval :=
  utils_cast_int (of_opt_str (attrib_get (attrib page) name)).

Hypothesis Hpath : path <> "".
Hypothesis Hsize : size <> 0.
Hypothesis Hcast_none : utils_cast_int VNone = VNone.
Hypothesis Hquery : server_query (w_queries w) rq = Ok page.
Hypothesis Htag : tag page = "MediaContainer".
Hypothesis Hsize_int : int_or_none (field "size").
Hypothesis Hoffset_int : int_or_none (field "offset").
Hypothesis Hfind :
  result_of (findItems page cls ekey kwargs self (record_query w rq)) = Ok sub.
Hypothesis Htotal : response_total page sub = VInt total.
Hypothesis Hlast : total < first + size.

Lemma single_page_run :
  exists res,
    (forall fuel,
       fetchItems (S fuel) ekey cls (Some first) (Some size) None params
         kwargs self w
       = Some (Ok res, self, record_query w rq))
    /\ mc_list res = items_of (tag_section page sub)
    /\ ob_dict (mc_self res) !! "totalSize" = Some (field "totalSize").
Proof.
  destruct (findItems_container page cls ekey kwargs self _ sub Htag Hfind)
    as (c & Hsub & Hbuilt).
  destruct (tag_section_container page c) as (l & Htagged & Hlen).
  pose proof (empty_results_built ekey) as Hbuilt0.
  set (res0 := empty_results ekey) in *.
  destruct (extend_container_merges res0
              {| mc_list := l; mc_self := mc_self c |}
              VNone VNone VNone (field "size") (field "totalSize")
              (field "offset"))
    as (m & Hext & Hlist & _ & _ & _ & Htot & _).
  { rewrite (proj1 Hbuilt0). apply container_data_MediaContainer. }
  { cbn [mc_self]. rewrite (proj1 Hbuilt). apply container_data_MediaContainer. }
  { rewrite (built_from_field _ _ "size" Hbuilt0) by (simpl; tauto).
    simpl. now rewrite Hcast_none. }
  { rewrite (built_from_field _ _ "totalSize" Hbuilt0) by (simpl; tauto).
    simpl. now rewrite Hcast_none. }
  { rewrite (built_from_field _ _ "offset" Hbuilt0) by (simpl; tauto).
    simpl. now rewrite Hcast_none. }
  { cbn [mc_self]. apply built_from_field; [exact Hbuilt | simpl; tauto]. }
  { cbn [mc_self]. apply built_from_field; [exact Hbuilt | simpl; tauto]. }
  { cbn [mc_self]. apply built_from_field; [exact Hbuilt | simpl; tauto]. }
  { now left. } { exact Hsize_int. } { now left. } { exact Hoffset_int. }
  cbn [mc_list mc_self] in *.
  exists m. split; [| split].
  - intros fuel. unfold fetchItems. change (is_none ekey) with false.
    cbv beta iota.
    rewrite new_container_empty.
    2: { subst ekey. simpl. now destruct path. }
    fold res0. cbv beta iota zeta.
    rewrite (proj2 (Z.eqb_neq size 0) Hsize).
    unfold fetch_loop; fold fetch_loop.
    rewrite (fetch_turn_page ekey params cls kwargs first
               {| container_start := first; container_size := size;
                  results := res0 |}
               self w page sub total m);
      cbn [container_start container_size results];
      [| exact Hquery | exact Hfind | exact Htotal
       | now rewrite Hsub, Htagged].
    rewrite (proj2 (Z.gtb_lt (first + size) total)) by lia.
    reflexivity.
  - rewrite Hlist. subst res0. cbn [mc_list empty_results app].
    now rewrite Hsub, Htagged.
  - rewrite Htot. now destruct (is_none (field "totalSize")) eqn:E;
      [destruct (field "totalSize"); try discriminate |].
Qed.


End SinglePage.

Section FirstItem.
Context `{Imports} `{PlexServer} `{PlexRegistry}.

(** The first page [fetchItems] asks for, without [maxresults]. *)
Lemma fetchItems_first_page (fuel : nat) (ekey : pyval)
  (cls : option pyclass) (container_start container_size : option Z)
  (params : pyval) (kwargs : list (string * pyval)) (self : pyobj)
  (w : world) :
  let first := default 0 container_start in
  let size :=
    match container_size with
    | Some z => if z =? 0 then X_PLEX_CONTAINER_SIZE else z
    | None => X_PLEX_CONTAINER_SIZE
    end in
  size <> 0 ->
  fetchItems fuel ekey cls container_start container_size None params kwargs
    self w
  = fetchItems fuel ekey cls (Some first) (Some size) None params kwargs
      self w.
Proof.
  intros first size Hsize. unfold fetchItems.
  rewrite (proj2 (Z.eqb_neq size 0) Hsize).
  subst first size. now destruct container_start.
Qed.


End FirstItem.

Section Requests.
Context `{Imports} `{PlexServer} `{PlexRegistry}.

(** [",".join(str(key) for key in ids)] *)
Lemma join_keys_ints (ids : list Z) :
  join_keys (map VInt ids) = Some (String.concat "," (map str_of_Z ids)).
Proof.
  induction ids as [| id ids IH]; [reflexivity |].
  cbn [map join_keys key_str]. rewrite IH.
  destruct ids; reflexivity.
Qed.

Lemma fetch_loop_requests (ekey : pyval) (cls : option pyclass)
  (maxresults : option Z) (params : pyval) (kwargs : list (string * pyval))
  (offset : Z) (fuel : nat) :
  forall st self w out,
    fetch_loop fuel ekey cls maxresults params kwargs offset st self w
    = Some out ->
    self_of out = self
    /\ w_edits (world_of out) = w_edits w
    /\ exists rq rqs,
         w_queries (world_of out) = (w_queries w ++ rq :: rqs)%list
         /\ List.Forall (fun rq => rq_key rq = ekey /\ rq_params rq = params)
              (rq :: rqs).
Proof.
  induction fuel as [| fuel IH]; intros st self w out; [discriminate |].
  cbn [fetch_loop].
  destruct (fetch_turn_effect ekey cls maxresults params kwargs offset st
              self w) as [r ->].
  set (rq := page_request ekey params (container_start st) (container_size st)).
  destruct r as [[st' | res] | e].
  - intros Hrun. apply IH in Hrun as (Hself & Hedits & rq' & rqs & Hq & Hall).
    split; [exact Hself |]. split; [exact Hedits |].
    exists rq, (rq' :: rqs). split.
    + rewrite Hq. unfold record_query. cbn [w_queries].
      now rewrite <- app_assoc.
    + constructor; [now split | exact Hall].
  - intros [= <-]. unfold self_of, world_of. cbn [fst snd].
    split; [reflexivity |]. split; [reflexivity |].
    exists rq, []. split; [reflexivity |]. constructor; [now split | constructor].
  - intros [= <-]. unfold self_of, world_of. cbn [fst snd].
    split; [reflexivity |]. split; [reflexivity |].
    exists rq, []. split; [reflexivity |]. constructor; [now split | constructor].
Qed.

(** X14.  Called with a list of ints, [fetchItems] asks for
    [/library/metadata/<id1,id2,...>]: whenever it returns, it has made
    at least one request, every request it made has this key and the
    given [params], and it has changed neither the caller nor the edits
    of the world. *)
Theorem fetchItems_by_ids (fuel : nat) (ids : list Z) (cls : option pyclass)
  (first size maxresults : option Z) (params : pyval)
  (kwargs : list (string * pyval)) (self : pyobj) (w : world)
  (out : result MediaContainer * pyobj * world) :
  fetchItems fuel (VList (map VInt ids)) cls first size maxresults params
    kwargs self w = Some out ->
  self_of out = self
  /\ w_edits (world_of out) = w_edits w
  /\ exists rq rqs,
       w_queries (world_of out) = (w_queries w ++ rq :: rqs)%list
       /\ List.Forall
            (fun rq =>
               rq_key rq
               = VStr ("/library/metadata/"
                       +:+ String.concat "," (map str_of_Z ids))
               /\ rq_params rq = params)
            (rq :: rqs).
Proof.
  unfold fetchItems. change (is_none (VList (map VInt ids))) with false.
  cbv beta iota. rewrite join_keys_ints.
  rewrite new_container_empty by reflexivity.
  apply fetch_loop_requests.
Qed.

End Requests.

(** ** Listing attribute values *)

Section Listing.
Context `{Imports}.

(** The path has a value on the element. *)
Definition has_value (elem : Element) (attr : string) : bool :=
  match _getAttrValue elem attr with
  | [] => false
  | _ => true
  end.

Lemma kw_set_again (key : string) (value : pyval) :
  kw_set [(key, value)] key value = [(key, value)].
Proof. simpl. now rewrite String.eqb_refl. Qed.

Lemma listAttrs_loop_exists (attr : string) (elems : list Element) :
  forall results,
  listAttrs_loop elems attr [(attr +:+ "__exists", VBool true)] results
  = Ok (results
        ++ map (fun c => of_opt_str (attrib_get (attrib c) attr))
             (List.filter (fun c => has_value c attr) elems))%list.
Proof.
  induction elems as [| elem elems IH]; intros results.
  - simpl. now rewrite app_nil_r.
  - cbn [listAttrs_loop]. rewrite kw_set_again.
    rewrite checkAttrs_exists_key. cbn [rbind truthy andb].
    rewrite IH. cbn [List.filter]. fold (has_value elem attr).
    destruct (has_value elem attr); [| reflexivity].
    cbn [map]. now rewrite <- app_assoc.
Qed.

(** X15.  [listAttrs(data, attr)] without further filters returns one
    entry for every child of [data] on which the path [attr] has a value,
    in document order; the entry is [elem.attrib.get(attr)], looked up
    with the exact name.  So an entry is [None] exactly for a child
    whose value was found another way: under a name that differs from
    [attr] in case, as the tag ([etag]) or down a path of child tags. *)
Theorem listAttrs_values (data : Element) (attr : string) :
  let listed := List.filter (fun c => has_value c attr) (children data) in
  listAttrs data attr []
  = Ok (map (fun c => of_opt_str (attrib_get (attrib c) attr)) listed)
  /\ (In VNone (map (fun c => of_opt_str (attrib_get (attrib c) attr)) listed)
      <-> exists c, In c (children data)
                    /\ has_value c attr = true
                    /\ attrib_get (attrib c) attr = None).
Proof.
  intros listed. split.
  - unfold listAttrs. subst listed.
    destruct (children data) as [| elem elems]; [reflexivity |].
    cbn [listAttrs_loop kw_set].
    rewrite checkAttrs_exists_key. cbn [rbind truthy andb].
    rewrite listAttrs_loop_exists. cbn [List.filter].
    fold (has_value elem attr).
    destruct (has_value elem attr); reflexivity.
  - subst listed. rewrite in_map_iff. split.
    + intros (c & Hnone & Hin). apply filter_In in Hin as [Hin Hval].
      exists c. split; [exact Hin |]. split; [exact Hval |].
      now destruct (attrib_get (attrib c) attr).
    + intros (c & Hin & Hval & Hnone). exists c. split.
      * now rewrite Hnone.
      * apply filter_In. now split.
Qed.

End Listing.

(** ** Loading a matching element *)

Section FindAndLoad.
Context `{Imports} `{PlexServer} `{Builtins}.

(** The element passes the filter. *)
Definition passes (kwargs : list (string * pyval)) (elem : Element) : bool :=
  match _checkAttrs elem kwargs with
  | Ok true => true
  | _ => false
  end.

Lemma invalidateCacheAndLoadData_data (self : pyobj) (data : Element)
  (f : loader) :
  class_loadData (ob_class self) = Some f ->
  plain_private (ob_class self) "_data" ->
  exists self',
    _invalidateCacheAndLoadData self data = (Ok tt, self')
    /\ ob_class self' = ob_class self
    /\ ob_dict self' !! "_data" = Some (VElem data).
Proof.
  intros Hf (_ & Hcached & Hload).
  rewrite (invalidateCacheAndLoadData_unfold self data f Hf).
  eexists. split; [reflexivity |]. cbv zeta.
  set (self1 := __setattr__ self "_data" (VElem data)).
  assert (Hset : ob_class self1 = ob_class self
                 /\ ob_dict self1 !! "_data" = Some (VElem data)).
  { subst self1. rewrite setattr_class, setattr_private by reflexivity.
    simpl. now rewrite lookup_insert_eq. }
  destruct Hset as [Hc1 Hd1].
  rewrite assign_all_class, assign_all_lookup_notin by (now apply (Hload f)).
  destruct (is_other_object _ data).
  - rewrite invalidate_class, invalidate_lookup, Hc1.
    now rewrite bool_decide_eq_false_2 by exact Hcached.
  - now split.
Qed.

Lemma findAndLoad_loop_last (kwargs : list (string * pyval)) (f : loader)
  (elems : list Element) :
  forall self,
    class_loadData (ob_class self) = Some f ->
    plain_private (ob_class self) "_data" ->
    (forall e, In e elems -> exists b, _checkAttrs e kwargs = Ok b) ->
    exists self',
      findAndLoad_loop elems kwargs self = (Ok tt, self')
      /\ ob_class self' = ob_class self
      /\ match last (List.filter (passes kwargs) elems) with
         | None => self' = self
         | Some e => ob_dict self' !! "_data" = Some (VElem e)
         end.
Proof.
  induction elems as [| elem elems IH]; intros self Hf Hplain Hok.
  - exists self. now split.
  - cbn [findAndLoad_loop List.filter]. unfold passes at 1.
    destruct (Hok elem (or_introl eq_refl)) as [b ->].
    assert (Hrest : forall e, In e elems -> exists b, _checkAttrs e kwargs = Ok b)
      by (intros e He; apply Hok; now right).
    destruct b.
    + destruct (invalidateCacheAndLoadData_data self elem f Hf Hplain)
        as (self1 & -> & Hc1 & Hd1).
      destruct (IH self1) as (self' & Hrun & Hc' & Hlast);
        [now rewrite Hc1 | now rewrite Hc1 | exact Hrest |].
      exists self'. split; [exact Hrun |]. split; [congruence |].
      destruct (List.filter (passes kwargs) elems) as [| e es] eqn:Hfilter.
      * simpl in *. now subst self'.
      * rewrite last_cons. cbn [last] in Hlast.
        destruct (last (e :: es)) eqn:Hl; [exact Hlast |].
        now apply last_None in Hl.
    + apply IH; assumption.
Qed.

(** X16.  [_findAndLoadElem] loads every child of [data] that passes the
    filter, one after the other, so the object ends with the data of the
    last child that passes (not of the first); when no child passes, the
    object is as before.  It makes no request.  (The filter raises on no
    child; the class has a [_loadData] and keeps [_data] as plain private
    data.) *)
Theorem findAndLoadElem_last_match (data : Element)
  (kwargs : list (string * pyval)) (self : pyobj) (w : world) (f : loader) :
  class_loadData (ob_class self) = Some f ->
  plain_private (ob_class self) "_data" ->
  (forall e, In e (children data) -> exists b, _checkAttrs e kwargs = Ok b) ->
  let out := _findAndLoadElem data kwargs self w in
  result_of out = Ok tt /\ world_of out = w
  /\ match last (List.filter (passes kwargs) (children data)) with
     | None => self_of out = self
     | Some e => ob_dict (self_of out) !! "_data" = Some (VElem e)
     end.
Proof.
  intros Hf Hplain Hok out. subst out. unfold _findAndLoadElem.
  destruct (findAndLoad_loop_last kwargs f (children data) self Hf Hplain Hok)
    as (self' & -> & _ & Hlast).
  unfold result_of, world_of, self_of. cbn [fst snd]. auto.
Qed.

Lemma findAndLoad_loop_none (kwargs : list (string * pyval))
  (elems : list Element) (self : pyobj) :
  (forall e, In e elems -> _checkAttrs e kwargs = Ok false) ->
  findAndLoad_loop elems kwargs self = (Ok tt, self).
Proof.
  induction elems as [| elem elems IH]; intros Hnone; [reflexivity |].
  cbn [findAndLoad_loop]. rewrite (Hnone elem) by now left.
  apply IH. intros e He. apply Hnone. now right.
Qed.

(** A filter on one attribute with a string that is not empty. *)
Lemma checkAttrs_exact_string (elem : Element) (attr s : string) :
  find_operator OPERATORS attr = None ->
  s <> "" ->
  ~ In (VStr s) (_getAttrValue elem attr) ->
  _checkAttrs elem [(attr, VStr s)] = Ok false.
Proof.
  intros Hop Hs Hnot. unfold _checkAttrs. cbn [checkAttrs_loop].
  unfold _getAttrOperator. rewrite Hop.
  change (String.eqb "exact" "exact") with true.
  assert (Hmiss : is_missing_query (VStr s) = false).
  { unfold is_missing_query. simpl. destruct s; [congruence | reflexivity]. }
  rewrite Hmiss, andb_false_r.
  assert (Hnone : any_value_matches "exact" op_exact (VStr s)
                    (_getAttrValue elem attr) = Ok false).
  { pose proof (getAttrValue_strings elem attr) as Hstr.
    induction (_getAttrValue elem attr) as [| v vs IH]; [reflexivity |].
    simpl in Hstr. apply andb_true_iff in Hstr as [Hv Hvs].
    destruct v as [| | | t | | |]; try discriminate.
    cbn [any_value_matches]. unfold _castAttrValue, op_exact.
    change (String.eqb "exact" "exists") with false. cbn [rbind py_eq].
    destruct (String.eqb_spec t s) as [-> | Hne].
    - exfalso. apply Hnot. now left.
    - apply IH; [| exact Hvs]. intros Hin. apply Hnot. now right. }
  rewrite Hnone. cbn [rbind]. now rewrite all_values_singleton.
Qed.

(** X17.  [PlexSession._reload()] asks for [_initpath] once; when no
    element of the answer has the session key of the object among the
    values of its [sessionKey] attribute (the session is no longer
    active), the object is returned as it is. *)
Theorem session_reload_inactive (self : pyobj) (w : world)
  (key sessionKey : pyval) (data : Element) :
  attr_read self "_initpath" = Ok key ->
  server_query (w_queries w) (reload_request key) = Ok data ->
  object_getattribute self "sessionKey" = (Ok sessionKey, self) ->
  absent sessionKey = false ->
  py_str sessionKey <> "" ->
  (forall e, In e (children data) ->
     ~ In (VStr (py_str sessionKey)) (_getAttrValue e "sessionKey")) ->
  PlexSession_reload self w
  = (Ok tt, self, record_query w (reload_request key)).
Proof.
  intros Hkey Hquery Hsession Hpresent Hstr Hgone.
  unfold PlexSession_reload.
  unfold bind at 1, read at 1. rewrite Hkey. cbv beta iota.
  unfold bind at 1, query at 1. fold (reload_request key).
  rewrite Hquery. cbv beta iota.
  unfold bind.
  rewrite (getattribute_present self self _ "sessionKey" sessionKey
             Hsession Hpresent).
  unfold _findAndLoadElem.
  rewrite findAndLoad_loop_none; [reflexivity |].
  intros e He. apply checkAttrs_exact_string; auto.
Qed.

End FindAndLoad.

(** ** Display *)

Section FirstAttr.
Context `{Imports} `{PlexServer} `{Builtins}.

(** The class computes nothing into the instance for the name. *)
Definition not_cached (cls : pyclass) (name : string) : Prop :=
  match class_lookup cls name with
  | Some (CachedDataProperty _) => False
  | _ => True
  end.

(** The first of the names that the object has with a value other than
    [None]. *)
Fixpoint first_set (self : pyobj) (attrs : list string) : pyval :=
  match attrs with
  | [] => VNone
  | attr :: attrs' =>
      match attr_read self attr with
      | Ok value => if negb (is_none value) then value
                    else first_set self attrs'
      | Raise _ => first_set self attrs'
      end
  end.

Lemma object_getattribute_not_cached (self : pyobj) (attr : string) :
  not_cached (ob_class self) attr ->
  object_getattribute self attr = (attr_read self attr, self).
Proof.
  unfold not_cached, attr_read, object_getattribute.
  destruct (class_lookup (ob_class self) attr) as [[v | f | f] |];
    destruct (ob_dict self !! attr); simpl; tauto.
Qed.

Lemma attr_read_AttributeError (self : pyobj) (attr : string) (e : exn) :
  attr_read self attr = Raise e -> e = AttributeError.
Proof.
  unfold attr_read, object_getattribute.
  destruct (class_lookup (ob_class self) attr) as [[v | f | f] |];
    destruct (ob_dict self !! attr); simpl; congruence.
Qed.

(** On a full object an access returns what the lookup finds. *)
Lemma getattribute_full (self : pyobj) (w : world) (attr : string) :
  not_cached (ob_class self) attr ->
  result_of (isFullObject self w) = Ok true ->
  __getattribute__ attr self w = (attr_read self attr, self, w).
Proof.
  intros Hplain Hfull. unfold __getattribute__.
  unfold bind at 1. unfold super_getattribute at 1.
  rewrite (object_getattribute_not_cached self attr Hplain).
  destruct (attr_read self attr) as [value | e]; [| reflexivity].
  cbv beta iota.
  destruct (bool_decide (attr ∈ _DONT_RELOAD_FOR_KEYS)); [reflexivity |].
  unfold bind at 1. unfold the_world at 1. cbv beta iota.
  destruct (bool_decide (attr ∈ USER_DONT_RELOAD_FOR_KEYS w)); [reflexivity |].
  destruct (PyStr.startswith attr "_"); [reflexivity |].
  destruct (negb (py_in_list value [VNone; VList []])); [reflexivity |].
  rewrite (bind_pure _ _ self w pure_isFullObject). now rewrite Hfull.
Qed.

(** X18.  On a full object [firstAttr] makes no request and changes
    nothing: it returns the value of the first listed name that the
    object has with a value other than [None], and [None] when there is
    none; names the object does not have are passed over.  (None of the
    names is a cached property.) *)
Theorem firstAttr_full (attrs : list string) (self : pyobj) (w : world) :
  result_of (isFullObject self w) = Ok true ->
  (forall attr, In attr attrs -> not_cached (ob_class self) attr) ->
  firstAttr attrs self w = (Ok (first_set self attrs), self, w).
Proof.
  intros Hfull. induction attrs as [| attr attrs IH]; intros Hplain.
  - reflexivity.
  - cbn [firstAttr first_set]. unfold bind, getattr_or_none.
    rewrite (getattribute_full self w attr) by (auto using in_eq).
    assert (Hrest : firstAttr attrs self w = (Ok (first_set self attrs), self, w))
      by (apply IH; intros a Ha; apply Hplain; now right).
    destruct (attr_read self attr) as [value | e] eqn:Hread.
    + destruct (negb (is_none value)); [reflexivity | exact Hrest].
    + apply attr_read_AttributeError in Hread as ->. exact Hrest.
Qed.

End FirstAttr.

Section Clean.
Context `{Builtins}.

(** The string has no blank. *)
Fixpoint no_blank (s : string) : bool :=
  match s with
  | EmptyString => true
  | String c s' => negb (Ascii.eqb c " ") && no_blank s'
  end.

Lemma replace_blank (s : string) : no_blank (replace " " "-" s) = true.
Proof.
  unfold replace. induction s as [| c s IH]; [reflexivity |].
  cbn [replace_from String.prefix String.length Nat.sub].
  destruct (ascii_dec " " c) as [<- | Hc].
  - destruct s; exact IH.
  - cbn [no_blank]. rewrite IH, andb_true_r.
    apply negb_true_iff, Ascii.eqb_neq. congruence.
Qed.

Lemma take_chars_no_blank (s : string) :
  forall n, no_blank s = true -> no_blank (take_chars n s) = true.
Proof.
  induction s as [| c s IH]; intros n Hs; [reflexivity |].
  simpl in Hs. apply andb_true_iff in Hs as [Hc Hs].
  cbn [take_chars]. destruct (is_continuation c).
  - cbn [no_blank]. now rewrite Hc, (IH n Hs).
  - destruct n as [| n]; [reflexivity |]. cbn [no_blank].
    now rewrite Hc, (IH n Hs).
Qed.

Lemma take_chars_length_le (s : string) :
  forall n, (char_length (take_chars n s) <= n)%nat.
Proof.
  induction s as [| c s IH]; intros n; [simpl; lia |].
  cbn [take_chars]. destruct (is_continuation c) eqn:Hc.
  - cbn [char_length]. rewrite Hc. apply IH.
  - destruct n as [| n]; [simpl; lia |]. cbn [char_length]. rewrite Hc.
    specialize (IH n). lia.
Qed.

(** X19.  [_clean] returns [None] for a false value ([None], the empty
    string, [0]); for any other value it returns a string of at most 20
    characters without a blank. *)
Theorem clean_short (value : pyval) :
  match _clean value with
  | VStr s => truthy value = true
              /\ (char_length s <= 20)%nat /\ no_blank s = true
  | VNone => truthy value = false
  | _ => False
  end.
Proof.
  unfold _clean. destruct (truthy value); [| reflexivity].
  split; [reflexivity |]. split.
  - apply take_chars_length_le.
  - apply take_chars_no_blank, replace_blank.
Qed.

End Clean.

(** ** Construction *)

Section Constructor.
Context `{Imports} `{PlexServer}.

Lemma init_private_entries (cls : pyclass) (data : option Element)
  (path : pyval) :
  let self0 := init_private {| ob_class := cls; ob_dict := ∅ |} data path in
  ob_class self0 = cls
  /\ ob_dict self0 !! "_data"
     = Some match data with Some d => VElem d | None => VNone end
  /\ ob_dict self0 !! "_initpath" = Some path
  /\ ob_dict self0 !! "_overwriteNone" = Some (VBool true)
  /\ ob_dict self0 !! "_autoReload" = Some config_autoreload
  /\ ob_dict self0 !! "_edits" = Some VNone.
Proof.
  cbv zeta. unfold init_private.
  repeat split;
    rewrite ?setattr_class, ?setattr_lookup_ne by discriminate;
    try reflexivity;
    rewrite setattr_private by reflexivity; simpl;
    now rewrite lookup_insert_eq.
Qed.

(** X20.  A construction that succeeds makes no request and leaves the
    private state [__init__] describes: [_data] is the node, [_initpath]
    the given path (when it is true), [_overwriteNone] is [True],
    [_autoReload] the configured value, [_edits] is [None] and
    [_details_key] is set.  (The [_loadData] of the class assigns public
    names only.) *)
Theorem new_initial_state (cls : pyclass) (data : option Element)
  (initpath : pyval) (w : world) :
  result_of (new cls data initpath w) = Ok tt ->
  truthy initpath = true ->
  (forall d f name,
      data = Some d -> class_loadData cls = Some f ->
      In name (names (f d)) -> PyStr.startswith name "_" = false) ->
  let self := self_of (new cls data initpath w) in
  world_of (new cls data initpath w) = w
  /\ ob_class self = cls
  /\ ob_dict self !! "_data"
     = Some match data with Some d => VElem d | None => VNone end
  /\ ob_dict self !! "_initpath" = Some initpath
  /\ ob_dict self !! "_overwriteNone" = Some (VBool true)
  /\ ob_dict self !! "_autoReload" = Some config_autoreload
  /\ ob_dict self !! "_edits" = Some VNone
  /\ is_Some (ob_dict self !! "_details_key").
Proof.
  intros Hok Hpath Hpublic self. subst self.
  pose proof (new_unfold cls data initpath w) as Hnew. cbv zeta in Hnew.
  rewrite Hpath in Hnew.
  destruct (init_private_entries cls data initpath)
    as (Hc0 & Hd0 & Hi0 & Ho0 & Ha0 & He0).
  cbv zeta in Hc0, Hd0, Hi0, Ho0, Ha0, He0.
  set (self0 := init_private {| ob_class := cls; ob_dict := ∅ |} data initpath)
    in *.
  assert (Hloaded : exists self1,
            match data with
            | Some d => _loadData self0 d
            | None => Ok self0
            end = Ok self1
            /\ ob_class self1 = cls
            /\ forall name, PyStr.startswith name "_" = true ->
                 ob_dict self1 !! name = ob_dict self0 !! name).
  { destruct data as [d |]; [| exists self0; auto].
    unfold _loadData. rewrite Hc0.
    destruct (class_loadData cls) as [f |] eqn:Hf.
    - eexists. split; [reflexivity |].
      split; [now rewrite assign_all_class |].
      intros name Hprivate. apply assign_all_lookup_notin.
      intros Hin. specialize (Hpublic d f name eq_refl eq_refl Hin).
      congruence.
    - rewrite Hnew in Hok. unfold _loadData in Hok.
      rewrite Hc0, Hf in Hok. discriminate Hok. }
  destruct Hloaded as (self1 & Hload & Hc1 & Hkeep).
  rewrite Hload in Hnew.
  destruct (result_of (_buildDetailsKey ∅ self1 w)) as [dk | e];
    rewrite Hnew in Hok |- *; [| discriminate Hok].
  unfold world_of, self_of. cbn [fst snd].
  rewrite setattr_class, !setattr_lookup_ne by discriminate.
  rewrite !Hkeep by reflexivity.
  repeat split; try assumption.
  rewrite setattr_private by reflexivity. simpl.
  rewrite lookup_insert_eq. eauto.
Qed.

End Constructor.

Section Containers.
Context `{Imports} `{PlexServer} `{PlexRegistry}.

Lemma new_container_ok (data : Element) (initpath : pyval) (self : pyobj)
  (w : world) :
  exists c, new_container data initpath self w = (Ok c, self, w).
Proof.
  rewrite (pure_new_container data initpath self w).
  enough (Hok : exists c, result_of (new_container data initpath self w) = Ok c)
    by (destruct Hok as [c ->]; eauto).
  unfold new_container. rewrite result_bind_pure by apply pure_construct.
  unfold construct, result_of. rewrite new_unfold. cbv zeta.
  set (blank := {| ob_class := MediaContainer_class; ob_dict := ∅ |}).
  assert (Hpath : exists path,
            (if truthy initpath then Ok initpath
             else attr_read (__setattr__ blank "_data" (VElem data)) "key")
            = Ok path).
  { destruct (truthy initpath); [eauto |]. exists VNone.
    unfold attr_read, object_getattribute. rewrite setattr_class.
    rewrite setattr_lookup_ne by discriminate. reflexivity. }
  destruct Hpath as [path ->].
  set (self0 := init_private blank (Some data) path).
  assert (Hcls0 : ob_class self0 = MediaContainer_class)
    by apply init_private_class.
  unfold _loadData. rewrite Hcls0.
  change (class_loadData MediaContainer_class)
    with (Some MediaContainer_loadData).
  cbv beta iota.
  set (self1 := assign_all self0 _).
  assert (Hkey : attr_read self1 "key" = Ok VNone).
  { unfold attr_read, object_getattribute.
    assert (Hcls : ob_class self1 = MediaContainer_class)
      by (subst self1; now rewrite assign_all_class).
    rewrite Hcls.
    assert (Hnokey : ob_dict self1 !! "key" = None).
    { subst self1. rewrite assign_all_lookup_notin.
      - apply init_private_fresh. reflexivity.
      - simpl. intuition discriminate. }
    now rewrite Hnokey. }
  rewrite (buildDetailsKey_without_key self1 w ∅ VNone Hkey eq_refl).
  cbn [fst snd]. eauto.
Qed.

(** X21.  The construction of a [MediaContainer] from a node never
    fails and makes no request: the container is empty, and each of its
    eleven attributes is the attribute of the node, cast where
    [_loadData] casts it, [None] where the node lacks it. *)
Theorem new_container_fields (data : Element) (initpath : pyval)
  (self : pyobj) (w : world) :
  exists c,
    new_container data initpath self w = (Ok c, self, w)
    /\ mc_list c = []
    /\ ob_class (mc_self c) = MediaContainer_class
    /\ forall name value,
         In (name, value) (MediaContainer_loadData data) ->
         ob_dict (mc_self c) !! name = Some value.
Proof.
  destruct (new_container_ok data initpath self w) as [c Hc].
  exists c. split; [exact Hc |].
  destruct (new_container_built data initpath self w c) as (Hempty & Hcls & Hall).
  { now rewrite Hc. }
  auto.
Qed.

(** X22.  [_buildItemOrNone] without a class returns [None], and changes
    nothing, for an element whose tag and type the registry does not
    know; the registry is asked for [Tag.type] (the tag alone when the
    element has no type), with [.session] added on the path
    [/status/sessions] and [.history] on the paths under
    [/status/sessions/history]. *)
Theorem buildItemOrNone_unknown (elem : Element) (path : string)
  (self : pyobj) (w : world) :
  path <> "" ->
  let ehash :=
    match element_type elem with
    | Some (String c t) => tag elem +:+ "." +:+ String c t
    | _ => tag elem
    end in
  let ehash :=
    if String.eqb path "/status/sessions" then ehash +:+ ".session"
    else if PyStr.startswith path "/status/sessions/history"
         then ehash +:+ ".history"
         else ehash in
  utils_getPlexObject ehash (tag elem) = None ->
  _buildItemOrNone elem None (VStr path) self w = (Ok None, self, w).
Proof.
  intros Hpath ehash0 ehash Hunknown.
  unfold _buildItemOrNone, _buildItem.
  assert (Htrue : truthy (VStr path) = true).
  { simpl. destruct path; [congruence | reflexivity]. }
  rewrite Htrue. unfold bind at 1, ret at 1. cbv beta iota.
  fold ehash0. cbn [py_eq]. subst ehash.
  destruct (String.eqb path "/status/sessions").
  - unfold bind, ret. now rewrite Hunknown.
  - destruct (PyStr.startswith path "/status/sessions/history");
      unfold bind, ret; now rewrite Hunknown.
Qed.

End Containers.

(** ** The first item found *)

Section FindFirst.
Context `{Imports} `{PlexServer} `{PlexRegistry}.

(** The item [findItems] builds from a child: the child passes the
    filter and a class is found for it. *)
Definition built_item (cls : option pyclass) (initpath : pyval)
  (kwargs : list (string * pyval)) (self : pyobj) (w : world)
  (elem : Element) : option pyobj :=
  match _checkAttrs elem kwargs with
  | Ok true =>
      match result_of (_buildItemOrNone elem cls initpath self w) with
      | Ok (Some item) => Some item
      | _ => None
      end
  | _ => None
  end.

Lemma items_of_append (items : iterable) (item : pyobj) :
  items_of (append items item) = (items_of items ++ [item])%list.
Proof. now destruct items. Qed.

Lemma find_each_items (cls : option pyclass) (initpath : pyval)
  (kwargs : list (string * pyval)) (self : pyobj) (w : world)
  (elems : list Element) :
  (forall e, In e elems -> exists b, _checkAttrs e kwargs = Ok b) ->
  (forall e, In e elems -> _checkAttrs e kwargs = Ok true ->
     exists o, result_of (_buildItemOrNone e cls initpath self w) = Ok o) ->
  forall items, exists found,
    result_of (find_each elems cls initpath kwargs items self w) = Ok found
    /\ items_of found
       = (items_of items
          ++ omap (built_item cls initpath kwargs self w) elems)%list.
Proof.
  induction elems as [| elem elems IH]; intros Hcheck Hbuild items.
  - exists items. split; [reflexivity |]. simpl. now rewrite app_nil_r.
  - assert (IH' := IH (fun e He => Hcheck e (or_intror He))
                      (fun e He => Hbuild e (or_intror He))).
    clear IH. cbn [find_each omap list_omap].
    rewrite result_bind_pure by apply pure_lift. rewrite result_lift.
    set (rest := omap (built_item cls initpath kwargs self w) elems) in *.
    unfold built_item.
    destruct (Hcheck elem (or_introl eq_refl)) as [b Hb].
    pose proof (Hbuild elem (or_introl eq_refl)) as Hitem.
    rewrite Hb in *. destruct b; [| apply IH'].
    rewrite result_bind_pure by apply pure_buildItemOrNone.
    destruct (Hitem eq_refl) as [o ->].
    destruct o as [item |]; [| apply IH'].
    destruct (IH' (append items item)) as (found & Hrun & Hitems).
    exists found. split; [exact Hrun |].
    rewrite Hitems, items_of_append, <- app_assoc. reflexivity.
Qed.

Lemma new_container_no_items (data : Element) (initpath : pyval)
  (self : pyobj) (w : world) (c : MediaContainer) :
  result_of (new_container data initpath self w) = Ok c -> mc_list c = [].
Proof.
  unfold new_container.
  rewrite result_bind_pure by apply pure_construct.
  destruct (result_of (construct MediaContainer_class data initpath self w));
    [| discriminate].
  now intros [= <-].
Qed.


End FindFirst.

(** ** The theorems on the small installation *)

(** The movie class keeps its private attributes as plain data. *)
Lemma Movie_plain_private (name : string) :
  In name ["_details_key"; "_initpath"; "_data"] ->
  plain_private Example.Movie name.
Proof.
  intros Hname. split; [| split].
  - simpl in Hname. destruct Hname as [<- | [<- | [<- | []]]]; exact I.
  - simpl in Hname. destruct Hname as [<- | [<- | [<- | []]]];
      apply (bool_decide_unpack _); vm_compute; exact I.
  - intros f d Hf. injection Hf as <-. cbn [names map fst].
    simpl in Hname. destruct Hname as [<- | [<- | [<- | []]]];
      intros [E | [E | [E | [E | []]]]]; discriminate E.
Qed.

(** An option known to be [Some] is the [Some] of its value. *)
Lemma option_some_inv {A : Type} (o : option A) (d : A) :
  match o with Some _ => true | None => false end = true ->
  o = Some (match o with Some a => a | None => d end).
Proof. now destruct o. Qed.

(** X7, witness: the movie that was listed without a key. *)
Lemma reload_without_key_witness :
  reload (H := Example.imports) (H0 := Example.server)
    (H1 := Fixtures.builtins) VNone
    {[ "includeMarkers" := VBool false ]} Example.keyless_movie Example.world0
  = (Raise Unsupported, Example.keyless_movie, Example.world0).
Proof.
  apply (reload_without_key (H := Example.imports) (H0 := Example.server)
           (H1 := Fixtures.builtins)
           Example.keyless_movie Example.world0 VNone VNone VNone
           {[ "includeMarkers" := VBool false ]}
           ltac:(vm_compute; reflexivity)
           eq_refl ltac:(vm_compute; reflexivity) eq_refl
           ltac:(vm_compute; reflexivity) eq_refl).
Defined.

(** X8, witness: the listed movie after [reload()]. *)
Lemma reload_leaves_full_witness :
  let out := reload (H := Example.imports) (H0 := Example.server)
               (H1 := Fixtures.builtins) VNone ∅
               Example.listed_movie Example.world0 in
  isFullObject (H := Example.imports) (self_of out) (world_of out)
  = (Ok true, self_of out, world_of out)
  /\ isPartialObject (H := Example.imports) (self_of out) (world_of out)
     = (Ok false, self_of out, world_of out).
Proof.
  apply (reload_leaves_full (H := Example.imports) (H0 := Example.server)
           (H1 := Fixtures.builtins)
           Example.listed_movie Example.world0
           "/library/metadata/1?includeChapters=1&includeMarkers=1").
  - vm_compute. reflexivity.
  - apply Movie_plain_private. simpl. tauto.
  - apply Movie_plain_private. simpl. tauto.
  - change (ob_class Example.listed_movie) with Example.Movie.
    vm_compute. eauto.
  - vm_compute. reflexivity.
  - discriminate.
Defined.

(** X9, witness: the listed movie and a server that answers with an
    empty container; reading the summary raises [IndexError]. *)
Lemma getattribute_empty_response_witness :
  result_of
    (__getattribute__ (H := Example.imports)
       (H0 := Fixtures.constant_server (Ok Fixtures.no_element))
       "summary" Example.listed_movie Example.world0)
  = Raise IndexError.
Proof.
  destruct (getattribute_empty_response (H := Example.imports)
              (H0 := Fixtures.constant_server (Ok Fixtures.no_element))
              Example.listed_movie Example.listed_movie Example.world0
              "summary" VNone
              (VStr "/library/metadata/1?includeChapters=1&includeMarkers=1")
              (VBool true) Fixtures.no_element
              eq_refl eq_refl
              ltac:(apply (bool_decide_unpack _); vm_compute; exact I)
              ltac:(apply (bool_decide_unpack _); vm_compute; exact I)
              eq_refl
              ltac:(vm_compute; reflexivity) eq_refl eq_refl
              ltac:(vm_compute; reflexivity) eq_refl
              ltac:(vm_compute; reflexivity) eq_refl
              eq_refl eq_refl)
    as (Hrun & _).
  now rewrite Hrun.
Defined.

(** X10, witness: reading the summary of the listed movie asks the
    server. *)
Lemma getattribute_asks_only_if_witness :
  exists value self1 auto,
    object_getattribute Example.listed_movie "summary" = (Ok value, self1)
    /\ absent value = true
    /\ ("summary" ∉ _DONT_RELOAD_FOR_KEYS)
    /\ ("summary" ∉ USER_DONT_RELOAD_FOR_KEYS Example.world0)
    /\ PyStr.startswith "summary" "_" = false
    /\ result_of (isFullObject (H := Example.imports) self1 Example.world0)
       = Ok false
    /\ inherits "PlexSession" (ob_class Example.listed_movie) = false
    /\ inherits "PlexHistory" (ob_class Example.listed_movie) = false
    /\ attr_read self1 "_autoReload" = Ok auto
    /\ is_False auto = false.
Proof.
  apply (getattribute_asks_only_if (H := Example.imports)
           (H0 := Example.server) Example.listed_movie Example.world0
           "summary").
  intros Heq. apply (f_equal w_queries) in Heq.
  vm_compute in Heq. discriminate Heq.
Defined.

Lemma three_videos_bounded :
  bounded_server (H := Example.imports)
    (H0 := Fixtures.constant_server (Ok Fixtures.three_videos)) 3.
Proof.
  intros qs rq data Hdata. injection Hdata as <-. split; [| split].
  - right. exists 3. split; [vm_compute; reflexivity | lia].
  - intros name [<- | [<- | [<- | [<- | []]]]];
      [ right; exists 3 | right; exists 3 | left | left ];
      vm_compute; reflexivity.
  - simpl. lia.
Qed.

(** X12, witness: a server whose answer always holds three videos and
    reports the total 3; pages of two. *)
Lemma fetchItems_terminates_witness :
  exists out,
    (forall fuel, (3 < fuel)%nat ->
       fetchItems (H := Example.imports)
         (H0 := Fixtures.constant_server (Ok Fixtures.three_videos))
         (H1 := Example.registry) fuel (VStr "/library/sections/3/all")
         None None (Some 2) None VNone [] Example.listed_movie Example.world0
       = Some out)
    /\ (List.length (w_queries (world_of out)) <= 4)%nat.
Proof.
  apply (fetchItems_terminates (H := Example.imports)
           (H0 := Fixtures.constant_server (Ok Fixtures.three_videos))
           (H1 := Example.registry) 3 (VStr "/library/sections/3/all")
           None None (Some 2) None VNone [] Example.listed_movie
           Example.world0 three_videos_bounded).
  - reflexivity.
  - intros z [= <-]. lia.
  - intros m Hm. discriminate Hm.
Defined.


(** X14, witness: the items 1 and 2 asked for by their ids. *)
Lemma fetchItems_by_ids_witness :
  exists out,
    fetchItems (H := Example.imports)
      (H0 := Fixtures.constant_server (Ok Fixtures.three_videos))
      (H1 := Example.registry) 5 (VList (map VInt [1; 2])) None None None None
      VNone [] Example.listed_movie Example.world0 = Some out
    /\ exists rq rqs,
         w_queries (world_of out) = rq :: rqs
         /\ List.Forall
              (fun rq => rq_key rq = VStr "/library/metadata/1,2"
                         /\ rq_params rq = VNone)
              (rq :: rqs).
Proof.
  pose proof (fun out Hrun =>
      fetchItems_by_ids (H := Example.imports)
        (H0 := Fixtures.constant_server (Ok Fixtures.three_videos))
        (H1 := Example.registry) 5 [1; 2] None None None None VNone []
        Example.listed_movie Example.world0 out Hrun) as T.
  edestruct T as (_ & _ & rq & rqs & Hq & Hall);
    [ apply (option_some_inv _
               (Raise BadRequest, Example.listed_movie, Example.world0));
      vm_compute; reflexivity
    | ].
  assert (Hkey : "/library/metadata/"
                 +:+ String.concat "," (map str_of_Z [1; 2])
                 = "/library/metadata/1,2") by (vm_compute; reflexivity).
  rewrite Hkey in Hall.
  change (w_queries Example.world0 ++ rq :: rqs)%list with (rq :: rqs) in Hq.
  eexists. split;
    [ apply (option_some_inv _
               (Raise BadRequest, Example.listed_movie, Example.world0));
      vm_compute; reflexivity
    | ].
  exists rq, rqs. split; [exact Hq | exact Hall].
Defined.

(** X16, witness: the listed movie loads, from an answer with two views
    of it, the one that comes last. *)
Lemma findAndLoadElem_last_match_witness :
  ob_dict
    (self_of (_findAndLoadElem (H := Example.imports) Fixtures.two_views
                [("type", VStr "movie")] Example.listed_movie Example.world0))
    !! "_data"
  = Some (VElem Example.detailed_video).
Proof.
  destruct (findAndLoadElem_last_match (H := Example.imports)
              Fixtures.two_views [("type", VStr "movie")]
              Example.listed_movie Example.world0
              (fun data =>
                 [ ("key", Example.attr_of data "key");
                   ("title", Example.attr_of data "title");
                   ("summary", Example.attr_of data "summary");
                   ("librarySectionID",
                    Example.cast_int (Example.attr_of data "librarySectionID")) ]))
    as (_ & _ & Hlast).
  - reflexivity.
  - apply Movie_plain_private. simpl. tauto.
  - intros e [<- | [<- | []]]; eexists; vm_compute; reflexivity.
  - assert (Hl : last (List.filter (passes (H := Example.imports)
                                      [("type", VStr "movie")])
                         (children Fixtures.two_views))
                 = Some Example.detailed_video) by (vm_compute; reflexivity).
    rewrite Hl in Hlast. exact Hlast.
Defined.

(** X17, witness: the movie of session 7; the answer of the server has
    no session 7. *)
Lemma session_reload_inactive_witness :
  PlexSession_reload (H := Example.imports) (H0 := Example.server)
    (H1 := Fixtures.builtins) Fixtures.watching Example.world0
  = (Ok tt, Fixtures.watching,
     record_query Example.world0 (reload_request (VStr "/status/sessions"))).
Proof.
  apply (session_reload_inactive (H := Example.imports) (H0 := Example.server)
           (H1 := Fixtures.builtins) Fixtures.watching Example.world0
           (VStr "/status/sessions") (VInt 7)
           (Elem 10 "MediaContainer" [("size", "1")] [Example.detailed_video])).
  - vm_compute. reflexivity.
  - reflexivity.
  - reflexivity.
  - reflexivity.
  - intros Heq. vm_compute in Heq. discriminate Heq.
  - intros e [<- | []]. vm_compute. tauto.
Defined.

(** X18, witness: the movie without a key is full; it has no [name], its
    title is the first value. *)
Lemma firstAttr_full_witness :
  firstAttr (H := Example.imports) (H0 := Example.server)
    ["name"; "title"] Example.keyless_movie Example.world0
  = (Ok (VStr "Trailer"), Example.keyless_movie, Example.world0).
Proof.
  rewrite (firstAttr_full (H := Example.imports) (H0 := Example.server)
             ["name"; "title"] Example.keyless_movie Example.world0).
  - assert (Hfirst : first_set Example.keyless_movie ["name"; "title"]
                     = VStr "Trailer") by (vm_compute; reflexivity).
    now rewrite Hfirst.
  - vm_compute. reflexivity.
  - change (ob_class Example.keyless_movie) with Example.Movie.
    intros attr [<- | [<- | []]]; exact I.
Defined.

(** X20, witness: the construction of the listed movie. *)
Lemma new_initial_state_witness :
  ob_dict Example.listed_movie !! "_initpath"
  = Some (VStr "/library/sections/3/all")
  /\ ob_dict Example.listed_movie !! "_overwriteNone" = Some (VBool true)
  /\ ob_dict Example.listed_movie !! "_edits" = Some VNone.
Proof.
  destruct (new_initial_state (H := Example.imports) Example.Movie
              (Some Example.listed_video) (VStr "/library/sections/3/all")
              Example.world0)
    as (_ & _ & _ & Hinit & Hflag & _ & Hedits & _).
  - vm_compute. reflexivity.
  - reflexivity.
  - intros d f name [= <-] [= <-] Hin. cbn [names map fst] in Hin.
    destruct Hin as [<- | [<- | [<- | [<- | []]]]]; reflexivity.
  - auto.
Defined.

(** X22, witness: a folder in the listing of a section. *)
Lemma buildItemOrNone_unknown_witness :
  _buildItemOrNone (H := Example.imports) (H1 := Example.registry)
    Fixtures.folder None (VStr "/library/sections/3/all")
    Example.listed_movie Example.world0
  = (Ok None, Example.listed_movie, Example.world0).
Proof.
  apply (buildItemOrNone_unknown (H := Example.imports)
           (H1 := Example.registry) Fixtures.folder
           "/library/sections/3/all" Example.listed_movie Example.world0).
  - discriminate.
  - reflexivity.
Defined.


